(** * Tourism recommendation chatbot: recommendation ensemble, sustainability
      re-ranking and counterfactual rank-diff engine

    Shallow embedding of
      - [src/models/base_models.py]   (base recommenders),
      - [src/models/ensemble.py]      (hybrid recommender),
      - [src/sustainability/sustainability_scorer.py] and
        [src/sustainability/weighting.py] (re-ranking),
      - [src/explainability/counterfactual.py] (counterfactual explainer),
      - [src/evaluation/metrics.py]   (precision, recall, mean sustainability
        and diversity of a recommendation list),
      - [demo/app.py]                 (comparison of sustainability weights).

    Conventions of the embedding.
      - Python [float] values (and NumPy [float64] entries) are exact
        rationals [Q]; comparisons of scores are comparisons in [Q] and
        equalities between computed scores are stated with [==].
      - A Python call either returns or raises: [result A] is [Ok a] or
        [Raise e], with [e] the Python exception.
      - A Python class is a [Module]; its instances are the record [t] of
        that module, its methods are functions taking [self] first.
      - The number [n] of recommendations asked for is a natural number, and
        [l[:n]] is [firstn n l].
      - Inheritance from [BaseRecommender] is a field [base].
      - NumPy and the pickled files are outside the repository; what the code
        needs of them is the interface [NumPy] and [Storage] below. *)

From Stdlib Require Import String QArith Qabs ZArith Bool Lia Lqa.
From Stdlib Require Import List Permutation Sorted Morphisms Setoid.
Import ListNotations.

Open Scope string_scope.
Open Scope Q_scope.

Set Implicit Arguments.

(* ================================================================== *)
(** * Python runtime *)
(* ================================================================== *)

(** Exceptions the embedded code can raise.  [ValueError] carries the text
    the code formats; the others are raised by the interpreter, NumPy or
    pandas. *)
Inductive PyExn : Type :=
| ValueError (msg : string)
| IndexError
| KeyError (key : string)
| TypeError
| AttributeError
| ZeroDivisionError
| FileNotFoundError.

(** [type(e).__name__]. *)
Definition class_name (e : PyExn) : string :=
  match e with
  | ValueError _ => "ValueError"
  | IndexError => "IndexError"
  | KeyError _ => "KeyError"
  | TypeError => "TypeError"
  | AttributeError => "AttributeError"
  | ZeroDivisionError => "ZeroDivisionError"
  | FileNotFoundError => "FileNotFoundError"
  end.

Inductive result (A : Type) : Type :=
| Ok (a : A)
| Raise (e : PyExn).

Arguments Ok {A} a.
Arguments Raise {A} e.

Definition bind {A B : Type} (m : result A) (k : A -> result B) : result B :=
  match m with
  | Ok a => k a
  | Raise e => Raise e
  end.

Notation "x <- m ;; k" := (bind m (fun x => k))
  (at level 61, m at next level, right associativity).

(** A [for] loop whose body can raise: the first exception leaves the loop. *)
Fixpoint mapM {A B : Type} (f : A -> result B) (l : list A) : result (list B) :=
  match l with
  | [] => Ok []
  | a :: l' => b <- f a ;; bs <- mapM f l' ;; Ok (b :: bs)
  end.

Fixpoint foldM {A S : Type} (f : S -> A -> result S) (l : list A) (s : S)
  : result S :=
  match l with
  | [] => Ok s
  | a :: l' => s' <- f s a ;; foldM f l' s'
  end.

(** [sum(l)] of the builtins: a left fold from the integer [0]. *)
Definition py_sum (l : list Q) : Q := fold_left Qplus l 0.

(** [enumerate(l)]. *)
Definition enumerate {A : Type} (l : list A) : list (nat * A) :=
  combine (seq 0 (length l)) l.

(** [x / y] on Python floats. *)
Definition py_div (x y : Q) : result Q :=
  if Qeq_bool y 0 then Raise ZeroDivisionError else Ok (x / y).

Definition Qlt_bool (x y : Q) : bool := negb (Qle_bool y x).

(** [sorted(l, key=key, reverse=True)].  Python's sort is stable also with
    [reverse=True]: elements whose keys compare equal keep their input
    order.  The element [x] goes in front of the first element whose key does
    not exceed the key of [x]. *)
Section Sorted.
Variable A : Type.
Variable key : A -> Q.

Fixpoint insert_desc (x : A) (l : list A) : list A :=
  match l with
  | [] => [x]
  | y :: l' =>
      if Qle_bool (key y) (key x) then x :: y :: l'
      else y :: insert_desc x l'
  end.

Fixpoint sorted_desc (l : list A) : list A :=
  match l with
  | [] => []
  | x :: l' => insert_desc x (sorted_desc l')
  end.
End Sorted.

(* ================================================================== *)
(** * pandas and NumPy values *)
(* ================================================================== *)

(** A cell of a [DataFrame], and a value stored in a recommendation
    dictionary. *)
Inductive Value : Type :=
| VInt (z : Z)
| VFloat (q : Q)
| VStr (s : string).

(** Arithmetic on a cell ([cell / 10.0]) needs a number. *)
Definition as_float (v : Value) : result Q :=
  match v with
  | VInt z => Ok (inject_Z z)
  | VFloat q => Ok q
  | VStr _ => Raise TypeError
  end.

(** [cell == dest_id] for an integer [dest_id]. *)
Definition value_eq_int (v : Value) (z : Z) : bool :=
  match v with
  | VInt z' => Z.eqb z' z
  | VFloat q => Qeq_bool q (inject_Z z)
  | VStr _ => false
  end.

Definition Row : Type := list (string * Value).

Fixpoint row_lookup (col : string) (r : Row) : option Value :=
  match r with
  | [] => None
  | (c, v) :: r' => if String.eqb c col then Some v else row_lookup col r'
  end.

Fixpoint row_set (col : string) (v : Value) (r : Row) : Row :=
  match r with
  | [] => [(col, v)]
  | (c, v') :: r' =>
      if String.eqb c col then (c, v) :: r' else (c, v') :: row_set col v r'
  end.

Definition in_columns (col : string) (cols : list string) : bool :=
  existsb (String.eqb col) cols.

Module DataFrame.
Record t : Type := { columns : list string; rows : list Row }.

(** [row[col]]. *)
Definition getitem (r : Row) (col : string) : result Value :=
  match row_lookup col r with
  | Some v => Ok v
  | None => Raise (KeyError col)
  end.

Definition cell_matches (col : string) (z : Z) (r : Row) : bool :=
  match row_lookup col r with
  | Some v => value_eq_int v z
  | None => false
  end.

(** [df[df[col] == z]]: the rows whose [col] equals [z]. *)
Definition select_eq (df : t) (col : string) (z : Z) : result (list Row) :=
  if in_columns col (columns df)
  then Ok (filter (cell_matches col z) (rows df))
  else Raise (KeyError col).

(** [.iloc[0]]. *)
Definition iloc0 (rs : list Row) : result Row :=
  match rs with
  | [] => Raise IndexError
  | r :: _ => Ok r
  end.

(** [df.loc[df[col] == z, feature] = v] on a copy of [df]. *)
Definition loc_set (df : t) (col : string) (z : Z) (feature : string)
           (v : Value) : result t :=
  if in_columns col (columns df)
  then Ok {| columns :=
               if in_columns feature (columns df) then columns df
               else (columns df ++ [feature])%list;
             rows := map (fun r => if cell_matches col z r
                                   then row_set feature v r else r)
                         (rows df) |}
  else Raise (KeyError col).
End DataFrame.

(** A two-dimensional [ndarray]: [shape = (length mrows, ncols)].  NumPy
    arrays are rectangular; [Matrix_wf] states it. *)
Record Matrix : Type := { ncols : nat; mrows : list (list Q) }.

Definition Matrix_wf (m : Matrix) : Prop :=
  Forall (fun r => length r = ncols m) (mrows m).

(** [m[i]]. *)
Definition matrix_row (m : Matrix) (i : nat) : result (list Q) :=
  match nth_error (mrows m) i with
  | Some r => Ok r
  | None => Raise IndexError
  end.

(** [np.zeros(n)]. *)
Definition zeros (n : nat) : list Q := repeat 0 n.

Definition vec_neg (a : list Q) : list Q := map Qopp a.

Definition vec_scale (c : Q) (a : list Q) : list Q := map (Qmult c) a.

Fixpoint zip_with (f : Q -> Q -> Q) (a b : list Q) : list Q :=
  match a, b with
  | x :: a', y :: b' => f x y :: zip_with f a' b'
  | _, _ => []
  end.

(** [a += b] on one-dimensional arrays.  Operands of different lengths do not
    broadcast (the one case NumPy accepts, [b] of length 1, is not
    modelled) and raise [ValueError]. *)
Definition vec_iadd (a b : list Q) : result (list Q) :=
  if Nat.eqb (length a) (length b) then Ok (zip_with Qplus a b)
  else Raise (ValueError "operands could not be broadcast together").

(** [np.sum(m, axis=0)]. *)
Definition column_sums (m : Matrix) : list Q :=
  fold_left (zip_with Qplus) (mrows m) (zeros (ncols m)).

(** [a[i] = v]. *)
Fixpoint setitem (a : list Q) (i : nat) (v : Q) : result (list Q) :=
  match a, i with
  | [], _ => Raise IndexError
  | _ :: a', O => Ok (v :: a')
  | x :: a', S i' => a'' <- setitem a' i' v ;; Ok (x :: a'')
  end.

(** [np.where(ids == x)[0]]: the positions of [x], ascending. *)
Fixpoint where_eq (ids : list Z) (x : Z) (i : nat) : list nat :=
  match ids with
  | [] => []
  | y :: ids' =>
      if Z.eqb y x then i :: where_eq ids' x (S i) else where_eq ids' x (S i)
  end.

(** [np.where(row > 0)[0]]. *)
Fixpoint where_pos (row : list Q) (i : nat) : list nat :=
  match row with
  | [] => []
  | y :: row' =>
      if Qlt_bool 0 y then i :: where_pos row' (S i) else where_pos row' (S i)
  end.

(** What the code uses of NumPy and cannot be written over [Q] or is left
    open by NumPy.  [np.argsort] with its default [kind] is not a stable
    sort: which of two equal keys comes first is not specified, so [argsort]
    is any function returning the indices ordered by ascending key.
    [np.exp] is not rational; no property of it is used. *)
Class NumPy : Type := {
  argsort : list Q -> list nat;
  argsort_perm : forall a, Permutation (argsort a) (seq 0 (length a));
  argsort_sorted :
    forall a, StronglySorted (fun i j => nth i a 0 <= nth j a 0) (argsort a);
  exp : Q -> Q
}.

(** The recommendation dictionary built by [_format_recommendations].  The
    key [sustainability_score] is optional: the weighting code tests for
    it. *)
Module Rec.
Record t : Type := {
  destination_id : Z;
  name : Value;
  country : Value;
  sustainability_score : option Value;
  landscape : Value
}.
End Rec.

(* ================================================================== *)
(** * Base recommenders ([src/models/base_models.py]) *)
(* ================================================================== *)

(** What [load_data] reads from a directory of pickled files. *)
Record Processed : Type := {
  p_destinations : DataFrame.t;
  p_matrix : Matrix;
  p_user_ids : list Z;
  p_dest_ids : list Z
}.

(** The pickled files, by directory; a missing directory makes
    [pd.read_pickle] raise. *)
Class Storage : Type := { read_processed : string -> option Processed }.

(** [a[idx]] for an array of indices. *)
Definition take (a : list Q) (idx : list nat) : result (list Q) :=
  mapM (fun i => match nth_error a i with
                 | Some x => Ok x
                 | None => Raise IndexError
                 end) idx.

(** [a[mask]] for a boolean mask of the length of [a]. *)
Fixpoint mask_select (a : list nat) (mask : list bool) : list nat :=
  match a, mask with
  | x :: a', b :: mask' =>
      if b then x :: mask_select a' mask' else mask_select a' mask'
  | _, _ => []
  end.

(** [scores / np.sum(scores)] under the guard [np.sum(scores) > 0]. *)
Definition normalize (scores : list Q) : list Q :=
  let total := py_sum scores in
  if Qlt_bool 0 total then map (fun x => x / total) scores else scores.

(** The model describes recommenders after [load_data]; the [users] table,
    which no [recommend] reads, is left out. *)
Module BaseRecommender.
Record t : Type := {
  name : string;
  destinations : DataFrame.t;
  interaction_matrix : Matrix;
  user_ids : list Z;
  dest_ids : list Z
}.

(** [__init__].  The attributes are [None] until [load_data]; empty
    tables stand for them, and no [recommend] is run on such a value. *)
Definition init (name : string) : t :=
  {| name := name;
     destinations := {| DataFrame.columns := []; DataFrame.rows := [] |};
     interaction_matrix := {| ncols := 0; mrows := [] |};
     user_ids := [];
     dest_ids := [] |}.

Definition load_data `{Storage} (self : t) (processed_dir : string)
  : result t :=
  match read_processed processed_dir with
  | Some p => Ok {| name := name self;
                    destinations := p_destinations p;
                    interaction_matrix := p_matrix p;
                    user_ids := p_user_ids p;
                    dest_ids := p_dest_ids p |}
  | None => Raise FileNotFoundError
  end.

(** [np.where(self.user_ids == user_id)[0][0]] *)
Definition _get_user_index (self : t) (user_id : Z) : result nat :=
  match where_eq (user_ids self) user_id 0 with
  | [] => Raise IndexError
  | i :: _ => Ok i
  end.

Definition _get_destination_index (self : t) (dest_id : Z) : result nat :=
  match where_eq (dest_ids self) dest_id 0 with
  | [] => Raise IndexError
  | i :: _ => Ok i
  end.

Definition _get_destination_id (self : t) (dest_index : nat) : result Z :=
  match nth_error (dest_ids self) dest_index with
  | Some d => Ok d
  | None => Raise IndexError
  end.

Definition format_one (self : t) (idx : nat) : result Rec.t :=
  dest_id <- _get_destination_id self idx ;;
  sel <- DataFrame.select_eq (destinations self) "destination_id" dest_id ;;
  dest_info <- DataFrame.iloc0 sel ;;
  nm <- DataFrame.getitem dest_info "name" ;;
  co <- DataFrame.getitem dest_info "country" ;;
  ss <- DataFrame.getitem dest_info "overall_sustainability_score" ;;
  ls <- DataFrame.getitem dest_info "landscape_type" ;;
  Ok {| Rec.destination_id := dest_id;
        Rec.name := nm;
        Rec.country := co;
        Rec.sustainability_score := Some ss;
        Rec.landscape := ls |}.

Definition _format_recommendations (self : t) (dest_indices : list nat)
  : result (list Rec.t) :=
  mapM (format_one self) dest_indices.

(** [dest_indices[~visited[dest_indices]]] with
    [visited = self.interaction_matrix[user_idx] > 0]. *)
Definition unvisited (self : t) (user_idx : nat) (dest_indices : list nat)
  : result (list nat) :=
  row <- matrix_row (interaction_matrix self) user_idx ;;
  vals <- take row dest_indices ;;
  Ok (mask_select dest_indices (map (fun x => negb (Qlt_bool 0 x)) vals)).

(** The lines that close every [recommend] of the module: sort the
    destinations by descending score, drop the visited ones, keep [n],
    format. *)
Definition rank_and_format `{NumPy} (self : t) (user_idx : nat)
           (scores : list Q) (n : nat) (exclude_visited : bool)
  : result (list Rec.t) :=
  let dest_indices := argsort (vec_neg scores) in
  dest_indices <- (if exclude_visited
                   then unvisited self user_idx dest_indices
                   else Ok dest_indices) ;;
  let top_n_indices := firstn n dest_indices in
  _format_recommendations self top_n_indices.

(** [self.user_ids[user_index]] *)
Definition _get_user_id (self : t) (user_index : nat) : result Z :=
  match nth_error (user_ids self) user_index with
  | Some u => Ok u
  | None => Raise IndexError
  end.
End BaseRecommender.

Module PopularityRecommender.
Import BaseRecommender.

Record t : Type := { base : BaseRecommender.t; popularity_scores : list Q }.

Definition init : t :=
  {| base := BaseRecommender.init "PopularityRecommender";
     popularity_scores := [] |}.

Definition fit (self : t) : t :=
  {| base := base self;
     popularity_scores := column_sums (interaction_matrix (base self)) |}.

Definition recommend `{NumPy} (self : t) (user_id : Z) (n : nat)
           (exclude_visited : bool) : result (list Rec.t) :=
  user_idx <- _get_user_index (base self) user_id ;;
  rank_and_format (base self) user_idx (popularity_scores self) n
                  exclude_visited.
End PopularityRecommender.

Module ContentBasedRecommender.
Import BaseRecommender.

Record t : Type := { base : BaseRecommender.t; feature_similarity : Matrix }.

Definition init : t :=
  {| base := BaseRecommender.init "ContentBasedRecommender";
     feature_similarity := {| ncols := 0; mrows := [] |} |}.

(** [PopularityRecommender()], [load_data()], [fit()] of the fallback. *)
Definition fallback `{Storage} : result PopularityRecommender.t :=
  b <- load_data (PopularityRecommender.base PopularityRecommender.init)
                 "data/processed" ;;
  Ok (PopularityRecommender.fit
        {| PopularityRecommender.base := b;
           PopularityRecommender.popularity_scores := [] |}).

Definition similarity_scores (self : t) (visited_indices : list nat)
  : result (list Q) :=
  acc <- foldM (fun acc idx =>
                  r <- matrix_row (feature_similarity self) idx ;;
                  vec_iadd acc r)
               visited_indices (zeros (length (dest_ids (base self)))) ;;
  Ok (map (fun x => x / inject_Z (Z.of_nat (length visited_indices))) acc).

Definition recommend `{NumPy} `{Storage} (self : t) (user_id : Z) (n : nat)
           (exclude_visited : bool) : result (list Rec.t) :=
  user_idx <- _get_user_index (base self) user_id ;;
  row <- matrix_row (interaction_matrix (base self)) user_idx ;;
  let visited_indices := where_pos row 0 in
  if Nat.eqb (length visited_indices) 0
  then recommender <- fallback ;;
       PopularityRecommender.recommend recommender user_id n exclude_visited
  else scores <- similarity_scores self visited_indices ;;
       rank_and_format (base self) user_idx scores n exclude_visited.
End ContentBasedRecommender.

Module CollaborativeFilteringRecommender.
Import BaseRecommender.

(** [fit] rejects every [method] other than these two. *)
Inductive Method : Type := user | item.

Record t : Type := {
  base : BaseRecommender.t;
  method : Method;
  similarity_matrix : Matrix
}.

(** [f"{method.capitalize()}BasedCF"] *)
Definition name_of (m : Method) : string :=
  match m with user => "UserBasedCF" | item => "ItemBasedCF" end.

Definition init (method : Method) : t :=
  {| base := BaseRecommender.init (name_of method);
     method := method;
     similarity_matrix := {| ncols := 0; mrows := [] |} |}.

(** The similarity row of the target user with its own entry zeroed.  In the
    source the row is a view, so the zero is also written into
    [self.similarity_matrix]; every later call for the same user writes the
    same zero again and no other call reads that entry, so the write is not
    kept as state here. *)
Definition user_similarities (self : t) (user_idx : nat) : result (list Q) :=
  row <- matrix_row (similarity_matrix self) user_idx ;;
  setitem row user_idx 0.

(** [np.argsort(-user_similarities)[:20]] *)
Definition similar_users `{NumPy} (sims : list Q) : list nat :=
  firstn 20 (argsort (vec_neg sims)).

(** The loop over [similar_users]; an index returned by [argsort] is in
    range of [sims]. *)
Definition accumulate_user (self : t) (sims : list Q) (similar : list nat)
  : result (list Q) :=
  foldM (fun scores similar_user_idx =>
           let s := nth similar_user_idx sims 0 in
           if Qle_bool s 0 then Ok scores
           else r <- matrix_row (interaction_matrix (base self))
                                similar_user_idx ;;
                vec_iadd scores (vec_scale s r))
        similar (zeros (ncols (interaction_matrix (base self)))).

Definition user_scores `{NumPy} (self : t) (user_idx : nat)
  : result (list Q) :=
  sims <- user_similarities self user_idx ;;
  scores <- accumulate_user self sims (similar_users sims) ;;
  Ok (normalize scores).

Definition item_scores (self : t) (user_idx : nat) : result (list Q) :=
  user_interactions <- matrix_row (interaction_matrix (base self))
                                  user_idx ;;
  scores <- foldM (fun scores (p : nat * Q) =>
                     let (i, has_visited) := p in
                     if Qlt_bool 0 has_visited
                     then similarities <-
                            matrix_row (similarity_matrix self) i ;;
                          vec_iadd scores similarities
                     else Ok scores)
                  (enumerate user_interactions)
                  (zeros (length (dest_ids (base self)))) ;;
  Ok (normalize scores).

Definition recommend `{NumPy} (self : t) (user_id : Z) (n : nat)
           (exclude_visited : bool) : result (list Rec.t) :=
  user_idx <- _get_user_index (base self) user_id ;;
  scores <- match method self with
            | user => user_scores self user_idx
            | item => item_scores self user_idx
            end ;;
  rank_and_format (base self) user_idx scores n exclude_visited.
End CollaborativeFilteringRecommender.

(** The recommenders an ensemble is built from
    ([create_default_hybrid_recommender]). *)
Inductive Recommender : Type :=
| Popularity (r : PopularityRecommender.t)
| ContentBased (r : ContentBasedRecommender.t)
| CollaborativeFiltering (r : CollaborativeFilteringRecommender.t).

Definition base_of (r : Recommender) : BaseRecommender.t :=
  match r with
  | Popularity r => PopularityRecommender.base r
  | ContentBased r => ContentBasedRecommender.base r
  | CollaborativeFiltering r => CollaborativeFilteringRecommender.base r
  end.

(** [recommender.recommend(user_id, n=n, exclude_visited=exclude_visited)] *)
Definition recommend `{NumPy} `{Storage} (r : Recommender) (user_id : Z)
           (n : nat) (exclude_visited : bool) : result (list Rec.t) :=
  match r with
  | Popularity r => PopularityRecommender.recommend r user_id n exclude_visited
  | ContentBased r =>
      ContentBasedRecommender.recommend r user_id n exclude_visited
  | CollaborativeFiltering r =>
      CollaborativeFilteringRecommender.recommend r user_id n exclude_visited
  end.

(* ================================================================== *)
(** * Sustainability re-ranking *)
(* ================================================================== *)

(** The dictionary both re-rankers build per recommendation before sorting. *)
Module Weighted.
Record t : Type := {
  recommendation : Rec.t;
  weighted_score : Q;
  base_score : Q;
  sustainability_score : Q
}.
End Weighted.

(** [src/sustainability/sustainability_scorer.py] *)
Module SustainabilityScorer.
Record t : Type := { destinations : option DataFrame.t }.

(** [self.destinations] after the [load_data()] that the methods run when
    it is [None].  The assignment to [self.destinations] that [load_data]
    performs is a cache of the file and is not part of the state here. *)
Definition loaded `{Storage} (self : t) : result DataFrame.t :=
  match destinations self with
  | Some df => Ok df
  | None => match read_processed "data/processed" with
            | Some p => Ok (p_destinations p)
            | None => Raise FileNotFoundError
            end
  end.

Definition get_sustainability_score (df : DataFrame.t) (destination_id : Z)
  : result Value :=
  dest <- DataFrame.select_eq df "destination_id" destination_id ;;
  match dest with
  | [] => Ok (VFloat 0)
  | r :: _ => DataFrame.getitem r "overall_sustainability_score"
  end.

Definition weigh (df : DataFrame.t) (weight : Q) (n_recs : nat)
           (p : nat * Rec.t) : result Weighted.t :=
  let (i, rec) := p in
  let dest_id := Rec.destination_id rec in
  let base_score :=
    if Nat.ltb 1 n_recs
    then inject_Z (Z.of_nat n_recs - Z.of_nat i) / inject_Z (Z.of_nat n_recs)
    else 1 in
  v <- get_sustainability_score df dest_id ;;
  s <- as_float v ;;
  let sustainability_score := s / 10 in
  let weighted_score :=
    (1 - weight) * base_score + weight * sustainability_score in
  Ok {| Weighted.recommendation := rec;
        Weighted.weighted_score := weighted_score;
        Weighted.base_score := base_score;
        Weighted.sustainability_score := sustainability_score |}.

Definition apply_sustainability_weighting `{Storage} (self : t)
           (recommendations : list Rec.t) (weight : Q)
  : result (list Rec.t) :=
  df <- loaded self ;;
  let n_recs := length recommendations in
  weighted_recs <- mapM (weigh df weight n_recs)
                        (enumerate recommendations) ;;
  let weighted_recs := sorted_desc Weighted.weighted_score weighted_recs in
  Ok (map Weighted.recommendation weighted_recs).

(** [self.sustainability_weights] of [__init__]. *)
Definition sustainability_weights : list (string * Q) :=
  [ ("carbon_footprint_score", 0.25);
    ("water_consumption_score", 0.20);
    ("waste_management_score", 0.20);
    ("biodiversity_impact_score", 0.20);
    ("local_economy_support_score", 0.15) ].

(** The dictionary of [get_detailed_sustainability_scores], in insertion
    order. *)
Definition get_detailed_sustainability_scores (df : DataFrame.t)
           (destination_id : Z) : result (list (string * Value)) :=
  dest <- DataFrame.select_eq df "destination_id" destination_id ;;
  match dest with
  | [] => Ok []
  | r :: _ =>
      scores <- mapM (fun metric =>
                        v <- DataFrame.getitem r metric ;; Ok (metric, v))
                     (map fst sustainability_weights) ;;
      overall <- DataFrame.getitem r "overall_sustainability_score" ;;
      Ok (scores ++ [("overall", overall)])%list
  end.

(** The test [sustainability_score >= threshold] of
    [filter_by_sustainability_threshold] for one recommendation. *)
Definition meets_threshold (df : DataFrame.t) (threshold : Q) (rec : Rec.t)
  : result bool :=
  v <- get_sustainability_score df (Rec.destination_id rec) ;;
  s <- as_float v ;;
  Ok (Qle_bool threshold s).

Definition filter_by_sustainability_threshold `{Storage} (self : t)
           (recommendations : list Rec.t) (threshold : Q)
  : result (list Rec.t) :=
  df <- loaded self ;;
  foldM (fun filtered_recs rec =>
           keep <- meets_threshold df threshold rec ;;
           Ok (if keep then (filtered_recs ++ [rec])%list
               else filtered_recs))
        recommendations [].
End SustainabilityScorer.

(** Keyword arguments forwarded to a weighting function. *)
Definition Kwargs : Type := list (string * Q).

Definition WeightingFunction : Type := Q -> Q -> Q -> Kwargs -> result Q.

(** [src/sustainability/weighting.py] *)
Module SustainabilityWeighting.
Record t : Type := { weighting_functions : list (string * WeightingFunction) }.

Definition _linear_weighting (base_score sustainability_score weight : Q)
  : Q :=
  (1 - weight) * base_score + weight * sustainability_score.

(** [sustainability_score ** 2] raises [OverflowError] on a Python float
    beyond about 1.3e154; the statements that say the scheme returns take
    scores on the documented scale. *)
Definition _quadratic_weighting (base_score sustainability_score weight : Q)
  : Q :=
  let sustainability_factor := sustainability_score * sustainability_score in
  (1 - weight) * base_score + weight * sustainability_factor.

Definition sigmoid `{NumPy} (x : Q) : Q :=
  1 / (1 + exp (- (10) * (x - 0.5))).

Definition _sigmoid_weighting `{NumPy}
           (base_score sustainability_score weight : Q) : Q :=
  let sustainability_factor := sigmoid sustainability_score in
  (1 - weight) * base_score + weight * sustainability_factor.

(** The division is the division of Python floats, which raises on a zero
    [threshold]; on [numpy.float64] operands a zero [threshold] gives [inf]
    with a warning instead, and the statements about this function take a
    threshold that is not zero. *)
Definition _threshold_weighting
           (base_score sustainability_score weight threshold : Q)
  : result Q :=
  sustainability_factor <-
    (if Qlt_bool sustainability_score threshold
     then penalty <- py_div (threshold - sustainability_score) threshold ;;
          Ok (sustainability_score * (1 - penalty * weight))
     else Ok sustainability_score) ;;
  Ok ((1 - weight) * base_score + weight * sustainability_factor).

(** A call [f(base, sust, weight, **kwargs)] of a function without further
    parameters: any keyword is a [TypeError]. *)
Definition no_kwargs (f : Q -> Q -> Q -> Q) : WeightingFunction :=
  fun b s w kwargs =>
    match kwargs with
    | [] => Ok (f b s w)
    | _ :: _ => Raise TypeError
    end.

(** [_threshold_weighting] accepts the keyword [threshold], default 0.7. *)
Definition threshold_kwargs : WeightingFunction :=
  fun b s w kwargs =>
    match kwargs with
    | [] => _threshold_weighting b s w 0.7
    | [(k, th)] => if String.eqb k "threshold"
                   then _threshold_weighting b s w th
                   else Raise TypeError
    | _ => Raise TypeError
    end.

(** [__init__] *)
Definition init `{NumPy} : t :=
  {| weighting_functions :=
       [ ("linear", no_kwargs _linear_weighting);
         ("quadratic", no_kwargs _quadratic_weighting);
         ("sigmoid", no_kwargs _sigmoid_weighting);
         ("threshold", threshold_kwargs) ] |}.

Fixpoint lookup (fs : list (string * WeightingFunction)) (scheme : string)
  : option WeightingFunction :=
  match fs with
  | [] => None
  | (k, f) :: fs' => if String.eqb k scheme then Some f else lookup fs' scheme
  end.

Fixpoint store (fs : list (string * WeightingFunction)) (k : string)
         (f : WeightingFunction) : list (string * WeightingFunction) :=
  match fs with
  | [] => [(k, f)]
  | (k', f') :: fs' =>
      if String.eqb k' k then (k', f) :: fs' else (k', f') :: store fs' k f
  end.

Definition register_custom_weighting (self : t) (name : string)
           (function : WeightingFunction) : t :=
  {| weighting_functions := store (weighting_functions self) name function |}.

(** [str(list(self.weighting_functions.keys()))] *)
Definition keys_repr (self : t) : string :=
  "[" ++ String.concat ", "
           (map (fun p => "'" ++ fst p ++ "'") (weighting_functions self))
      ++ "]".

Definition unknown_scheme (self : t) (scheme : string) : PyExn :=
  ValueError ("Unknown weighting scheme: " ++ scheme
              ++ ". Available schemes: " ++ keys_repr self).

Definition apply_weighting (self : t)
           (base_scores sustainability_scores : list Q) (scheme : string)
           (weight : Q) (kwargs : Kwargs) : result (list Q) :=
  match lookup (weighting_functions self) scheme with
  | None => Raise (unknown_scheme self scheme)
  | Some weighting_function =>
      mapM (fun p : Q * Q =>
              let (base, sust) := p in
              weighting_function base sust weight kwargs)
           (combine base_scores sustainability_scores)
  end.

(** [rec["sustainability_score"] / 10 if "sustainability_score" in rec
    else 0.5] *)
Definition rec_sustainability (rec : Rec.t) : result Q :=
  match Rec.sustainability_score rec with
  | Some v => s <- as_float v ;; Ok (s / 10)
  | None => Ok 0.5
  end.

Definition positional_scores (n_recs : nat) : list Q :=
  map (fun i => inject_Z (Z.of_nat n_recs - Z.of_nat i)
                / inject_Z (Z.of_nat n_recs))
      (seq 0 n_recs).

(** The three score lists have the length of [recommendations], so the
    indexed reads of the source are reads of a zip. *)
Definition combine_scores (recommendations : list Rec.t)
           (base_scores sustainability_scores weighted_scores : list Q)
  : list Weighted.t :=
  map (fun p : Rec.t * (Q * (Q * Q)) =>
         let '(rec, (b, (s, w))) := p in
         {| Weighted.recommendation := rec;
            Weighted.base_score := b;
            Weighted.sustainability_score := s;
            Weighted.weighted_score := w |})
      (combine recommendations
               (combine base_scores
                        (combine sustainability_scores weighted_scores))).

Definition apply_weighting_to_recommendations (self : t)
           (recommendations : list Rec.t) (scheme : string) (weight : Q)
           (kwargs : Kwargs) : result (list Rec.t) :=
  match recommendations with
  | [] => Ok []
  | _ :: _ =>
      let n_recs := length recommendations in
      let base_scores := positional_scores n_recs in
      sustainability_scores <- mapM rec_sustainability recommendations ;;
      weighted_scores <- apply_weighting self base_scores
                                         sustainability_scores scheme weight
                                         kwargs ;;
      let weighted_recs :=
        combine_scores recommendations base_scores sustainability_scores
                       weighted_scores in
      let weighted_recs :=
        sorted_desc Weighted.weighted_score weighted_recs in
      Ok (map Weighted.recommendation weighted_recs)
  end.
End SustainabilityWeighting.

(* ================================================================== *)
(** * Hybrid recommender ([src/models/ensemble.py]) *)
(* ================================================================== *)

Module HybridRecommender.
(** A value of the dictionary [all_recommendations]. *)
Record Entry : Type := {
  recommendation : Rec.t;
  score : Q;
  sources : list string
}.

(** [destinations] is the attribute inherited from [BaseRecommender] and
    [sustainability_scorer] the scorer; both are [None] until
    [load_data]. *)
Record t : Type := {
  destinations : option DataFrame.t;
  recommenders : list Recommender;
  weights : list Q;
  sustainability_weight : Q;
  sustainability_scorer : option SustainabilityScorer.t
}.

(** [HybridRecommender()] *)
Definition init : t :=
  {| destinations := None;
     recommenders := [];
     weights := [];
     sustainability_weight := 0.3;
     sustainability_scorer := None |}.

(** On [ZeroDivisionError] the two appends have already happened; the
    model keeps no state for a call that raises.  The total is the exact sum:
    for weights that are not negative it is zero exactly when the float sum
    is; for weights of both signs the float sum can cancel differently, and
    the statements about this function take weights that are not
    negative. *)
Definition add_recommender (self : t) (recommender : Recommender)
           (weight : Q) : result t :=
  let recommenders' := (recommenders self ++ [recommender])%list in
  let weights' := (weights self ++ [weight])%list in
  let total_weight := py_sum weights' in
  weights'' <- mapM (fun w => py_div w total_weight) weights' ;;
  Ok {| destinations := destinations self;
        recommenders := recommenders';
        weights := weights'';
        sustainability_weight := sustainability_weight self;
        sustainability_scorer := sustainability_scorer self |}.

(** The dictionary keeps its keys in insertion order. *)
Fixpoint upsert (all : list (Z * Entry)) (dest_id : Z) (rec : Rec.t)
         (sc : Q) (source : string) : list (Z * Entry) :=
  match all with
  | [] => [(dest_id, {| recommendation := rec;
                        score := sc;
                        sources := [source] |})]
  | (k, e) :: all' =>
      if Z.eqb k dest_id
      then (k, {| recommendation := recommendation e;
                  score := score e + sc;
                  sources := (sources e ++ [source])%list |}) :: all'
      else (k, e) :: upsert all' dest_id rec sc source
  end.

(** The inner loop over [enumerate(recs)]. *)
Definition merge (all : list (Z * Entry)) (source : string) (weight : Q)
           (recs : list Rec.t) : list (Z * Entry) :=
  fold_left (fun all (p : nat * Rec.t) =>
               let (j, rec) := p in
               let sc := weight * (1 - inject_Z (Z.of_nat j)
                                       / inject_Z (Z.of_nat (length recs))) in
               upsert all (Rec.destination_id rec) rec sc source)
            (enumerate recs) all.

(** The outer loop over [enumerate(self.recommenders)]. *)
Definition collect `{NumPy} `{Storage} (self : t) (user_id : Z) (n : nat)
           (exclude_visited : bool) : result (list (Z * Entry)) :=
  foldM (fun all (p : nat * Recommender) =>
           let (i, recommender) := p in
           recs <- recommend recommender user_id (n * 2) exclude_visited ;;
           weight <- match nth_error (weights self) i with
                     | Some w => Ok w
                     | None => Raise IndexError
                     end ;;
           Ok (merge all (BaseRecommender.name (base_of recommender))
                     weight recs))
        (enumerate (recommenders self)) [].

(** [recommend] up to and including [top_recommendations = ...[:n]]. *)
Definition combined `{NumPy} `{Storage} (self : t) (user_id : Z) (n : nat)
           (exclude_visited : bool) : result (list Rec.t) :=
  match recommenders self with
  | [] => Raise (ValueError "No recommenders added to hybrid model")
  | _ :: _ =>
      all_recommendations <- collect self user_id n exclude_visited ;;
      let sorted_recommendations :=
        sorted_desc score (map snd all_recommendations) in
      Ok (map recommendation (firstn n sorted_recommendations))
  end.

Definition recommend `{NumPy} `{Storage} (self : t) (user_id : Z) (n : nat)
           (exclude_visited : bool) : result (list Rec.t) :=
  top_recommendations <- combined self user_id n exclude_visited ;;
  if Qlt_bool 0 (sustainability_weight self)
  then match sustainability_scorer self with
       | None => Raise AttributeError
       | Some scorer =>
           SustainabilityScorer.apply_sustainability_weighting
             scorer top_recommendations (sustainability_weight self)
       end
  else Ok top_recommendations.
End HybridRecommender.

(* ================================================================== *)
(** * Counterfactual explainer ([src/explainability/counterfactual.py]) *)
(* ================================================================== *)

Module CounterfactualExplainer.
(** The object held in [self.recommender]. *)
Inductive AnyRecommender : Type :=
| Base (r : Recommender)
| Hybrid (h : HybridRecommender.t).

Record t : Type := {
  recommender : option AnyRecommender;
  destinations : option DataFrame.t
}.

Definition run `{NumPy} `{Storage} (r : AnyRecommender) (user_id : Z)
  : result (list Rec.t) :=
  match r with
  | Base b => recommend b user_id 20 true
  | Hybrid h => HybridRecommender.recommend h user_id 20 true
  end.

(** [self.recommender.sustainability_weight]: only the hybrid recommender
    has the attribute. *)
Definition get_weight (r : AnyRecommender) : result Q :=
  match r with
  | Base _ => Raise AttributeError
  | Hybrid h => Ok (HybridRecommender.sustainability_weight h)
  end.

Definition set_weight (r : AnyRecommender) (w : Q) : AnyRecommender :=
  match r with
  | Base b => Base b
  | Hybrid h =>
      Hybrid {| HybridRecommender.destinations :=
                  HybridRecommender.destinations h;
                HybridRecommender.recommenders :=
                  HybridRecommender.recommenders h;
                HybridRecommender.weights := HybridRecommender.weights h;
                HybridRecommender.sustainability_weight := w;
                HybridRecommender.sustainability_scorer :=
                  HybridRecommender.sustainability_scorer h |}
  end.

Definition set_base_destinations (b : BaseRecommender.t) (df : DataFrame.t)
  : BaseRecommender.t :=
  {| BaseRecommender.name := BaseRecommender.name b;
     BaseRecommender.destinations := df;
     BaseRecommender.interaction_matrix :=
       BaseRecommender.interaction_matrix b;
     BaseRecommender.user_ids := BaseRecommender.user_ids b;
     BaseRecommender.dest_ids := BaseRecommender.dest_ids b |}.

(** [self.recommender.destinations] *)
Definition get_destinations (r : AnyRecommender) : option DataFrame.t :=
  match r with
  | Base b => Some (BaseRecommender.destinations (base_of b))
  | Hybrid h => HybridRecommender.destinations h
  end.

(** [self.recommender.destinations = d].  A base recommender is modelled
    after [load_data], and the explainer only assigns tables to it. *)
Definition set_destinations (r : AnyRecommender) (d : option DataFrame.t)
  : AnyRecommender :=
  match r, d with
  | Hybrid h, _ =>
      Hybrid {| HybridRecommender.destinations := d;
                HybridRecommender.recommenders :=
                  HybridRecommender.recommenders h;
                HybridRecommender.weights := HybridRecommender.weights h;
                HybridRecommender.sustainability_weight :=
                  HybridRecommender.sustainability_weight h;
                HybridRecommender.sustainability_scorer :=
                  HybridRecommender.sustainability_scorer h |}
  | Base (Popularity p), Some df =>
      Base (Popularity
              {| PopularityRecommender.base :=
                   set_base_destinations (PopularityRecommender.base p) df;
                 PopularityRecommender.popularity_scores :=
                   PopularityRecommender.popularity_scores p |})
  | Base (ContentBased c), Some df =>
      Base (ContentBased
              {| ContentBasedRecommender.base :=
                   set_base_destinations (ContentBasedRecommender.base c) df;
                 ContentBasedRecommender.feature_similarity :=
                   ContentBasedRecommender.feature_similarity c |})
  | Base (CollaborativeFiltering c), Some df =>
      Base (CollaborativeFiltering
              {| CollaborativeFilteringRecommender.base :=
                   set_base_destinations
                     (CollaborativeFilteringRecommender.base c) df;
                 CollaborativeFilteringRecommender.method :=
                   CollaborativeFilteringRecommender.method c;
                 CollaborativeFilteringRecommender.similarity_matrix :=
                   CollaborativeFilteringRecommender.similarity_matrix c |})
  | Base b, None => Base b
  end.

(** The loop [for i, rec in enumerate(recs): if rec["destination_id"] ==
    dest_id: rank = i + 1; break]. *)
Fixpoint find_rank (recs : list Rec.t) (dest_id : Z) (i : nat) : option nat :=
  match recs with
  | [] => None
  | rec :: recs' =>
      if Z.eqb (Rec.destination_id rec) dest_id then Some (i + 1)%nat
      else find_rank recs' dest_id (S i)
  end.

(** The dictionaries returned under the key ["error"]. *)
Inductive ErrorDict : Type :=
| DestinationNotFound (dest_id : Z)
| FeatureNotFound (feature : string).

(** [new_rank]: a rank or the string ["Not in top 20"]. *)
Inductive NewRank : Type := Rank (r : nat) | NotInTop20.

(** [rank_change]: a difference or the string ["Dropped out"]. *)
Inductive RankChange : Type := Change (d : Z) | DroppedOut.

Definition rank_change_of (current_rank : nat) (new_rank : option nat)
  : RankChange :=
  match new_rank with
  | Some r => Change (Z.of_nat current_rank - Z.of_nat r)
  | None => DroppedOut
  end.

Definition new_rank_of (new_rank : option nat) : NewRank :=
  match new_rank with Some r => Rank r | None => NotInTop20 end.

Record Moved : Type := { m_name : Value; m_sustainability_score : Value }.

Record SustainabilityExplanation : Type := {
  s_destination_id : Z;
  s_destination_name : Value;
  s_sustainability_score : Value;
  s_current_weight : Q;
  s_counterfactual_weight : Q;
  s_current_rank : nat;
  s_counterfactual_rank : NewRank;
  s_rank_change : RankChange;
  s_moved_up : list Moved;
  s_moved_down : list Moved
}.

Record FeatureExplanation : Type := {
  f_destination_id : Z;
  f_destination_name : Value;
  f_feature : string;
  f_current_value : Value;
  f_counterfactual_value : Value;
  f_current_rank : nat;
  f_counterfactual_rank : NewRank;
  f_rank_change : RankChange
}.

Inductive Output (E : Type) : Type :=
| Error (e : ErrorDict)
| Explanation (x : E).

Arguments Error {E} e.
Arguments Explanation {E} x.

(** [if self.destinations is None: self.load_data()], returning the table
    now held in [self.destinations]. *)
Definition load_data `{Storage} (self : t) : result (t * DataFrame.t) :=
  match destinations self with
  | Some df => Ok (self, df)
  | None => match read_processed "data/processed" with
            | Some p => Ok ({| recommender := recommender self;
                               destinations := Some (p_destinations p) |},
                            p_destinations p)
            | None => Raise FileNotFoundError
            end
  end.

(** [{"name": recs[i]["name"], "sustainability_score":
    recs[i]["sustainability_score"]}] *)
Definition moved_entry (recs : list Rec.t) (i : nat) : result Moved :=
  match nth_error recs i with
  | None => Raise IndexError
  | Some rec =>
      match Rec.sustainability_score rec with
      | None => Raise (KeyError "sustainability_score")
      | Some s => Ok {| m_name := Rec.name rec;
                        m_sustainability_score := s |}
      end
  end.

(** [range(a, b)] *)
Definition range (a b : nat) : list nat := seq a (b - a).

(** The two loops that fill [moved_up] and [moved_down]. *)
Definition moved (current counterfactual : list Rec.t) (current_rank : nat)
           (new_rank : option nat) : result (list Moved * list Moved) :=
  match new_rank with
  | None => Ok ([], [])
  | Some new_rank =>
      if Nat.eqb current_rank new_rank then Ok ([], [])
      else if Nat.ltb new_rank current_rank
      then moved_down <-
             mapM (moved_entry counterfactual)
                  (filter (fun i => Nat.ltb i (length current))
                          (range (new_rank - 1) (current_rank - 1))) ;;
           Ok ([], moved_down)
      else moved_up <-
             mapM (fun i => moved_entry counterfactual (i - 1))
                  (filter (fun i => Nat.ltb i (length counterfactual))
                          (range current_rank new_rank)) ;;
           Ok (moved_up, [])
  end.
Definition with_recommender (self : t) (r : AnyRecommender) : t :=
  {| recommender := Some r; destinations := destinations self |}.

(** The statements after [# Reset original weight]. *)
Definition sustainability_explanation (df : DataFrame.t) (dest_id : Z)
           (sustainability_weight target_weight : Q)
           (current counterfactual : list Rec.t) (current_rank : nat)
  : result (Output SustainabilityExplanation) :=
  let new_rank := find_rank counterfactual dest_id 0 in
  sel <- DataFrame.select_eq df "destination_id" dest_id ;;
  dest_info <- DataFrame.iloc0 sel ;;
  sustainability_score <-
    DataFrame.getitem dest_info "overall_sustainability_score" ;;
  mv <- moved current counterfactual current_rank new_rank ;;
  destination_name <- DataFrame.getitem dest_info "name" ;;
  Ok (Explanation
        {| s_destination_id := dest_id;
           s_destination_name := destination_name;
           s_sustainability_score := sustainability_score;
           s_current_weight := sustainability_weight;
           s_counterfactual_weight := target_weight;
           s_current_rank := current_rank;
           s_counterfactual_rank := new_rank_of new_rank;
           s_rank_change := rank_change_of current_rank new_rank;
           s_moved_up := fst mv;
           s_moved_down := snd mv |}).

(** A call returns its outcome and leaves the explainer, with the
    recommender it holds, in the second component: an exception does not
    undo the assignments made before it. *)
Definition generate_sustainability_counterfactual `{NumPy} `{Storage}
           (self : t) (user_id dest_id : Z)
           (sustainability_weight target_weight : Q)
  : result (Output SustainabilityExplanation) * t :=
  match recommender self with
  | None => (Raise (ValueError "Recommender not provided or initialized"),
             self)
  | Some r =>
  match load_data self with
  | Raise e => (Raise e, self)
  | Ok (self, df) =>
  match run r user_id with
  | Raise e => (Raise e, self)
  | Ok current_recommendations =>
  match find_rank current_recommendations dest_id 0 with
  | None => (Ok (Error (DestinationNotFound dest_id)), self)
  | Some current_rank =>
  (* Store original weight *)
  match get_weight r with
  | Raise e => (Raise e, self)
  | Ok original_weight =>
  (* Set counterfactual weight *)
  let r := set_weight r target_weight in
  let self := with_recommender self r in
  (* Get counterfactual recommendations *)
  match run r user_id with
  | Raise e => (Raise e, self)
  | Ok counterfactual_recommendations =>
  (* Reset original weight *)
  let r := set_weight r original_weight in
  let self := with_recommender self r in
  (sustainability_explanation df dest_id sustainability_weight target_weight
                              current_recommendations
                              counterfactual_recommendations current_rank,
   self)
  end end end end end end.

(** [dest_info], [current_value] and [modified_destinations]. *)
Definition modified_destinations (df : DataFrame.t) (dest_id : Z)
           (feature : string) (target_value : Value)
  : result (Row * Value * DataFrame.t) :=
  sel <- DataFrame.select_eq df "destination_id" dest_id ;;
  dest_info <- DataFrame.iloc0 sel ;;
  current_value <- DataFrame.getitem dest_info feature ;;
  modified <- DataFrame.loc_set df "destination_id" dest_id feature
                                target_value ;;
  Ok (dest_info, current_value, modified).

(** The statements after [# Reset original destinations]. *)
Definition feature_explanation (dest_info : Row) (dest_id : Z)
           (feature : string) (current_value target_value : Value)
           (counterfactual : list Rec.t) (current_rank : nat)
  : result (Output FeatureExplanation) :=
  let new_rank := find_rank counterfactual dest_id 0 in
  destination_name <- DataFrame.getitem dest_info "name" ;;
  Ok (Explanation
        {| f_destination_id := dest_id;
           f_destination_name := destination_name;
           f_feature := feature;
           f_current_value := current_value;
           f_counterfactual_value := target_value;
           f_current_rank := current_rank;
           f_counterfactual_rank := new_rank_of new_rank;
           f_rank_change := rank_change_of current_rank new_rank |}).

Definition generate_feature_counterfactual `{NumPy} `{Storage}
           (self : t) (user_id dest_id : Z) (feature : string)
           (target_value : Value)
  : result (Output FeatureExplanation) * t :=
  match recommender self with
  | None => (Raise (ValueError "Recommender not provided or initialized"),
             self)
  | Some r =>
  match load_data self with
  | Raise e => (Raise e, self)
  | Ok (self, df) =>
  (* Check if feature exists *)
  if negb (in_columns feature (DataFrame.columns df))
  then (Ok (Error (FeatureNotFound feature)), self)
  else
  match run r user_id with
  | Raise e => (Raise e, self)
  | Ok current_recommendations =>
  match find_rank current_recommendations dest_id 0 with
  | None => (Ok (Error (DestinationNotFound dest_id)), self)
  | Some current_rank =>
  match modified_destinations df dest_id feature target_value with
  | Raise e => (Raise e, self)
  | Ok (dest_info, current_value, modified) =>
  (* Store original destinations *)
  let original_destinations := get_destinations r in
  (* Set modified destinations *)
  let r := set_destinations r (Some modified) in
  let self := with_recommender self r in
  (* Get counterfactual recommendations *)
  match run r user_id with
  | Raise e => (Raise e, self)
  | Ok counterfactual_recommendations =>
  (* Reset original destinations *)
  let r := set_destinations r original_destinations in
  let self := with_recommender self r in
  (feature_explanation dest_info dest_id feature current_value target_value
                       counterfactual_recommendations current_rank,
   self)
  end end end end end end.
End CounterfactualExplainer.


(* ================================================================== *)
(** * Demo application ([demo/app.py]) *)
(* ================================================================== *)

Module SustainableTourismDemo.
(** Of the attributes of the demo only [recommender], the hybrid recommender
    made by [initialize_recommender], takes part in
    [compare_sustainability_weighting]. *)
Record t : Type := { recommender : option HybridRecommender.t }.




End SustainableTourismDemo.

(* ================================================================== *)
(** * Evaluation metrics ([src/evaluation/metrics.py]) *)
(* ================================================================== *)

Module metrics.
(** [np.sum(y_true[top_k_indices])] with
    [top_k_indices = np.argsort(-y_pred)[:k]]. *)
Definition hits `{NumPy} (y_true y_pred : list Q) (k : nat) : result Q :=
  let top_k_indices := firstn k (argsort (vec_neg y_pred)) in
  picked <- take y_true top_k_indices ;;
  Ok (py_sum picked).

Definition precision_at_k `{NumPy} (y_true y_pred : list Q) (k : nat)
  : result Q :=
  if Nat.eqb (length y_true) 0 || Nat.eqb k 0 then Ok 0
  else h <- hits y_true y_pred k ;;
       Ok (h / inject_Z (Z.of_nat k)).

Definition recall_at_k `{NumPy} (y_true y_pred : list Q) (k : nat)
  : result Q :=
  if Nat.eqb (length y_true) 0 || Qeq_bool (py_sum y_true) 0 || Nat.eqb k 0
  then Ok 0
  else h <- hits y_true y_pred k ;;
       Ok (h / py_sum y_true).

(** [[rec["sustainability_score"] for rec in recommendations if
    "sustainability_score" in rec]] *)
Definition present_scores (recommendations : list Rec.t) : list Value :=
  flat_map (fun rec => match Rec.sustainability_score rec with
                       | Some v => [v]
                       | None => []
                       end)
           recommendations.

(** [np.mean(scores)] on a list that is not empty. *)
Definition mean (scores : list Value) : result Q :=
  xs <- mapM as_float scores ;;
  Ok (py_sum xs / inject_Z (Z.of_nat (length xs))).

Definition sustainability_score (recommendations : list Rec.t) : result Q :=
  match recommendations with
  | [] => Ok 0
  | _ :: _ =>
      let scores := present_scores recommendations in
      match scores with
      | [] => Ok 0
      | _ :: _ => mean scores
      end
  end.

(** [==] on the values that a [country] cell can hold. *)
Definition value_eqb (a b : Value) : bool :=
  match a, b with
  | VStr x, VStr y => String.eqb x y
  | VInt x, VInt y => Z.eqb x y
  | VInt x, VFloat y => Qeq_bool (inject_Z x) y
  | VFloat x, VInt y => Qeq_bool x (inject_Z y)
  | VFloat x, VFloat y => Qeq_bool x y
  | _, _ => false
  end.

(** The elements of [set(l)]: one representative of each value. *)
Fixpoint unique (l : list Value) : list Value :=
  match l with
  | [] => []
  | x :: l' => if existsb (value_eqb x) l' then unique l' else x :: unique l'
  end.

(** [[rec["country"] for rec in recommendations if "country" in rec]], on
    recommendations as dictionaries. *)
Definition present_countries (recommendations : list Row) : list Value :=
  flat_map (fun rec => match row_lookup "country" rec with
                       | Some v => [v]
                       | None => []
                       end)
           recommendations.

Definition diversity_score (recommendations : list Row) : Q :=
  match recommendations with
  | [] => 0
  | _ :: _ =>
      let countries := present_countries recommendations in
      let unique_countries := length (unique countries) in
      inject_Z (Z.of_nat unique_countries)
      / inject_Z (Z.of_nat (length recommendations))
  end.
End metrics.

Unset Implicit Arguments.

(* ================================================================== *)
(** * Instances used to run the model *)
(* ================================================================== *)

(** A stable [argsort]: one of the functions [NumPy] admits. *)
Fixpoint insert_asc (a : list Q) (i : nat) (l : list nat) : list nat :=
  match l with
  | [] => [i]
  | j :: l' =>
      if Qle_bool (nth i a 0) (nth j a 0) then i :: j :: l'
      else j :: insert_asc a i l'
  end.

Definition stable_argsort (a : list Q) : list nat :=
  fold_right (insert_asc a) [] (seq 0 (length a)).

(** A rational stand-in for [np.exp], used only to run the model: the Taylor
    polynomial of degree 8, which is [np.exp] at 0 and close to it near 0
    only.  No statement depends on its values. *)
Definition exp_taylor (x : Q) : Q :=
  fold_right (fun k acc => 1 + x / inject_Z k * acc) 1
             [1; 2; 3; 4; 5; 6; 7; 8]%Z.

(** No pickled file anywhere. *)
Definition no_files : Storage := {| read_processed := fun _ => None |}.

(* ================================================================== *)
(** * Notions used in the statements *)
(* ================================================================== *)

(** A sequence of [add_recommender] calls, each on the result of the one
    before. *)
Definition add_all (h : HybridRecommender.t)
           (calls : list (Recommender * Q)) : result HybridRecommender.t :=
  foldM (fun h p => HybridRecommender.add_recommender h (fst p) (snd p))
        calls h.

(** [create_default_hybrid_recommender] of [src/models/ensemble.py]. *)
Definition default_calls : list (Recommender * Q) :=
  [ (Popularity PopularityRecommender.init, 0.1);
    (ContentBased ContentBasedRecommender.init, 0.3);
    (CollaborativeFiltering
       (CollaborativeFilteringRecommender.init
          CollaborativeFilteringRecommender.user), 0.3);
    (CollaborativeFiltering
       (CollaborativeFilteringRecommender.init
          CollaborativeFilteringRecommender.item), 0.3) ].

Definition create_default_hybrid_recommender : result HybridRecommender.t :=
  add_all HybridRecommender.init default_calls.

(** ** Data of scenario A

    Five destinations, ids 1 to 5, with overall sustainability scores
    9, 2, 5, 8, 3, and three users. *)

Definition dest_row (id : Z) (score : Q) : Row :=
  [ ("destination_id", VInt id);
    ("name", VStr "Destination");
    ("country", VStr "Nepal");
    ("landscape_type", VStr "Mountain");
    ("overall_sustainability_score", VFloat score) ].

Definition scenario_table : DataFrame.t :=
  {| DataFrame.columns :=
       [ "destination_id"; "name"; "country"; "landscape_type";
         "overall_sustainability_score" ];
     DataFrame.rows :=
       [ dest_row 1 9; dest_row 2 2; dest_row 3 5; dest_row 4 8;
         dest_row 5 3 ] |}.

Definition scenario_rec (id : Z) (score : Q) : Rec.t :=
  {| Rec.destination_id := id;
     Rec.name := VStr "Destination";
     Rec.country := VStr "Nepal";
     Rec.sustainability_score := Some (VFloat score);
     Rec.landscape := VStr "Mountain" |}.

Definition scenario_recs : list Rec.t :=
  [ scenario_rec 1 9; scenario_rec 2 2; scenario_rec 3 5; scenario_rec 4 8;
    scenario_rec 5 3 ].

(** User 10 visited destinations 1 and 2, user 20 visited 1 and 2, user 30
    visited 3. *)
Definition scenario_matrix : Matrix :=
  {| ncols := 5;
     mrows := [ [1; 1; 0; 0; 0]; [1; 1; 0; 0; 0]; [0; 0; 1; 0; 0] ] |}.

Definition scenario_base (nm : string) : BaseRecommender.t :=
  {| BaseRecommender.name := nm;
     BaseRecommender.destinations := scenario_table;
     BaseRecommender.interaction_matrix := scenario_matrix;
     BaseRecommender.user_ids := [10; 20; 30]%Z;
     BaseRecommender.dest_ids := [1; 2; 3; 4; 5]%Z |}.

Definition scenario_popularity : PopularityRecommender.t :=
  PopularityRecommender.fit
    {| PopularityRecommender.base := scenario_base "PopularityRecommender";
       PopularityRecommender.popularity_scores := [] |}.

(** ** Well-formed tables and recommendation lists *)

Definition is_numeric (v : Value) : bool :=
  match v with VStr _ => false | _ => true end.

Definition scored_row (r : Row) : bool :=
  match row_lookup "overall_sustainability_score" r with
  | Some v => is_numeric v
  | None => false
  end.

(** A destinations table the scorer can read: it has the id column and
    every row carries a numeric overall sustainability score. *)
Definition scored_table (df : DataFrame.t) : bool :=
  in_columns "destination_id" (DataFrame.columns df)
  && forallb scored_row (DataFrame.rows df).

(** A recommendation whose sustainability score, when present, is a
    number. *)
Definition scored_rec (rec : Rec.t) : bool :=
  match Rec.sustainability_score rec with
  | Some v => is_numeric v
  | None => true
  end.

(** ** Two explainers on the scenario data

    A hybrid recommender built by its constructor from the fitted popularity
    recommender, with sustainability weight 0 and without [load_data] (so
    without scorer), and the explainers holding it, respectively the
    popularity recommender itself. *)

Definition unscored_hybrid : HybridRecommender.t :=
  {| HybridRecommender.destinations := None;
     HybridRecommender.recommenders := [Popularity scenario_popularity];
     HybridRecommender.weights := [1];
     HybridRecommender.sustainability_weight := 0;
     HybridRecommender.sustainability_scorer := None |}.


Definition popularity_explainer : CounterfactualExplainer.t :=
  {| CounterfactualExplainer.recommender :=
       Some (CounterfactualExplainer.Base (Popularity scenario_popularity));
     CounterfactualExplainer.destinations := Some scenario_table |}.



(** ** Shapes *)

(** An array of shape [(r, c)]. *)
Definition has_shape (m : Matrix) (r c : nat) : bool :=
  Nat.eqb (length (mrows m)) r && Nat.eqb (ncols m) c
  && forallb (fun row => Nat.eqb (length row) c) (mrows m).

(** ** User-based collaborative filtering, in the words of the
       specification *)

(** The neighbours whose rows are added: the users among the 20 most similar
    ones whose similarity is positive. *)
Definition neighbours `{NumPy} (sims : list Q) : list nat :=
  filter (fun v => Qlt_bool 0 (nth v sims 0))
         (CollaborativeFilteringRecommender.similar_users sims).

(** Entry [d] of the sum of the neighbours' interaction rows, each weighted
    by the similarity of the neighbour. *)
Definition weighted_rows (m : Matrix) (sims : list Q) (ns : list nat)
           (d : nat) : Q :=
  py_sum (map (fun v => nth v sims 0 * nth d (nth v (mrows m) []) 0) ns).

(** The sum of the similarities used. *)
Definition similarity_mass (sims : list Q) (ns : list nat) : Q :=
  py_sum (map (fun v => nth v sims 0) ns).

(** The sum of the entries of the weighted sum. *)
Definition score_mass (m : Matrix) (sims : list Q) (ns : list nat) : Q :=
  py_sum (map (weighted_rows m sims ns) (seq 0 (ncols m))).

(** Entry [d] of the score vector as the specification words it: the
    weighted sum divided by the sum of the similarities used. *)
Definition claimed_user_score (m : Matrix) (sims : list Q) (ns : list nat)
           (d : nat) : Q :=
  weighted_rows m sims ns d / similarity_mass sims ns.

(** Entry [d] of the score vector as the code normalizes it: the weighted sum
    divided by the sum of its own entries when that sum is positive. *)
Definition normalized_user_score (m : Matrix) (sims : list Q) (ns : list nat)
           (d : nat) : Q :=
  if Qlt_bool 0 (score_mass m sims ns)
  then weighted_rows m sims ns d / score_mass m sims ns
  else weighted_rows m sims ns d.

(** The user-based recommender on the scenario data; users 10 and 20 have
    the same history, user 30 shares nothing with them. *)
Definition scenario_user_cf : CollaborativeFilteringRecommender.t :=
  {| CollaborativeFilteringRecommender.base := scenario_base "UserBasedCF";
     CollaborativeFilteringRecommender.method :=
       CollaborativeFilteringRecommender.user;
     CollaborativeFilteringRecommender.similarity_matrix :=
       {| ncols := 3; mrows := [ [1; 1; 0]; [1; 1; 0]; [0; 0; 1] ] |} |}.

(** ** Well-formed recommenders *)

Fixpoint distinct (l : list Z) : bool :=
  match l with
  | [] => true
  | x :: l' => negb (existsb (Z.eqb x) l') && distinct l'
  end.

Definition has_key (k : string) (r : Row) : bool :=
  match row_lookup k r with Some _ => true | None => false end.

(** The table has a row for [dest_id] carrying the four columns that
    [_format_recommendations] reads. *)
Definition formattable (df : DataFrame.t) (dest_id : Z) : bool :=
  in_columns "destination_id" (DataFrame.columns df)
  && match filter (DataFrame.cell_matches "destination_id" dest_id)
                  (DataFrame.rows df) with
     | r :: _ => has_key "name" r && has_key "country" r
                 && has_key "overall_sustainability_score" r
                 && has_key "landscape_type" r
     | [] => false
     end.

(** The data of a recommender as the data processor writes it: a users by
    destinations matrix, distinct destination ids, a table row for each. *)
Definition base_wf (b : BaseRecommender.t) : bool :=
  has_shape (BaseRecommender.interaction_matrix b)
            (length (BaseRecommender.user_ids b))
            (length (BaseRecommender.dest_ids b))
  && distinct (BaseRecommender.dest_ids b)
  && forallb (formattable (BaseRecommender.destinations b))
             (BaseRecommender.dest_ids b).

Definition processed_of (b : BaseRecommender.t) : Processed :=
  {| p_destinations := BaseRecommender.destinations b;
     p_matrix := BaseRecommender.interaction_matrix b;
     p_user_ids := BaseRecommender.user_ids b;
     p_dest_ids := BaseRecommender.dest_ids b |}.

(** Every user has visited some destination. *)
Definition all_have_history (m : Matrix) : bool :=
  forallb (fun row => negb (Nat.eqb (length (where_pos row 0)) 0)) (mrows m).

(** A loaded and fitted recommender: its arrays have the shapes [fit] gives
    them.  The content-based recommender falls back on the files of
    ["data/processed"] for a user without history; then these must be the
    data it was loaded from. *)
Definition recommender_wf `{Storage} (r : Recommender) : Prop :=
  let b := base_of r in
  let U := length (BaseRecommender.user_ids b) in
  let D := length (BaseRecommender.dest_ids b) in
  base_wf b = true /\
  match r with
  | Popularity p => length (PopularityRecommender.popularity_scores p) = D
  | ContentBased c =>
      has_shape (ContentBasedRecommender.feature_similarity c) D D = true /\
      (all_have_history (BaseRecommender.interaction_matrix b) = true \/
       read_processed "data/processed" = Some (processed_of b))
  | CollaborativeFiltering c =>
      match CollaborativeFilteringRecommender.method c with
      | CollaborativeFilteringRecommender.user =>
          has_shape (CollaborativeFilteringRecommender.similarity_matrix c)
                    U U = true
      | CollaborativeFilteringRecommender.item =>
          has_shape (CollaborativeFilteringRecommender.similarity_matrix c)
                    D D = true
      end
  end.




(** ** The ensemble, in the words of the specification *)

(** What one registered recommender answered: its name, its normalized
    weight and the list it returned. *)
Record Answer : Type := {
  a_source : string;
  a_weight : Q;
  a_recs : list Rec.t
}.

(** [answers] are the answers of the registered recommenders of [h], in
    order, each asked for [2n] candidates. *)
Definition answers_of `{NumPy} `{Storage} (h : HybridRecommender.t)
           (user_id : Z) (n : nat) (exclude_visited : bool)
           (answers : list Answer) : Prop :=
  Forall2 (fun (p : nat * Recommender) (a : Answer) =>
             recommend (snd p) user_id (n * 2) exclude_visited
             = Ok (a_recs a) /\
             nth_error (HybridRecommender.weights h) (fst p)
             = Some (a_weight a) /\
             a_source a = BaseRecommender.name (base_of (snd p)))
          (enumerate (HybridRecommender.recommenders h)) answers.

(** The positional confidence [w·(L−j)/L] of position [j] in a list of
    length [L] returned by a recommender of weight [w]. *)
Definition positional_confidence (w : Q) (L j : nat) : Q :=
  w * (inject_Z (Z.of_nat L - Z.of_nat j) / inject_Z (Z.of_nat L)).

(** What an answer contributes to the score of destination [k]. *)
Definition contribution (k : Z) (a : Answer) : Q :=
  py_sum (map (fun p : nat * Rec.t =>
                 if Z.eqb (Rec.destination_id (snd p)) k
                 then positional_confidence (a_weight a) (length (a_recs a))
                                            (fst p)
                 else 0)
              (enumerate (a_recs a))).

(** The accumulated score of destination [k]. *)
Definition accumulated (k : Z) (answers : list Answer) : Q :=
  py_sum (map (contribution k) answers).

(** The names of the recommenders that returned destination [k], in order
    (once per occurrence). *)
Definition provenance (k : Z) (answers : list Answer) : list string :=
  flat_map (fun a =>
              map (fun _ => a_source a)
                  (filter (fun rec => Z.eqb (Rec.destination_id rec) k)
                          (a_recs a)))
           answers.

Definition entry_id (e : HybridRecommender.Entry) : Z :=
  Rec.destination_id (HybridRecommender.recommendation e).

(** The hybrid recommender on the scenario data: the popularity recommender
    alone, the default sustainability weight 0.3, the scorer on the scenario
    table. *)
Definition scenario_hybrid : HybridRecommender.t :=
  {| HybridRecommender.destinations := Some scenario_table;
     HybridRecommender.recommenders := [Popularity scenario_popularity];
     HybridRecommender.weights := [1];
     HybridRecommender.sustainability_weight := 0.3;
     HybridRecommender.sustainability_scorer :=
       Some {| SustainabilityScorer.destinations := Some scenario_table |} |}.



(** ** Notions of the proofs *)

(** The positional base score of the scorer and that of the weighting
    class. *)
Definition scorer_base (n_recs i : nat) : Q :=
  if Nat.ltb 1 n_recs
  then inject_Z (Z.of_nat n_recs - Z.of_nat i) / inject_Z (Z.of_nat n_recs)
  else 1.

Definition positional (n_recs i : nat) : Q :=
  inject_Z (Z.of_nat n_recs - Z.of_nat i) / inject_Z (Z.of_nat n_recs).

(** The weighted entry built for position [i] carries the recommendation of
    that position and a key equal to [g i]. *)
Definition placed (g : nat -> Q) (p : nat * Rec.t) (w : Weighted.t) : Prop :=
  Weighted.recommendation w = snd p /\ Weighted.weighted_score w == g (fst p).

(** [all_recommendations.get(k)] *)
Fixpoint entry_of (all : list (Z * HybridRecommender.Entry)) (k : Z)
  : option HybridRecommender.Entry :=
  match all with
  | [] => None
  | (k', e) :: all' => if Z.eqb k' k then Some e else entry_of all' k
  end.

Definition score_of (all : list (Z * HybridRecommender.Entry)) (k : Z) : Q :=
  match entry_of all k with
  | Some e => HybridRecommender.score e
  | None => 0
  end.

Definition sources_of (all : list (Z * HybridRecommender.Entry)) (k : Z)
  : list string :=
  match entry_of all k with
  | Some e => HybridRecommender.sources e
  | None => []
  end.

(** The invariant of the dictionary: distinct keys, each the id of the
    recommendation stored under it. *)
Definition keyed (all : list (Z * HybridRecommender.Entry)) : Prop :=
  NoDup (map fst all) /\ Forall (fun p => entry_id (snd p) = fst p) all.

(** The inner loop from any position of the enumeration on. *)
Definition merge_from (src : string) (w : Q) (L : nat)
           (ps : list (nat * Rec.t))
           (all : list (Z * HybridRecommender.Entry))
  : list (Z * HybridRecommender.Entry) :=
  fold_left (fun all (p : nat * Rec.t) =>
               let (j, rec) := p in
               let sc := w * (1 - inject_Z (Z.of_nat j)
                                  / inject_Z (Z.of_nat L)) in
               HybridRecommender.upsert all (Rec.destination_id rec) rec sc
                                        src)
            ps all.

(** The score the code gives position [fst p] of a list of length [L], when
    the candidate there is destination [k]. *)

Definition code_score (w : Q) (L : nat) (k : Z) (p : nat * Rec.t) : Q :=
  if Z.eqb (Rec.destination_id (snd p)) k
  then w * (1 - inject_Z (Z.of_nat (fst p)) / inject_Z (Z.of_nat L))
  else 0.

(** The outer loop on the answers. *)
Definition merge_all (answers : list Answer)
           (all : list (Z * HybridRecommender.Entry))
  : list (Z * HybridRecommender.Entry) :=
  fold_left (fun all a =>
               HybridRecommender.merge all (a_source a) (a_weight a)
                                       (a_recs a))
            answers all.


(* ================================================================== *)
(** * Notions used in the further statements *)
(* ================================================================== *)

(** The popularity of a recommended destination, read as the test of the
    popularity recommender reads it. *)
Definition popularity_of (p : PopularityRecommender.t) (rec : Rec.t) : Q :=
  match BaseRecommender._get_destination_index
          (PopularityRecommender.base p) (Rec.destination_id rec) with
  | Ok i => nth i (PopularityRecommender.popularity_scores p) 0
  | Raise _ => 0
  end.

(** The entries of a user's interaction row that are not positive: the
    destinations the user has not visited. *)
Definition unvisited_count (row : list Q) : nat :=
  length (filter (fun x => negb (Qlt_bool 0 x)) row).

(** The overall sustainability score the scorer reads for a
    recommendation. *)
Definition table_score (df : DataFrame.t) (rec : Rec.t) : Q :=
  match bind (SustainabilityScorer.get_sustainability_score
                df (Rec.destination_id rec)) as_float with
  | Ok s => s
  | Raise _ => 0
  end.

(** The sustainability score the weighting class reads off a
    recommendation. *)
Definition own_score (rec : Rec.t) : Q :=
  match SustainabilityWeighting.rec_sustainability rec with
  | Ok s => s
  | Raise _ => 0
  end.

(** The weights stored after [add_recommender] calls with the raw weights
    [a1; a2; ...; an] on the empty ensemble: each later call divides what is
    stored by one plus its raw weight. *)
Fixpoint later_factor (raws : list Q) : Q :=
  match raws with
  | [] => 1
  | a :: raws' => (1 + a) * later_factor raws'
  end.

Fixpoint later_weights (raws : list Q) : list Q :=
  match raws with
  | [] => []
  | a :: raws' => a / later_factor raws :: later_weights raws'
  end.

Definition final_weights (raws : list Q) : list Q :=
  match raws with
  | [] => []
  | _ :: raws' => 1 / later_factor raws' :: later_weights raws'
  end.

(** The destination indices that the closing lines of every [recommend]
    keep: the [argsort] of the negated scores, without the visited ones when
    asked, cut to [n]. *)
Definition ranked_indices `{NumPy} (b : BaseRecommender.t) (u : nat)
           (scores : list Q) (n : nat) (exclude_visited : bool) : list nat :=
  let order := argsort (vec_neg scores) in
  firstn n
         (if exclude_visited
          then filter (fun i =>
                         negb (Qlt_bool 0
                                 (nth i (nth u (mrows
                                    (BaseRecommender.interaction_matrix b))
                                    []) 0)))
                      order
          else order).

(** A data set in which user 40 has no history. *)
Definition cold_base (nm : string) : BaseRecommender.t :=
  {| BaseRecommender.name := nm;
     BaseRecommender.destinations := scenario_table;
     BaseRecommender.interaction_matrix :=
       {| ncols := 5; mrows := [ [1; 1; 0; 0; 0]; [0; 0; 0; 0; 0] ] |};
     BaseRecommender.user_ids := [10; 40]%Z;
     BaseRecommender.dest_ids := [1; 2; 3; 4; 5]%Z |}.

Definition cold_content : ContentBasedRecommender.t :=
  {| ContentBasedRecommender.base := cold_base "ContentBasedRecommender";
     ContentBasedRecommender.feature_similarity :=
       {| ncols := 5;
          mrows := [ [1; 0; 0; 0; 0]; [0; 1; 0; 0; 0]; [0; 0; 1; 0; 0];
                     [0; 0; 0; 1; 0]; [0; 0; 0; 0; 1] ] |} |}.

Definition cold_item_cf : CollaborativeFilteringRecommender.t :=
  {| CollaborativeFilteringRecommender.base := cold_base "ItemBasedCF";
     CollaborativeFilteringRecommender.method :=
       CollaborativeFilteringRecommender.item;
     CollaborativeFilteringRecommender.similarity_matrix :=
       ContentBasedRecommender.feature_similarity cold_content |}.

Definition cold_user_cf : CollaborativeFilteringRecommender.t :=
  {| CollaborativeFilteringRecommender.base := cold_base "UserBasedCF";
     CollaborativeFilteringRecommender.method :=
       CollaborativeFilteringRecommender.user;
     CollaborativeFilteringRecommender.similarity_matrix :=
       {| ncols := 2; mrows := [ [1; 0]; [0; 1] ] |} |}.

(** The dictionary entry that the inner loop of the hybrid [recommend]
    creates for a destination it meets for the first time. *)
Definition first_entry (src : string) (w : Q) (L : nat) (p : nat * Rec.t)
  : Z * HybridRecommender.Entry :=
  (Rec.destination_id (snd p),
   {| HybridRecommender.recommendation := snd p;
      HybridRecommender.score :=
        w * (1 - inject_Z (Z.of_nat (fst p)) / inject_Z (Z.of_nat L));
      HybridRecommender.sources := [src] |}).

(** The destination [dest_id] has rank [r], counted from 1, in [recs]: it
    is at position [r] and at no earlier one. *)
Definition ranked_at (recs : list Rec.t) (dest_id : Z) (r : nat) : Prop :=
  (1 <= r)%nat /\
  (exists rec, nth_error recs (r - 1) = Some rec /\
               Rec.destination_id rec = dest_id) /\
  forall j rec, (j < r - 1)%nat -> nth_error recs j = Some rec ->
                Rec.destination_id rec <> dest_id.

(** An explainer holding the hybrid recommender of the scenario, which has
    a scorer. *)
Definition scored_explainer : CounterfactualExplainer.t :=
  {| CounterfactualExplainer.recommender :=
       Some (CounterfactualExplainer.Hybrid scenario_hybrid);
     CounterfactualExplainer.destinations := Some scenario_table |}.

(** [a] stands before an occurrence of [b] in the list. *)
Inductive before {A : Type} (a b : A) : list A -> Prop :=
| before_here (l : list A) : In b l -> before a b (a :: l)
| before_skip (x : A) (l : list A) : before a b l -> before a b (x :: l).


(** The scores that collaborative filtering accumulates before it
    normalizes them: for the user-based method the weighted rows of the
    similar users, for the item-based method the similarity rows of the
    visited destinations. *)
Definition user_accumulated `{NumPy}
           (self : CollaborativeFilteringRecommender.t) (user_idx : nat)
  : result (list Q) :=
  sims <- CollaborativeFilteringRecommender.user_similarities self user_idx ;;
  CollaborativeFilteringRecommender.accumulate_user
    self sims (CollaborativeFilteringRecommender.similar_users sims).

Definition item_accumulated (self : CollaborativeFilteringRecommender.t)
           (user_idx : nat) : result (list Q) :=
  user_interactions <-
    matrix_row (BaseRecommender.interaction_matrix
                  (CollaborativeFilteringRecommender.base self)) user_idx ;;
  foldM (fun scores (p : nat * Q) =>
           let (i, has_visited) := p in
           if Qlt_bool 0 has_visited
           then similarities <-
                  matrix_row
                    (CollaborativeFilteringRecommender.similarity_matrix self)
                    i ;;
                vec_iadd scores similarities
           else Ok scores)
        (enumerate user_interactions)
        (zeros (length (BaseRecommender.dest_ids
                          (CollaborativeFilteringRecommender.base self)))).

(** [scores] is [raw] divided by its sum when that sum is positive, and
    [raw] itself otherwise. *)
Definition normalized_from (raw scores : list Q) : Prop :=
  length scores = length raw /\
  (0 < py_sum raw ->
   py_sum scores == 1 /\
   forall d, nth d scores 0 == nth d raw 0 / py_sum raw) /\
  (~ 0 < py_sum raw -> scores = raw).

(** A destination table with the five metric columns: destination 1 and
    destination 2. *)
Definition metric_row (id : Z) (c w m b l overall : Q) : Row :=
  [ ("destination_id", VInt id);
    ("name", VStr "Destination");
    ("carbon_footprint_score", VFloat c);
    ("water_consumption_score", VFloat w);
    ("waste_management_score", VFloat m);
    ("biodiversity_impact_score", VFloat b);
    ("local_economy_support_score", VFloat l);
    ("overall_sustainability_score", VFloat overall) ].

Definition metric_table : DataFrame.t :=
  {| DataFrame.columns :=
       [ "destination_id"; "name"; "carbon_footprint_score";
         "water_consumption_score"; "waste_management_score";
         "biodiversity_impact_score"; "local_economy_support_score";
         "overall_sustainability_score" ];
     DataFrame.rows :=
       [ metric_row 1 8 9 7 9 8 (41 # 5); metric_row 2 2 3 2 1 4 (23 # 10) ]
  |}.

(** The dictionary that [_format_recommendations] builds, as a dictionary:
    the key [sustainability_score] is there when the record has it. *)
Definition as_dict (rec : Rec.t) : Row :=
  ([ ("destination_id", VInt (Rec.destination_id rec));
     ("name", Rec.name rec);
     ("country", Rec.country rec) ]
   ++ match Rec.sustainability_score rec with
      | Some v => [ ("sustainability_score", v) ]
      | None => []
      end
   ++ [ ("landscape", Rec.landscape rec) ])%list.

(** User-based collaborative filtering over 22 users who are all similar to
    one another: more neighbours than the recommender takes. *)
Definition crowd_cf : CollaborativeFilteringRecommender.t :=
  {| CollaborativeFilteringRecommender.base :=
       {| BaseRecommender.name := "UserBasedCF";
          BaseRecommender.destinations := scenario_table;
          BaseRecommender.interaction_matrix :=
            {| ncols := 3;
               mrows := map (fun i => if Nat.even i then [1; 0; 0]
                                      else [0; 1; 0])
                            (seq 0 22) |};
          BaseRecommender.user_ids := map Z.of_nat (seq 1 22);
          BaseRecommender.dest_ids := [1; 2; 3]%Z |};
     CollaborativeFilteringRecommender.method :=
       CollaborativeFilteringRecommender.user;
     CollaborativeFilteringRecommender.similarity_matrix :=
       {| ncols := 22; mrows := repeat (repeat 1 22) 22 |} |}.






(** A value in the closed unit interval. *)
Definition unit_interval (x : Q) : Prop := 0 <= x /\ x <= 1.

(* ================================================================== *)
(** * The stable [argsort] is an [argsort] *)
(* ================================================================== *)

Lemma insert_asc_perm (a : list Q) (i : nat) (l : list nat) :
  Permutation (insert_asc a i l) (i :: l).
Proof.
  induction l as [|j l IH]; simpl; [reflexivity|].
  destruct (Qle_bool (nth i a 0) (nth j a 0)); [reflexivity|].
  rewrite IH. apply perm_swap.
Qed.

Lemma insert_asc_sorted (a : list Q) (i : nat) (l : list nat) :
  StronglySorted (fun i j => nth i a 0 <= nth j a 0) l ->
  StronglySorted (fun i j => nth i a 0 <= nth j a 0) (insert_asc a i l).
Proof.
  induction 1 as [|j l Hs IH Hj]; simpl.
  - repeat constructor.
  - destruct (Qle_bool (nth i a 0) (nth j a 0)) eqn:E.
    + apply Qle_bool_iff in E.
      constructor; [constructor; assumption|].
      constructor; [assumption|].
      eapply Forall_impl; [|exact Hj].
      intros k Hk. eapply Qle_trans; eassumption.
    + assert (Hji : nth j a 0 <= nth i a 0).
      { apply Qlt_le_weak, Qnot_le_lt. intro H.
        apply Qle_bool_iff in H. congruence. }
      constructor; [assumption|].
      eapply Permutation_Forall;
        [symmetry; apply insert_asc_perm|].
      constructor; assumption.
Qed.

Lemma stable_argsort_perm (a : list Q) :
  Permutation (stable_argsort a) (seq 0 (length a)).
Proof.
  unfold stable_argsort.
  induction (seq 0 (length a)) as [|i l IH]; simpl; [reflexivity|].
  rewrite insert_asc_perm. constructor. exact IH.
Qed.

Lemma stable_argsort_sorted (a : list Q) :
  StronglySorted (fun i j => nth i a 0 <= nth j a 0) (stable_argsort a).
Proof.
  unfold stable_argsort.
  induction (seq 0 (length a)) as [|i l IH]; simpl.
  - constructor.
  - apply insert_asc_sorted, IH.
Qed.

Definition numpy_stable : NumPy :=
  {| argsort := stable_argsort;
     argsort_perm := stable_argsort_perm;
     argsort_sorted := stable_argsort_sorted;
     exp := exp_taylor |}.

(* ================================================================== *)
(** * Sums, sorting and loops: general facts *)
(* ================================================================== *)

Lemma fold_left_Qplus (l : list Q) (a : Q) :
  fold_left Qplus l a == a + py_sum l.
Proof.
  unfold py_sum. revert a.
  induction l as [|x l IH]; intros a; simpl.
  - ring.
  - rewrite (IH (a + x)), (IH (0 + x)). ring.
Qed.

Lemma py_sum_cons (x : Q) (l : list Q) : py_sum (x :: l) == x + py_sum l.
Proof. unfold py_sum at 1. simpl. rewrite fold_left_Qplus. ring. Qed.

Lemma py_sum_app (l1 l2 : list Q) :
  py_sum (l1 ++ l2) == py_sum l1 + py_sum l2.
Proof.
  induction l1 as [|x l1 IH]; simpl.
  - unfold py_sum at 2. simpl. ring.
  - rewrite !py_sum_cons, IH. ring.
Qed.

Lemma py_sum_scale (c : Q) (l : list Q) :
  py_sum (map (fun w => w / c) l) == py_sum l / c.
Proof.
  induction l as [|x l IH]; simpl.
  - unfold py_sum. simpl. unfold Qdiv. ring.
  - rewrite !py_sum_cons, IH. unfold Qdiv. ring.
Qed.

Lemma py_sum_nonneg (l : list Q) :
  Forall (fun w => 0 < w) l -> 0 <= py_sum l.
Proof.
  induction 1 as [|x l Hx _ IH].
  - unfold py_sum. simpl. apply Qle_refl.
  - rewrite py_sum_cons.
    apply Qlt_le_weak in Hx.
    replace 0 with (0 + 0) by reflexivity.
    apply Qplus_le_compat; assumption.
Qed.

Lemma mapM_ok {A B : Type} (f : A -> result B) (g : A -> B) (l : list A) :
  (forall a, In a l -> f a = Ok (g a)) -> mapM f l = Ok (map g l).
Proof.
  induction l as [|a l IH]; intros H; simpl; [reflexivity|].
  rewrite (H a (or_introl eq_refl)). simpl.
  rewrite IH by (intros; apply H; right; assumption).
  reflexivity.
Qed.

Lemma mapM_length {A B : Type} (f : A -> result B) (l : list A) (r : list B) :
  mapM f l = Ok r -> length r = length l.
Proof.
  revert r. induction l as [|a l IH]; intros r; simpl.
  - intros H. injection H as <-. reflexivity.
  - destruct (f a) as [b|e]; simpl; [|discriminate].
    destruct (mapM f l) as [bs|e]; simpl; [|discriminate].
    intros H. injection H as <-. simpl. f_equal. apply IH. reflexivity.
Qed.

Lemma py_div_ok (x y : Q) : ~ y == 0 -> py_div x y = Ok (x / y).
Proof.
  intros H. unfold py_div.
  destruct (Qeq_bool y 0) eqn:E; [|reflexivity].
  apply Qeq_bool_iff in E. contradiction.
Qed.

Section SortedFacts.
Variable A : Type.
Variable key : A -> Q.

Lemma insert_desc_perm (x : A) (l : list A) :
  Permutation (insert_desc key x l) (x :: l).
Proof.
  induction l as [|y l IH]; simpl; [reflexivity|].
  destruct (Qle_bool (key y) (key x)); [reflexivity|].
  rewrite IH. apply perm_swap.
Qed.

Lemma sorted_desc_perm (l : list A) : Permutation (sorted_desc key l) l.
Proof.
  induction l as [|x l IH]; simpl; [reflexivity|].
  rewrite insert_desc_perm. constructor. exact IH.
Qed.

Lemma insert_desc_sorted (x : A) (l : list A) :
  StronglySorted (fun a b => key b <= key a) l ->
  StronglySorted (fun a b => key b <= key a) (insert_desc key x l).
Proof.
  induction 1 as [|y l Hs IH Hy]; simpl.
  - repeat constructor.
  - destruct (Qle_bool (key y) (key x)) eqn:E.
    + apply Qle_bool_iff in E.
      constructor; [constructor; assumption|].
      constructor; [assumption|].
      eapply Forall_impl; [|exact Hy].
      intros z Hz. cbv beta in Hz. eapply Qle_trans; eassumption.
    + assert (Hxy : key x <= key y).
      { apply Qlt_le_weak, Qnot_le_lt. intro H.
        apply Qle_bool_iff in H. congruence. }
      constructor; [assumption|].
      eapply Permutation_Forall; [symmetry; apply insert_desc_perm|].
      constructor; assumption.
Qed.

Lemma sorted_desc_sorted (l : list A) :
  StronglySorted (fun a b => key b <= key a) (sorted_desc key l).
Proof.
  induction l as [|x l IH]; simpl.
  - constructor.
  - apply insert_desc_sorted, IH.
Qed.

(** A list already in descending key order is returned as it is: the sort
    is stable, so ties do not move either. *)
Lemma sorted_desc_fixpoint (l : list A) :
  StronglySorted (fun a b => key b <= key a) l -> sorted_desc key l = l.
Proof.
  induction 1 as [|x l Hs IH Hx]; simpl; [reflexivity|].
  rewrite IH. destruct l as [|y l]; simpl; [reflexivity|].
  inversion Hx as [|? ? Hy _]; subst.
  apply Qle_bool_iff in Hy. rewrite Hy. reflexivity.
Qed.

Lemma sorted_desc_length (l : list A) : length (sorted_desc key l) = length l.
Proof. apply Permutation_length, sorted_desc_perm. Qed.
End SortedFacts.

(* ================================================================== *)
(** * Ensemble weights *)
(* ================================================================== *)

Section EnsembleWeights.
Import HybridRecommender.

Lemma add_recommender_weights (h : t) (r : Recommender) (w : Q) :
  ~ py_sum (weights h ++ [w]) == 0 ->
  exists h',
    add_recommender h r w = Ok h' /\
    weights h' = map (fun x => x / py_sum (weights h ++ [w])) (weights h ++ [w])
    /\ recommenders h' = (recommenders h ++ [r])%list.
Proof.
  intros Hnz. unfold add_recommender.
  rewrite (mapM_ok _ (fun x => x / py_sum (weights h ++ [w]))).
  - simpl. eexists. split; [reflexivity|]. split; reflexivity.
  - intros a _. apply py_div_ok. exact Hnz.
Qed.

(** One call with a positive weight on a state whose weights are positive:
    the call returns, the weights stay positive and now sum to one. *)
Lemma add_recommender_normalizes (h : t) (r : Recommender) (w : Q) :
  Forall (fun x => 0 < x) (weights h) -> 0 < w ->
  exists h',
    add_recommender h r w = Ok h' /\
    Forall (fun x => 0 < x) (weights h') /\
    py_sum (weights h') == 1 /\
    length (weights h') = S (length (weights h)).
Proof.
  intros Hpos Hw.
  assert (Htot : 0 < py_sum (weights h ++ [w])).
  { rewrite py_sum_app, py_sum_cons.
    assert (H0 := py_sum_nonneg _ Hpos).
    unfold py_sum at 2. simpl. lra. }
  assert (Hnz : ~ py_sum (weights h ++ [w]) == 0) by lra.
  destruct (@add_recommender_weights h r w Hnz) as (h' & Hadd & Hw' & _).
  exists h'. split; [exact Hadd|]. rewrite Hw'. split; [|split].
  - apply Forall_map, Forall_app. split.
    + eapply Forall_impl; [|exact Hpos].
      intros x Hx. cbv beta in *. apply Qlt_shift_div_l; lra.
    + repeat constructor. apply Qlt_shift_div_l; lra.
  - rewrite py_sum_scale. field. exact Hnz.
  - rewrite length_map, length_app. simpl. lia.
Qed.

Lemma add_all_normalizes (calls : list (Recommender * Q)) :
  forall h,
    Forall (fun x => 0 < x) (weights h) ->
    Forall (fun p => 0 < snd p) calls ->
    calls <> [] ->
    exists h',
      add_all h calls = Ok h' /\
      Forall (fun x => 0 < x) (weights h') /\
      py_sum (weights h') == 1 /\
      length (weights h') = (length (weights h) + length calls)%nat.
Proof.
  induction calls as [|[r w] calls IH]; intros h Hpos Hcalls Hne;
    [congruence|].
  inversion Hcalls as [|? ? Hw Hrest]; subst. simpl in Hw.
  destruct (@add_recommender_normalizes h r w Hpos Hw)
    as (h1 & Hadd & Hpos1 & Hsum1 & Hlen1).
  unfold add_all. simpl. rewrite Hadd. simpl.
  destruct calls as [|c calls].
  - exists h1. simpl. repeat split; try assumption. lia.
  - destruct (IH h1 Hpos1 Hrest) as (h' & Hall & Hpos' & Hsum' & Hlen');
      [discriminate|].
    exists h'. repeat split; try assumption.
    rewrite Hlen', Hlen1. simpl. lia.
Qed.
End EnsembleWeights.

(** C9.  Starting from the empty [HybridRecommender()], every non-empty
    sequence of [add_recommender] calls with positive raw weights returns,
    and the stored weights, one per call and each positive, sum to 1 (exactly,
    in the rational reading of floats). *)
Theorem C9_weights_sum_to_one (calls : list (Recommender * Q)) :
  calls <> [] ->
  Forall (fun p => 0 < snd p) calls ->
  exists h,
    add_all HybridRecommender.init calls = Ok h /\
    py_sum (HybridRecommender.weights h) == 1 /\
    length (HybridRecommender.weights h) = length calls /\
    Forall (fun x => 0 < x) (HybridRecommender.weights h).
Proof.
  intros Hne Hpos.
  destruct (@add_all_normalizes calls HybridRecommender.init)
    as (h & Hall & Hp & Hs & Hl); try assumption.
  - constructor.
  - exists h. repeat split; assumption.
Qed.

(** C10.  Two [add_recommender] calls with positive raw weights [a] then [b]
    on the empty ensemble leave the weights [1/(1+b)] and [b/(1+b)], whatever
    [a] is; these are the proportions [a/(a+b)], [b/(a+b)] only when
    [a = 1]. *)
Theorem C10_first_weight_forgotten (r1 r2 : Recommender) (a b : Q) :
  0 < a -> 0 < b ->
  exists h w1 w2,
    add_all HybridRecommender.init [(r1, a); (r2, b)] = Ok h /\
    HybridRecommender.weights h = [w1; w2] /\
    w1 == 1 / (1 + b) /\ w2 == b / (1 + b) /\
    (w1 == a / (a + b) -> a == 1) /\
    (w2 == b / (a + b) -> a == 1).
Proof.
  intros Ha Hb.
  assert (Hsa : py_sum [a] == a) by (unfold py_sum; simpl; ring).
  destruct (@add_recommender_weights HybridRecommender.init r1 a)
    as (h1 & E1 & W1 & _); [simpl; lra|].
  simpl app in W1. simpl map in W1.
  set (one := a / py_sum [a]) in *.
  assert (Hone : one == 1) by (unfold one; rewrite Hsa; field; lra).
  assert (Htot : py_sum [one; b] == 1 + b).
  { unfold py_sum. simpl. rewrite Hone. ring. }
  destruct (@add_recommender_weights h1 r2 b) as (h2 & E2 & W2 & _).
  { rewrite W1. simpl app. lra. }
  rewrite W1 in W2. simpl app in W2. simpl map in W2.
  unfold add_all. cbn [foldM fst snd]. rewrite E1. cbn [bind].
  rewrite E2. cbn [bind].
  exists h2. rewrite W2.
  do 2 eexists. split; [reflexivity|]. split; [reflexivity|].
  split; [|split; [|split]].
  - rewrite Htot, Hone. reflexivity.
  - rewrite Htot. reflexivity.
  - rewrite Htot, Hone. intros H.
    assert (H' : 1 * (a + b) == a * (1 + b)).
    { assert (F1 : 1 * (a + b) == 1 / (1 + b) * ((1 + b) * (a + b)))
        by (field; lra).
      assert (F2 : a * (1 + b) == a / (a + b) * ((1 + b) * (a + b)))
        by (field; lra).
      rewrite F1, F2, H. reflexivity. }
    assert (Hab : b * (a - 1) == 0) by lra.
    apply Qmult_integral in Hab. destruct Hab; lra.
  - rewrite Htot. intros H.
    assert (H' : b * (a + b) == b * (1 + b)).
    { assert (F1 : b * (a + b) == b / (1 + b) * ((1 + b) * (a + b)))
        by (field; lra).
      assert (F2 : b * (1 + b) == b / (a + b) * ((1 + b) * (a + b)))
        by (field; lra).
      rewrite F1, F2, H. reflexivity. }
    assert (Hab : b * (a - 1) == 0) by lra.
    apply Qmult_integral in Hab. destruct Hab; lra.
Qed.

(* ================================================================== *)
(** * Weighting schemes *)
(* ================================================================== *)

Section Weighting.
Import SustainabilityWeighting.
Context {np : NumPy}.

Lemma lookup_init (scheme : string) :
  lookup (weighting_functions init) scheme =
  if String.eqb "linear" scheme then Some (no_kwargs _linear_weighting)
  else if String.eqb "quadratic" scheme
       then Some (no_kwargs _quadratic_weighting)
  else if String.eqb "sigmoid" scheme then Some (no_kwargs _sigmoid_weighting)
  else if String.eqb "threshold" scheme then Some threshold_kwargs
  else None.
Proof. reflexivity. Qed.

Lemma lookup_init_unknown (scheme : string) :
  ~ In scheme ["linear"; "quadratic"; "sigmoid"; "threshold"] ->
  lookup (weighting_functions init) scheme = None.
Proof.
  intros H. rewrite lookup_init.
  repeat match goal with
         | |- context [String.eqb ?k scheme] =>
             destruct (String.eqb_spec k scheme) as [E|_];
             [exfalso; apply H; rewrite <- E; simpl; tauto|]
         end.
  reflexivity.
Qed.

Lemma apply_weighting_total (f : Q -> Q -> Q -> Q) (scheme : string)
      (base_scores sustainability_scores : list Q) (weight : Q) :
  lookup (weighting_functions init) scheme = Some (no_kwargs f) ->
  apply_weighting init base_scores sustainability_scores scheme weight [] =
  Ok (map (fun p => f (fst p) (snd p) weight)
          (combine base_scores sustainability_scores)).
Proof.
  intros H. unfold apply_weighting. rewrite H.
  apply mapM_ok. intros [b s] _. reflexivity.
Qed.

Lemma threshold_default_total (b s w : Q) :
  exists x, _threshold_weighting b s w 0.7 = Ok x.
Proof.
  unfold _threshold_weighting.
  destruct (Qlt_bool s 0.7); simpl; eexists; reflexivity.
Qed.

Lemma lookup_threshold :
  lookup (weighting_functions init) "threshold" = Some threshold_kwargs.
Proof. reflexivity. Qed.

Lemma apply_threshold_total (base_scores sustainability_scores : list Q)
      (weight : Q) :
  exists scores,
    apply_weighting init base_scores sustainability_scores "threshold"
                    weight [] = Ok scores /\
    length scores = length (combine base_scores sustainability_scores).
Proof.
  unfold apply_weighting. rewrite lookup_threshold.
  induction (combine base_scores sustainability_scores) as [|[b s] l IH].
  - eexists. split; reflexivity.
  - destruct IH as (scores & IH & Hlen).
    destruct (threshold_default_total b s weight) as [x Hx].
    cbn [mapM]. unfold threshold_kwargs at 1. rewrite Hx. cbn [bind].
    rewrite IH. cbn [bind]. eexists. split; [reflexivity|].
    simpl. rewrite Hlen. reflexivity.
Qed.
End Weighting.

(** C5, counterexample.  With the linear scheme and the weights 2 and -1,
    outside [0,1], [apply_weighting] returns a score list; with the unknown
    scheme name ["cubic"] the exception raised is a [ValueError]. *)
Lemma C5_counterexample :
  (exists scores,
      SustainabilityWeighting.apply_weighting
        (@SustainabilityWeighting.init numpy_stable) [1] [0.5] "linear" 2 []
      = Ok scores) /\
  (exists scores,
      SustainabilityWeighting.apply_weighting
        (@SustainabilityWeighting.init numpy_stable) [1] [0.5] "linear" (-1) []
      = Ok scores) /\
  (exists e,
      SustainabilityWeighting.apply_weighting
        (@SustainabilityWeighting.init numpy_stable) [1] [0.5] "cubic" 0.5 []
      = Raise e /\ class_name e = "ValueError").
Proof.
  split; [|split].
  - eexists. reflexivity.
  - eexists. reflexivity.
  - eexists. split; reflexivity.
Qed.

(** C5, amended.  [apply_weighting] of a freshly constructed
    [SustainabilityWeighting] raises [ValueError], naming the scheme, exactly
    when the scheme name is not one of linear, quadratic, sigmoid, threshold;
    the weight is not checked: for each of the four schemes, every weight,
    in [0,1] or not, and sustainability scores on the documented scale
    [0,1], the call (without keyword arguments) returns one score per pair of
    the zipped inputs. *)
Theorem C5_unknown_scheme_is_ValueError_weight_unchecked
        (np : NumPy) (scheme : string)
        (base_scores sustainability_scores : list Q) (weight : Q) :
  (~ In scheme ["linear"; "quadratic"; "sigmoid"; "threshold"] ->
   forall kwargs,
     SustainabilityWeighting.apply_weighting
       SustainabilityWeighting.init base_scores sustainability_scores scheme
       weight kwargs
     = Raise (SustainabilityWeighting.unknown_scheme
                SustainabilityWeighting.init scheme)) /\
  (In scheme ["linear"; "quadratic"; "sigmoid"; "threshold"] ->
   Forall unit_interval sustainability_scores ->
   exists scores,
     SustainabilityWeighting.apply_weighting
       SustainabilityWeighting.init base_scores sustainability_scores scheme
       weight []
     = Ok scores /\
     length scores = Nat.min (length base_scores)
                             (length sustainability_scores)).
Proof.
  split.
  - intros H kwargs. unfold SustainabilityWeighting.apply_weighting.
    rewrite (lookup_init_unknown _ H). reflexivity.
  - intros H _. rewrite <- length_combine.
    simpl in H.
    destruct H as [<-|[<-|[<-|[<-|[]]]]].
    + rewrite (@apply_weighting_total np
                 SustainabilityWeighting._linear_weighting) by reflexivity.
      eexists. split; [reflexivity|]. apply length_map.
    + rewrite (@apply_weighting_total np
                 SustainabilityWeighting._quadratic_weighting) by reflexivity.
      eexists. split; [reflexivity|]. apply length_map.
    + rewrite (@apply_weighting_total np
                 SustainabilityWeighting._sigmoid_weighting) by reflexivity.
      eexists. split; [reflexivity|]. apply length_map.
    + apply apply_threshold_total.
Qed.

Lemma C5_witness :
  SustainabilityWeighting.apply_weighting
    (@SustainabilityWeighting.init numpy_stable) [1] [0.5] "cubic" 2 []
  = Raise (ValueError
             "Unknown weighting scheme: cubic. Available schemes: ['linear', 'quadratic', 'sigmoid', 'threshold']")
  /\
  exists scores,
    SustainabilityWeighting.apply_weighting
      (@SustainabilityWeighting.init numpy_stable) [1] [0.5] "quadratic" 2 []
    = Ok scores /\ length scores = 1%nat.
Proof.
  split.
  - apply (proj1 (C5_unknown_scheme_is_ValueError_weight_unchecked
                    numpy_stable "cubic" [1] [0.5] 2)).
    intros H. simpl in H. repeat destruct H as [H|H]; discriminate || exact H.
  - apply (proj2 (C5_unknown_scheme_is_ValueError_weight_unchecked
                    numpy_stable "quadratic" [1] [0.5] 2)).
    + simpl. tauto.
    + repeat constructor; discriminate.
Defined.

(* ================================================================== *)
(** * Unknown users *)
(* ================================================================== *)

Lemma where_eq_nil (ids : list Z) (x : Z) (i : nat) :
  ~ In x ids -> where_eq ids x i = [].
Proof.
  revert i. induction ids as [|y ids IH]; intros i H; simpl; [reflexivity|].
  destruct (Z.eqb_spec y x) as [E|_].
  - exfalso. apply H. left. exact E.
  - apply IH. intros Hin. apply H. right. exact Hin.
Qed.

Lemma _get_user_index_unknown (b : BaseRecommender.t) (user_id : Z) :
  ~ In user_id (BaseRecommender.user_ids b) ->
  BaseRecommender._get_user_index b user_id = Raise IndexError.
Proof.
  intros H. unfold BaseRecommender._get_user_index.
  rewrite (where_eq_nil _ _ _ H). reflexivity.
Qed.

(** C6, counterexample.  For user 99, absent from the user ids 10, 20, 30,
    the popularity recommender raises the built-in [IndexError]; no exception
    class named [UnknownUserError] is involved. *)
Lemma C6_counterexample :
  exists e,
    @recommend numpy_stable no_files (Popularity scenario_popularity)
               99 5 true = Raise e /\
    class_name e = "IndexError" /\
    class_name e <> "UnknownUserError".
Proof.
  exists IndexError. split; [reflexivity|]. split; [reflexivity|].
  discriminate.
Qed.

(** C6, amended.  For every base recommender and every user id absent from
    its user ids, [recommend] raises [IndexError], the exception of indexing
    the empty result of [np.where], whatever [n] and [exclude_visited] are;
    no recommendation list is produced. *)
Theorem C6_unknown_user_raises_IndexError
        (np : NumPy) (st : Storage) (r : Recommender) (user_id : Z) (n : nat)
        (exclude_visited : bool) :
  ~ In user_id (BaseRecommender.user_ids (base_of r)) ->
  recommend r user_id n exclude_visited = Raise IndexError.
Proof.
  intros H. destruct r as [p|c|c]; simpl in H |- *.
  - unfold PopularityRecommender.recommend.
    rewrite (_get_user_index_unknown _ _ H). reflexivity.
  - unfold ContentBasedRecommender.recommend.
    rewrite (_get_user_index_unknown _ _ H). reflexivity.
  - unfold CollaborativeFilteringRecommender.recommend.
    rewrite (_get_user_index_unknown _ _ H). reflexivity.
Qed.

Lemma C6_witness :
  ~ In 99%Z (BaseRecommender.user_ids
               (base_of (Popularity scenario_popularity))) /\
  @recommend numpy_stable no_files (Popularity scenario_popularity) 99 5 true
  = Raise IndexError.
Proof.
  assert (H : ~ In 99%Z (BaseRecommender.user_ids
                           (base_of (Popularity scenario_popularity)))).
  { simpl. intros [H|[H|[H|[]]]]; discriminate. }
  split; [exact H|].
  exact (@C6_unknown_user_raises_IndexError
           numpy_stable no_files (Popularity scenario_popularity) 99 5 true H).
Defined.

(* ================================================================== *)
(** * Re-ranking *)
(* ================================================================== *)

Lemma mapM_Forall2 {A B : Type} (f : A -> result B) (P : A -> B -> Prop)
      (l : list A) :
  (forall a b, In a l -> f a = Ok b -> P a b) ->
  forall r, mapM f l = Ok r -> Forall2 P l r.
Proof.
  induction l as [|a l IH]; intros HP r; simpl.
  - intros H. injection H as <-. constructor.
  - destruct (f a) as [b|e] eqn:Ef; simpl; [|discriminate].
    destruct (mapM f l) as [bs|e] eqn:El; simpl; [|discriminate].
    intros H. injection H as <-. constructor.
    + apply HP; [left; reflexivity|exact Ef].
    + apply IH; [|reflexivity].
      intros a' b' Hin. apply HP. right. exact Hin.
Qed.

Section Rerank.
Variable g : nat -> Q.
Hypothesis g_antitone : forall i j, (i <= j)%nat -> g j <= g i.

Lemma placed_sorted (recs : list Rec.t) :
  forall k wl,
    Forall2 (placed g) (combine (seq k (length recs)) recs) wl ->
    Forall (fun w => exists i, (k <= i)%nat /\
                               Weighted.weighted_score w == g i) wl /\
    StronglySorted
      (fun a b => Weighted.weighted_score b <= Weighted.weighted_score a) wl /\
    map Weighted.recommendation wl = recs.
Proof.
  induction recs as [|rec recs IH]; intros k wl H; simpl in H.
  - inversion H; subst. repeat constructor.
  - inversion H as [|p w ps wl' [Hrec Hkey] Hrest]; subst.
    destruct (IH (S k) wl' Hrest) as (Hall & Hsorted & Hmap).
    simpl in Hrec, Hkey. split; [|split].
    + constructor.
      * exists k. split; [lia|exact Hkey].
      * eapply Forall_impl; [|exact Hall].
        intros w' (i & Hi & Hw'). exists i. split; [lia|exact Hw'].
    + constructor; [exact Hsorted|].
      eapply Forall_impl; [|exact Hall].
      intros w' (i & Hi & Hw'). cbv beta.
      rewrite Hw', Hkey. apply g_antitone. lia.
    + simpl. rewrite Hrec, Hmap. reflexivity.
Qed.

(** Entries already placed in descending key order come back in the input
    order. *)
Lemma rerank_fixpoint (recs : list Rec.t) (wl : list Weighted.t) :
  Forall2 (placed g) (enumerate recs) wl ->
  map Weighted.recommendation (sorted_desc Weighted.weighted_score wl) = recs.
Proof.
  intros H. destruct (placed_sorted recs 0 wl H) as (_ & Hsorted & Hmap).
  rewrite sorted_desc_fixpoint by exact Hsorted. exact Hmap.
Qed.
End Rerank.

Lemma positional_antitone (n i j : nat) :
  (i <= j)%nat -> positional n j <= positional n i.
Proof.
  intros H. unfold positional, Qdiv.
  apply Qmult_le_compat_r.
  - rewrite <- Zle_Qle. lia.
  - apply Qinv_le_0_compat. replace 0 with (inject_Z 0) by reflexivity.
    rewrite <- Zle_Qle. lia.
Qed.

Lemma scorer_base_antitone (n i j : nat) :
  (i <= j)%nat -> scorer_base n j <= scorer_base n i.
Proof.
  intros H. unfold scorer_base. destruct (Nat.ltb 1 n).
  - apply positional_antitone, H.
  - apply Qle_refl.
Qed.

Lemma scored_table_lookup (df : DataFrame.t) (dest_id : Z) :
  scored_table df = true ->
  exists v q,
    SustainabilityScorer.get_sustainability_score df dest_id = Ok v /\
    as_float v = Ok q.
Proof.
  unfold scored_table. intros H. apply andb_prop in H as [Hc Hr].
  unfold SustainabilityScorer.get_sustainability_score, DataFrame.select_eq.
  rewrite Hc. cbn [bind].
  destruct (filter _ _) as [|r rs] eqn:E.
  - do 2 eexists. split; reflexivity.
  - assert (Hin : In r (DataFrame.rows df)).
    { eapply proj1. apply filter_In. erewrite E. left. reflexivity. }
    rewrite forallb_forall in Hr. specialize (Hr r Hin).
    unfold scored_row in Hr. unfold DataFrame.getitem.
    destruct (row_lookup _ r) as [v|]; [|discriminate].
    destruct v; try discriminate; do 2 eexists; split; reflexivity.
Qed.

Lemma mapM_total {A B : Type} (f : A -> result B) (l : list A) :
  (forall a, In a l -> exists b, f a = Ok b) -> exists r, mapM f l = Ok r.
Proof.
  induction l as [|a l IH]; intros H; simpl.
  - eexists. reflexivity.
  - destruct (H a (or_introl eq_refl)) as [b Hb]. rewrite Hb.
    destruct IH as [r Hr]; [intros; apply H; right; assumption|].
    rewrite Hr. eexists. reflexivity.
Qed.

Lemma in_enumerate {A : Type} (l : list A) (i : nat) (a : A) :
  In (i, a) (enumerate l) -> In a l.
Proof. unfold enumerate. apply in_combine_r. Qed.

Lemma map_snd_enumerate {A : Type} (l : list A) :
  map snd (enumerate l) = l.
Proof.
  unfold enumerate. generalize 0%nat.
  induction l as [|a l IH]; intros k; simpl; [reflexivity|].
  rewrite IH. reflexivity.
Qed.

Section ScorerWeight.
Context {st : Storage}.
Import SustainabilityScorer.

Lemma weigh_total (df : DataFrame.t) (weight : Q) (n_recs : nat)
      (p : nat * Rec.t) :
  scored_table df = true -> exists w, weigh df weight n_recs p = Ok w.
Proof.
  intros H. destruct p as [i rec]. unfold weigh.
  destruct (scored_table_lookup df (Rec.destination_id rec) H)
    as (v & q & Hv & Hq).
  rewrite Hv. cbn [bind]. rewrite Hq. cbn [bind]. eexists. reflexivity.
Qed.

Lemma weigh_placed (df : DataFrame.t) (n_recs : nat) (p : nat * Rec.t)
      (w : Weighted.t) :
  weigh df 0 n_recs p = Ok w -> placed (scorer_base n_recs) p w.
Proof.
  destruct p as [i rec]. unfold weigh.
  destruct (get_sustainability_score _ _) as [v|]; [|discriminate].
  cbn [bind]. destruct (as_float v) as [q|]; [|discriminate].
  cbn [bind]. intros H. injection H as <-. split; [reflexivity|].
  cbn [Weighted.weighted_score fst]. fold (scorer_base n_recs i). ring.
Qed.


Lemma scorer_weight_zero (self : t) (df : DataFrame.t) (recs : list Rec.t) :
  loaded self = Ok df -> scored_table df = true ->
  apply_sustainability_weighting self recs 0 = Ok recs.
Proof.
  intros Hl Hs. unfold apply_sustainability_weighting.
  rewrite Hl. cbn [bind].
  destruct (mapM_total (weigh df 0 (length recs)) (enumerate recs))
    as [wl Hwl]; [intros a _; apply weigh_total, Hs|].
  rewrite Hwl. cbn [bind]. f_equal.
  apply (rerank_fixpoint (scorer_base (length recs))).
  - apply scorer_base_antitone.
  - eapply mapM_Forall2; [|exact Hwl].
    intros p w _. apply weigh_placed.
Qed.
End ScorerWeight.

Section WeightingZero.
Context {np : NumPy}.
Import SustainabilityWeighting.

(** With weight 0 each of the four schemes returns the base score. *)
Lemma init_scheme_weight_zero (scheme : string) :
  In scheme ["linear"; "quadratic"; "sigmoid"; "threshold"] ->
  exists f,
    lookup (weighting_functions init) scheme = Some f /\
    forall b s, exists x, f b s 0 [] = Ok x /\ x == b.
Proof.
  simpl. intros [<-|[<-|[<-|[<-|[]]]]]; eexists; (split; [reflexivity|]);
    intros b s.
  - eexists. split; [reflexivity|].
    unfold _linear_weighting. ring.
  - eexists. split; [reflexivity|].
    unfold _quadratic_weighting. ring.
  - eexists. split; [reflexivity|].
    unfold _sigmoid_weighting. ring.
  - unfold threshold_kwargs, _threshold_weighting.
    destruct (Qlt_bool s 0.7); cbn; eexists; (split; [reflexivity|]); ring.
Qed.

Lemma rec_sustainability_total (recs : list Rec.t) :
  forallb scored_rec recs = true ->
  exists ss, mapM rec_sustainability recs = Ok ss.
Proof.
  intros H. apply mapM_total. intros rec Hin.
  rewrite forallb_forall in H. specialize (H rec Hin).
  unfold scored_rec in H. unfold rec_sustainability.
  destruct (Rec.sustainability_score rec) as [[z|q|str]|]; try discriminate;
    eexists; reflexivity.
Qed.

Section Placing.
Variable g : nat -> Q.
Variable f : WeightingFunction.
Hypothesis f_base : forall b s, exists x, f b s 0 [] = Ok x /\ x == b.

Lemma weights_zero (m : nat) :
  forall k ss,
    length ss = m ->
    exists ws,
      mapM (fun p : Q * Q => let (base, sust) := p in f base sust 0 [])
           (combine (map g (seq k m)) ss) = Ok ws /\
      Forall2 (fun w i => w == g i) ws (seq k m).
Proof.
  induction m as [|m IH]; intros k ss Hlen.
  - exists []. split; [reflexivity|constructor].
  - destruct ss as [|s ss]; [discriminate|]. injection Hlen as Hlen.
    destruct (IH (S k) ss Hlen) as (ws & Hws & Hall).
    destruct (f_base (g k) s) as (x & Hx & Hxb).
    exists (x :: ws). cbn [seq map combine mapM]. rewrite Hx. cbn [bind].
    rewrite Hws. cbn [bind]. split; [reflexivity|].
    constructor; assumption.
Qed.

Lemma combine_scores_placed (recs : list Rec.t) :
  forall k ss ws,
    length ss = length recs ->
    Forall2 (fun w i => w == g i) ws (seq k (length recs)) ->
    Forall2 (placed g) (combine (seq k (length recs)) recs)
            (combine_scores recs (map g (seq k (length recs))) ss ws).
Proof.
  induction recs as [|rec recs IH]; intros k ss ws Hlen Hall.
  - constructor.
  - destruct ss as [|s ss]; [discriminate|]. injection Hlen as Hlen.
    cbn [length seq] in Hall.
    inversion Hall as [|w i ws' is' Hw Hrest]; subst.
    cbn [length seq map combine combine_scores].
    constructor.
    + split; [reflexivity|exact Hw].
    + apply IH; assumption.
Qed.
End Placing.

Lemma weighting_weight_zero (recs : list Rec.t) (scheme : string) :
  In scheme ["linear"; "quadratic"; "sigmoid"; "threshold"] ->
  forallb scored_rec recs = true ->
  apply_weighting_to_recommendations init recs scheme 0 [] = Ok recs.
Proof.
  intros Hscheme Hrecs. unfold apply_weighting_to_recommendations.
  destruct recs as [|rec0 recs0] eqn:Erecs; [reflexivity|].
  rewrite <- Erecs in *. clear Erecs rec0 recs0.
  destruct (rec_sustainability_total recs Hrecs) as [ss Hss].
  rewrite Hss. cbn [bind].
  destruct (init_scheme_weight_zero scheme Hscheme) as (f & Hf & Hbase).
  unfold apply_weighting. rewrite Hf.
  assert (Hlen : length ss = length recs) by (eapply mapM_length; eassumption).
  destruct (weights_zero (positional (length recs)) f Hbase (length recs)
                         0%nat ss Hlen) as (ws & Hws & Hall).
  unfold positional_scores. fold (positional (length recs)).
  rewrite Hws. cbn [bind]. f_equal.
  apply (rerank_fixpoint (positional (length recs))).
  - apply positional_antitone.
  - apply combine_scores_placed; assumption.
Qed.
End WeightingZero.

(** C2.  Re-ranking a candidate list with weight 0 returns the list as it
    was given: by [SustainabilityScorer.apply_sustainability_weighting]
    whenever the scorer's table can be read, and by
    [SustainabilityWeighting.apply_weighting_to_recommendations] under each
    of the four schemes whenever the sustainability scores present in the
    candidates are numbers. *)
Theorem C2_weight_zero_keeps_order
        (np : NumPy) (st : Storage) (recs : list Rec.t) :
  recs <> [] ->
  (forall self df,
      SustainabilityScorer.loaded self = Ok df ->
      scored_table df = true ->
      SustainabilityScorer.apply_sustainability_weighting self recs 0
      = Ok recs) /\
  (forallb scored_rec recs = true ->
   forall scheme,
     In scheme ["linear"; "quadratic"; "sigmoid"; "threshold"] ->
     SustainabilityWeighting.apply_weighting_to_recommendations
       SustainabilityWeighting.init recs scheme 0 []
     = Ok recs).
Proof.
  intros _. split.
  - intros self df. apply scorer_weight_zero.
  - intros Hrecs scheme Hscheme. apply weighting_weight_zero; assumption.
Qed.

Lemma C2_witness :
  @SustainabilityScorer.apply_sustainability_weighting
    no_files {| SustainabilityScorer.destinations := Some scenario_table |}
    scenario_recs 0
  = Ok scenario_recs /\
  SustainabilityWeighting.apply_weighting_to_recommendations
    (@SustainabilityWeighting.init numpy_stable) scenario_recs "sigmoid" 0 []
  = Ok scenario_recs.
Proof.
  assert (Hne : scenario_recs <> []) by discriminate.
  destruct (C2_weight_zero_keeps_order numpy_stable no_files scenario_recs Hne)
    as [Hscorer Hweighting].
  split.
  - apply (Hscorer _ scenario_table); reflexivity.
  - apply Hweighting; [reflexivity|simpl; tauto].
Defined.

(** C8.  Scenario A: the positional base scores of five candidates are
    1, 0.8, 0.6, 0.4, 0.2, and the candidates 1 to 5 with sustainability
    scores 9, 2, 5, 8, 3, re-ranked with weight 1 (linear blend), come back in
    the order 1, 4, 3, 5, 2, from the scorer and from the weighting class. *)
Theorem C8_scenario_A (np : NumPy) (st : Storage) :
  Forall2 Qeq (SustainabilityWeighting.positional_scores 5)
          [1; 0.8; 0.6; 0.4; 0.2] /\
  (exists out,
      SustainabilityScorer.apply_sustainability_weighting
        {| SustainabilityScorer.destinations := Some scenario_table |}
        scenario_recs 1 = Ok out /\
      map Rec.destination_id out = [1; 4; 3; 5; 2]%Z) /\
  (exists out,
      SustainabilityWeighting.apply_weighting_to_recommendations
        SustainabilityWeighting.init scenario_recs "linear" 1 [] = Ok out /\
      map Rec.destination_id out = [1; 4; 3; 5; 2]%Z).
Proof.
  split; [|split].
  - repeat constructor.
  - eexists. split; reflexivity.
  - eexists. split; reflexivity.
Qed.

Lemma C9_witness :
  exists h,
    create_default_hybrid_recommender = Ok h /\
    py_sum (HybridRecommender.weights h) == 1 /\
    length (HybridRecommender.weights h) = 4%nat /\
    Forall (fun x => 0 < x) (HybridRecommender.weights h).
Proof.
  apply (C9_weights_sum_to_one default_calls).
  - discriminate.
  - repeat constructor.
Defined.

Lemma C10_witness :
  exists h w1 w2,
    add_all HybridRecommender.init
            [ (Popularity PopularityRecommender.init, 0.1);
              (ContentBased ContentBasedRecommender.init, 0.3) ] = Ok h /\
    HybridRecommender.weights h = [w1; w2] /\
    w1 == 1 / (1 + 0.3) /\ w2 == 0.3 / (1 + 0.3) /\
    (w1 == 0.1 / (0.1 + 0.3) -> 0.1 == 1) /\
    (w2 == 0.3 / (0.1 + 0.3) -> 0.1 == 1).
Proof.
  apply (C10_first_weight_forgotten
           (Popularity PopularityRecommender.init)
           (ContentBased ContentBasedRecommender.init) 0.1 0.3);
    reflexivity.
Defined.

(* ================================================================== *)
(** * Counterfactual explainer: what is left in the recommender *)
(* ================================================================== *)

Section Restore.
Context {np : NumPy} {st : Storage}.
Import CounterfactualExplainer.





End Restore.






(* ================================================================== *)
(** * Arrays: general facts *)
(* ================================================================== *)

Lemma has_shape_spec (m : Matrix) (r c : nat) :
  has_shape m r c = true ->
  length (mrows m) = r /\ ncols m = c /\
  Forall (fun row => length row = c) (mrows m).
Proof.
  unfold has_shape. intros H.
  apply andb_prop in H as [H H3]. apply andb_prop in H as [H1 H2].
  apply Nat.eqb_eq in H1, H2. repeat split; try assumption.
  apply Forall_forall. intros row Hin.
  rewrite forallb_forall in H3. apply Nat.eqb_eq, H3, Hin.
Qed.

Lemma matrix_row_ok (m : Matrix) (i : nat) :
  (i < length (mrows m))%nat -> matrix_row m i = Ok (nth i (mrows m) []).
Proof.
  intros H. unfold matrix_row.
  rewrite (nth_error_nth' _ [] H). reflexivity.
Qed.

Lemma shaped_row_length (m : Matrix) (r c i : nat) :
  has_shape m r c = true -> (i < r)%nat -> length (nth i (mrows m) []) = c.
Proof.
  intros H Hi. apply has_shape_spec in H as (Hr & _ & Hall).
  rewrite Forall_forall in Hall. apply Hall, nth_In. lia.
Qed.

Lemma setitem_ok (a : list Q) (i : nat) (v : Q) :
  (i < length a)%nat ->
  exists a',
    setitem a i v = Ok a' /\ length a' = length a /\ nth i a' 0 = v /\
    forall j, j <> i -> nth j a' 0 = nth j a 0.
Proof.
  revert i. induction a as [|x a IH]; intros i Hi; simpl in Hi; [lia|].
  destruct i as [|i]; simpl.
  - eexists. repeat split. intros [|j] Hj; [congruence|reflexivity].
  - destruct (IH i) as (a' & Ha' & Hlen & Hnth & Hother); [lia|].
    rewrite Ha'. simpl. eexists. split; [reflexivity|].
    simpl. repeat split; [congruence|exact Hnth|].
    intros [|j] Hj; [reflexivity|]. apply Hother. congruence.
Qed.

Lemma zip_with_length (f : Q -> Q -> Q) (a b : list Q) :
  length a = length b -> length (zip_with f a b) = length a.
Proof.
  revert b. induction a as [|x a IH]; intros [|y b] H; simpl in *;
    try discriminate; [reflexivity|].
  f_equal. apply IH. congruence.
Qed.

Lemma zip_with_plus_nth (a b : list Q) (d : nat) :
  length a = length b ->
  nth d (zip_with Qplus a b) 0 == nth d a 0 + nth d b 0.
Proof.
  revert b d. induction a as [|x a IH]; intros [|y b] d H; simpl in *;
    try discriminate.
  - destruct d; ring.
  - destruct d as [|d]; [reflexivity|]. apply IH. congruence.
Qed.

Lemma vec_iadd_ok (a b : list Q) :
  length a = length b -> vec_iadd a b = Ok (zip_with Qplus a b).
Proof.
  intros H. unfold vec_iadd. rewrite H, Nat.eqb_refl. reflexivity.
Qed.

Lemma vec_scale_nth (c : Q) (a : list Q) (d : nat) :
  nth d (vec_scale c a) 0 == c * nth d a 0.
Proof.
  revert d. induction a as [|x a IH]; intros [|d]; simpl; try ring.
  apply IH.
Qed.

Lemma vec_neg_nth (a : list Q) (i : nat) :
  nth i (vec_neg a) 0 = - nth i a 0.
Proof.
  unfold vec_neg. change 0 with (- 0) at 1. apply map_nth.
Qed.

Lemma zeros_nth (n d : nat) : nth d (zeros n) 0 = 0.
Proof.
  unfold zeros. revert d. induction n as [|n IH]; intros [|d]; simpl;
    try reflexivity. apply IH.
Qed.

Lemma py_sum_pointwise (l : list Q) :
  forall (f : nat -> Q),
    (forall d, (d < length l)%nat -> nth d l 0 == f d) ->
    py_sum l == py_sum (map f (seq 0 (length l))).
Proof.
  induction l as [|x l IH]; intros f H; [reflexivity|].
  cbn [length seq map]. rewrite !py_sum_cons.
  rewrite <- seq_shift, map_map, <- (IH (fun d => f (S d))).
  - rewrite <- (H 0%nat) by (simpl; lia). reflexivity.
  - intros d Hd. apply (H (S d)). simpl. lia.
Qed.

Lemma Qlt_bool_iff (x y : Q) : Qlt_bool x y = true <-> x < y.
Proof.
  unfold Qlt_bool. rewrite negb_true_iff. split.
  - intros H. apply Qnot_le_lt. intros Hle.
    apply Qle_bool_iff in Hle. congruence.
  - intros H. destruct (Qle_bool y x) eqn:E; [|reflexivity].
    apply Qle_bool_iff in E. lra.
Qed.

Lemma Qlt_bool_comp (x x' y y' : Q) :
  x == x' -> y == y' -> Qlt_bool x y = Qlt_bool x' y'.
Proof.
  intros Hx Hy. unfold Qlt_bool. rewrite Hx, Hy. reflexivity.
Qed.

Lemma normalize_length (l : list Q) : length (normalize l) = length l.
Proof.
  unfold normalize. destruct (Qlt_bool 0 (py_sum l)); [|reflexivity].
  apply length_map.
Qed.

Lemma map_div_nth (c : Q) (l : list Q) (d : nat) :
  nth d (map (fun x => x / c) l) 0 == nth d l 0 / c.
Proof.
  revert d. induction l as [|x l IH]; intros [|d]; simpl;
    try (unfold Qdiv; ring); try reflexivity.
  apply IH.
Qed.

Lemma normalize_nth (l : list Q) (d : nat) :
  nth d (normalize l) 0 ==
  if Qlt_bool 0 (py_sum l) then nth d l 0 / py_sum l else nth d l 0.
Proof.
  unfold normalize. destruct (Qlt_bool 0 (py_sum l)); [|reflexivity].
  apply map_div_nth.
Qed.

Section ArgsortFacts.
Context {np : NumPy}.

Lemma argsort_in_range (a : list Q) (i : nat) :
  In i (argsort a) -> (i < length a)%nat.
Proof.
  intros H. apply (Permutation_in _ (argsort_perm a)) in H.
  apply in_seq in H. lia.
Qed.

Lemma argsort_NoDup (a : list Q) : NoDup (argsort a).
Proof.
  eapply Permutation_NoDup; [symmetry; apply argsort_perm|apply seq_NoDup].
Qed.

Lemma argsort_complete (a : list Q) (i : nat) :
  (i < length a)%nat -> In i (argsort a).
Proof.
  intros H. apply (Permutation_in _ (Permutation_sym (argsort_perm a))).
  apply in_seq. lia.
Qed.
End ArgsortFacts.

Lemma in_firstn {A : Type} (n : nat) (l : list A) (x : A) :
  In x (firstn n l) -> In x l.
Proof.
  intros H. rewrite <- (firstn_skipn n l). apply in_or_app. left. exact H.
Qed.

Lemma NoDup_firstn {A : Type} (n : nat) (l : list A) :
  NoDup l -> NoDup (firstn n l).
Proof.
  intros H. rewrite <- (firstn_skipn n l) in H.
  apply NoDup_app_remove_r in H. exact H.
Qed.

Lemma StronglySorted_app_cross {A : Type} (R : A -> A -> Prop)
      (l1 l2 : list A) :
  StronglySorted R (l1 ++ l2) ->
  forall a b, In a l1 -> In b l2 -> R a b.
Proof.
  induction l1 as [|x l1 IH]; intros H a b Ha Hb; [contradiction|].
  simpl in H. inversion H as [|? ? Hs Hx]; subst.
  destruct Ha as [<-|Ha].
  - rewrite Forall_forall in Hx. apply Hx, in_or_app. right. exact Hb.
  - apply IH; assumption.
Qed.

(* ================================================================== *)
(** * User-based collaborative filtering *)
(* ================================================================== *)

Lemma where_eq_in (ids : list Z) (x : Z) :
  In x ids ->
  forall k, exists i rest,
    where_eq ids x k = (k + i)%nat :: rest /\ (i < length ids)%nat /\
    nth_error ids i = Some x.
Proof.
  induction ids as [|y ids IH]; intros Hin k; [contradiction|].
  simpl. destruct (Z.eqb_spec y x) as [->|Hne].
  - exists 0%nat. eexists. rewrite Nat.add_0_r. repeat split. simpl. lia.
  - destruct Hin as [E|Hin]; [contradiction|].
    destruct (IH Hin (S k)) as (i & rest & Hw & Hi & Hnth).
    exists (S i), rest. rewrite Hw. repeat split.
    + f_equal. lia.
    + simpl. lia.
    + exact Hnth.
Qed.

Lemma _get_user_index_known (b : BaseRecommender.t) (user_id : Z) :
  In user_id (BaseRecommender.user_ids b) ->
  exists u,
    BaseRecommender._get_user_index b user_id = Ok u /\
    (u < length (BaseRecommender.user_ids b))%nat /\
    nth_error (BaseRecommender.user_ids b) u = Some user_id.
Proof.
  intros H. destruct (where_eq_in _ _ H 0%nat) as (i & rest & Hw & Hi & Hn).
  exists i. unfold BaseRecommender._get_user_index. rewrite Hw.
  repeat split; assumption.
Qed.

Section UserCF.
Context {np : NumPy}.
Import CollaborativeFilteringRecommender.

Lemma weighted_rows_cons (m : Matrix) (sims : list Q) (v : nat)
      (ns : list nat) (d : nat) :
  weighted_rows m sims (v :: ns) d ==
  nth v sims 0 * nth d (nth v (mrows m) []) 0 + weighted_rows m sims ns d.
Proof. unfold weighted_rows. cbn [map]. apply py_sum_cons. Qed.

Lemma accumulate_spec (self : t) (sims : list Q) (U D : nat) :
  has_shape (BaseRecommender.interaction_matrix (base self)) U D = true ->
  forall similar acc,
    (forall v, In v similar -> (v < U)%nat) ->
    length acc = D ->
    exists res,
      foldM (fun scores similar_user_idx =>
               let s := nth similar_user_idx sims 0 in
               if Qle_bool s 0 then Ok scores
               else r <- matrix_row
                           (BaseRecommender.interaction_matrix (base self))
                           similar_user_idx ;;
                    vec_iadd scores (vec_scale s r))
            similar acc = Ok res /\
      length res = D /\
      forall d,
        nth d res 0 ==
        nth d acc 0 +
        weighted_rows (BaseRecommender.interaction_matrix (base self)) sims
                      (filter (fun v => Qlt_bool 0 (nth v sims 0)) similar) d.
Proof.
  intros Hshape. set (M := BaseRecommender.interaction_matrix (base self)).
  induction similar as [|v similar IH]; intros acc Hrange Hacc.
  - exists acc. split; [reflexivity|]. split; [exact Hacc|].
    intros d. unfold weighted_rows, py_sum. simpl. ring.
  - cbn [foldM filter].
    replace (Qlt_bool 0 (nth v sims 0))
      with (negb (Qle_bool (nth v sims 0) 0)) by reflexivity.
    destruct (Qle_bool (nth v sims 0) 0) eqn:E; cbn [negb bind].
    + apply IH; [|exact Hacc]. intros v' Hv'. apply Hrange. right. exact Hv'.
    + assert (Hv : (v < U)%nat) by (apply Hrange; left; reflexivity).
      assert (HU := proj1 (has_shape_spec _ _ _ Hshape)).
      rewrite matrix_row_ok by (unfold M; lia). cbn [bind].
      assert (Hlen : length acc
                     = length (vec_scale (nth v sims 0) (nth v (mrows M) []))).
      { unfold vec_scale. rewrite length_map.
        rewrite (shaped_row_length M U D v Hshape Hv). exact Hacc. }
      rewrite (vec_iadd_ok _ _ Hlen). cbn [bind].
      destruct (IH (zip_with Qplus acc
                             (vec_scale (nth v sims 0) (nth v (mrows M) []))))
        as (res & Hres & Hreslen & Hnth).
      * intros v' Hv'. apply Hrange. right. exact Hv'.
      * rewrite zip_with_length; assumption.
      * exists res. split; [exact Hres|]. split; [exact Hreslen|].
        intros d. rewrite Hnth, weighted_rows_cons.
        rewrite (zip_with_plus_nth _ _ d Hlen), vec_scale_nth. ring.
Qed.

Lemma user_similarities_ok (self : t) (U u : nat) :
  has_shape (similarity_matrix self) U U = true -> (u < U)%nat ->
  exists sims,
    user_similarities self u = Ok sims /\ length sims = U /\
    nth u sims 0 = 0 /\
    forall v, v <> u ->
              nth v sims 0
              = nth v (nth u (mrows (similarity_matrix self)) []) 0.
Proof.
  intros Hshape Hu. unfold user_similarities.
  assert (HU := proj1 (has_shape_spec _ _ _ Hshape)).
  rewrite matrix_row_ok by lia. cbn [bind].
  assert (Hrow := shaped_row_length _ U U u Hshape Hu).
  destruct (setitem_ok (nth u (mrows (similarity_matrix self)) []) u 0)
    as (sims & Hs & Hlen & Hnu & Hother); [lia|].
  exists sims. repeat split; try assumption. congruence.
Qed.

Lemma similar_users_range (sims : list Q) (v : nat) :
  In v (similar_users sims) -> (v < length sims)%nat.
Proof.
  unfold similar_users. intros H. apply in_firstn in H.
  apply argsort_in_range in H. unfold vec_neg in H.
  rewrite length_map in H. exact H.
Qed.

(** What the neighbours are: at most 20 distinct users of positive
    similarity, none of the users left out being more similar than one
    taken. *)
Lemma neighbours_top (sims : list Q) :
  NoDup (neighbours sims) /\
  (length (neighbours sims) <= 20)%nat /\
  (forall v, In v (neighbours sims) ->
             (v < length sims)%nat /\ 0 < nth v sims 0) /\
  (forall v v', In v (neighbours sims) -> (v' < length sims)%nat ->
                ~ In v' (neighbours sims) -> nth v' sims 0 <= nth v sims 0).
Proof.
  unfold neighbours. split; [|split; [|split]].
  - apply NoDup_filter, NoDup_firstn, argsort_NoDup.
  - etransitivity; [apply filter_length_le|].
    unfold similar_users. rewrite length_firstn. lia.
  - intros v Hv. apply filter_In in Hv as [Hin Hpos].
    split; [apply similar_users_range, Hin|apply Qlt_bool_iff, Hpos].
  - intros v v' Hv Hv' Hnot.
    apply filter_In in Hv as [Hin Hpos]. apply Qlt_bool_iff in Hpos.
    assert (Hall : In v' (argsort (vec_neg sims))).
    { apply argsort_complete. unfold vec_neg. rewrite length_map. exact Hv'. }
    rewrite <- (firstn_skipn 20 (argsort (vec_neg sims))) in Hall.
    apply in_app_or in Hall as [Hfirst|Hlast].
    + destruct (Qlt_bool 0 (nth v' sims 0)) eqn:E.
      * exfalso. apply Hnot, filter_In. split; assumption.
      * assert (~ 0 < nth v' sims 0).
        { intros H. apply Qlt_bool_iff in H. congruence. }
        lra.
    + assert (Hs := argsort_sorted (vec_neg sims)).
      rewrite <- (firstn_skipn 20 (argsort (vec_neg sims))) in Hs.
      assert (H := StronglySorted_app_cross _ _ _ Hs v v' Hin Hlast).
      cbv beta in H. rewrite !vec_neg_nth in H. lra.
Qed.
End UserCF.

Lemma filter_all {A : Type} (f : A -> bool) (l : list A) :
  (forall x, In x l -> f x = true) -> filter f l = l.
Proof.
  induction l as [|x l IH]; intros H; simpl; [reflexivity|].
  rewrite (H x (or_introl eq_refl)), IH; [reflexivity|].
  intros y Hy. apply H. right. exact Hy.
Qed.

(** A user of positive similarity is left out only when 20 neighbours are
    taken. *)
Lemma neighbours_full (np : NumPy) (sims : list Q) (v' : nat) :
  (v' < length sims)%nat -> 0 < nth v' sims 0 ->
  ~ In v' (neighbours sims) ->
  length (neighbours sims) = 20%nat.
Proof.
  intros Hv' Hpos Hnot. unfold neighbours in *.
  unfold CollaborativeFilteringRecommender.similar_users in *.
  set (order := argsort (vec_neg sims)) in *.
  assert (Hall : In v' order).
  { apply argsort_complete. unfold vec_neg. rewrite length_map. exact Hv'. }
  rewrite <- (firstn_skipn 20 order) in Hall.
  apply in_app_or in Hall as [Hfirst|Hlast].
  { exfalso. apply Hnot, filter_In. split; [exact Hfirst|].
    apply Qlt_bool_iff, Hpos. }
  assert (Hs := argsort_sorted (vec_neg sims)). fold order in Hs.
  rewrite <- (firstn_skipn 20 order) in Hs.
  rewrite filter_all.
  - rewrite length_firstn.
    assert (Hlen : (0 < length (skipn 20 order))%nat).
    { destruct (skipn 20 order); [contradiction|simpl; lia]. }
    rewrite length_skipn in Hlen. lia.
  - intros v Hv.
    assert (H := StronglySorted_app_cross _ _ _ Hs v v' Hv Hlast).
    cbv beta in H. rewrite !vec_neg_nth in H.
    apply Qlt_bool_iff. lra.
Qed.

(** The score vector of [user_scores] for the user at index [u]. *)
Lemma user_scores_spec
      (np : NumPy) (self : CollaborativeFilteringRecommender.t) (u : nat) :
  let b := CollaborativeFilteringRecommender.base self in
  let M := BaseRecommender.interaction_matrix b in
  let S := CollaborativeFilteringRecommender.similarity_matrix self in
  let U := length (BaseRecommender.user_ids b) in
  (u < U)%nat ->
  has_shape M U (ncols M) = true ->
  has_shape S U U = true ->
  exists sims scores,
    CollaborativeFilteringRecommender.user_similarities self u = Ok sims /\
    nth u sims 0 = 0 /\
    (forall v, v <> u -> nth v sims 0 = nth v (nth u (mrows S) []) 0) /\
    CollaborativeFilteringRecommender.user_scores self u = Ok scores /\
    length scores = ncols M /\
    NoDup (neighbours sims) /\
    (length (neighbours sims) <= 20)%nat /\
    ~ In u (neighbours sims) /\
    (forall v, In v (neighbours sims) -> (v < U)%nat /\ 0 < nth v sims 0) /\
    (forall v v', In v (neighbours sims) -> (v' < U)%nat ->
                  ~ In v' (neighbours sims) ->
                  nth v' sims 0 <= nth v sims 0) /\
    forall d, (d < ncols M)%nat ->
              nth d scores 0 ==
              normalized_user_score M sims (neighbours sims) d.
Proof.
  intros b M S U Hlt HM HS.
  destruct (user_similarities_ok self U u HS Hlt)
    as (sims & Hsims & Hlen & Hself & Hother).
  destruct (neighbours_top sims) as (Hnd & Hcount & Hpos & Htop).
  rewrite Hlen in Hpos, Htop.
  destruct (accumulate_spec self sims U (ncols M) HM
                            (CollaborativeFilteringRecommender.similar_users
                               sims) (zeros (ncols M)))
    as (raw & Hraw & Hrawlen & Hnth).
  { intros v Hv. rewrite <- Hlen. apply similar_users_range, Hv. }
  { apply repeat_length. }
  exists sims, (normalize raw).
  split; [exact Hsims|]. split; [exact Hself|].
  split; [exact Hother|]. split.
  { unfold CollaborativeFilteringRecommender.user_scores.
    rewrite Hsims. cbn [bind].
    change (CollaborativeFilteringRecommender.accumulate_user
              self sims
              (CollaborativeFilteringRecommender.similar_users sims)
            = Ok raw) in Hraw.
    rewrite Hraw. reflexivity. }
  split; [rewrite normalize_length; exact Hrawlen|].
  split; [exact Hnd|]. split; [exact Hcount|]. split.
  { intros Hin. apply Hpos in Hin as [_ Hin]. rewrite Hself in Hin.
    apply Qlt_irrefl in Hin. exact Hin. }
  split; [exact Hpos|]. split; [exact Htop|].
  intros d Hd.
  assert (Hentry : forall d', nth d' raw 0
                              == weighted_rows M sims (neighbours sims) d').
  { intros d'. rewrite Hnth, zeros_nth, Qplus_0_l. reflexivity. }
  assert (Hmass : py_sum raw == score_mass M sims (neighbours sims)).
  { unfold score_mass. rewrite <- Hrawlen.
    apply py_sum_pointwise. intros d' _. apply Hentry. }
  rewrite normalize_nth. unfold normalized_user_score.
  rewrite (Qlt_bool_comp 0 0 _ _ (Qeq_refl 0) Hmass).
  destruct (Qlt_bool 0 (score_mass M sims (neighbours sims))).
  - rewrite Hentry, Hmass. reflexivity.
  - apply Hentry.
Qed.


(** C7, counterexample.  For user 10 of the scenario the only neighbour is
    user 20, with similarity 1 and two visits; the code returns the score 1/2
    for destination 1, while the weighted sum divided by the sum of the
    similarities used is 1. *)
Lemma C7_counterexample :
  exists sims scores,
    CollaborativeFilteringRecommender.user_similarities scenario_user_cf 0
    = Ok sims /\
    @CollaborativeFilteringRecommender.user_scores
      numpy_stable scenario_user_cf 0 = Ok scores /\
    @neighbours numpy_stable sims = [1%nat] /\
    nth 0 scores 0 == 1 / 2 /\
    claimed_user_score scenario_matrix sims (@neighbours numpy_stable sims) 0
    == 1 /\
    ~ nth 0 scores 0 ==
      claimed_user_score scenario_matrix sims
                         (@neighbours numpy_stable sims) 0.
Proof.
  do 2 eexists. split; [reflexivity|]. split; [reflexivity|].
  split; [reflexivity|]. split; [reflexivity|]. split; [reflexivity|].
  intros H. vm_compute in H. discriminate H.
Qed.

(** C7, amended.  For every known user, on interaction and similarity
    matrices of matching shapes, the user-based score vector is: the sum,
    over the neighbours, of the neighbour's interaction row weighted by its
    similarity to the user, divided by the sum of the entries of that
    weighted sum when this is positive (and left as it is otherwise).  The
    similarities are the user's row of the similarity matrix with the user's
    own entry set to 0; the neighbours are the top 20 other users of
    positive similarity: at most 20 distinct users, no user left out is more
    similar than a neighbour, and a user of positive similarity is left out
    only when 20 neighbours are taken. *)
Theorem C7_user_cf_scores
        (np : NumPy) (self : CollaborativeFilteringRecommender.t)
        (user_id : Z) :
  let b := CollaborativeFilteringRecommender.base self in
  let M := BaseRecommender.interaction_matrix b in
  let S := CollaborativeFilteringRecommender.similarity_matrix self in
  let U := length (BaseRecommender.user_ids b) in
  In user_id (BaseRecommender.user_ids b) ->
  has_shape M U (ncols M) = true ->
  has_shape S U U = true ->
  exists u sims scores,
    BaseRecommender._get_user_index b user_id = Ok u /\
    CollaborativeFilteringRecommender.user_similarities self u = Ok sims /\
    nth u sims 0 = 0 /\
    (forall v, v <> u -> nth v sims 0 = nth v (nth u (mrows S) []) 0) /\
    CollaborativeFilteringRecommender.user_scores self u = Ok scores /\
    length scores = ncols M /\
    NoDup (neighbours sims) /\
    (length (neighbours sims) <= 20)%nat /\
    ~ In u (neighbours sims) /\
    (forall v, In v (neighbours sims) -> (v < U)%nat /\ 0 < nth v sims 0) /\
    (forall v v', In v (neighbours sims) -> (v' < U)%nat ->
                  ~ In v' (neighbours sims) ->
                  nth v' sims 0 <= nth v sims 0) /\
    (forall v', (v' < U)%nat -> 0 < nth v' sims 0 ->
                ~ In v' (neighbours sims) ->
                length (neighbours sims) = 20%nat) /\
    forall d, (d < ncols M)%nat ->
              nth d scores 0 ==
              normalized_user_score M sims (neighbours sims) d.
Proof.
  intros b M S U Hknown HM HS.
  destruct (_get_user_index_known b user_id Hknown) as (u & Hu & Hlt & _).
  destruct (user_scores_spec np self u Hlt HM HS)
    as (sims & scores & Hsims & H1 & H2 & H3 & H4 & H5 & H6 & H7 & H8 & H9
        & H10).
  destruct (user_similarities_ok self U u HS Hlt)
    as (sims' & Hsims' & Hlen & _).
  assert (sims' = sims) by congruence. subst sims'.
  exists u, sims, scores.
  repeat (split; [assumption|]).
  split; [|exact H10].
  intros v' Hv'. rewrite <- Hlen in Hv'. apply neighbours_full, Hv'.
Qed.

Lemma C7_witness :
  exists u sims scores,
    BaseRecommender._get_user_index
      (CollaborativeFilteringRecommender.base crowd_cf) 1 = Ok u /\
    CollaborativeFilteringRecommender.user_similarities crowd_cf u
    = Ok sims /\
    @CollaborativeFilteringRecommender.user_scores
      numpy_stable crowd_cf u = Ok scores /\
    length (@neighbours numpy_stable sims) = 20%nat /\
    forall d, (d < 3)%nat ->
              nth d scores 0 ==
              normalized_user_score
                (BaseRecommender.interaction_matrix
                   (CollaborativeFilteringRecommender.base crowd_cf))
                sims (@neighbours numpy_stable sims) d.
Proof.
  destruct (C7_user_cf_scores numpy_stable crowd_cf 1)
    as (u & sims & scores & Hu & Hsims & _ & _ & Hscores & _ & _ & _ & _ & _
        & _ & Hfull & Hd).
  - left. reflexivity.
  - reflexivity.
  - reflexivity.
  - exists u, sims, scores.
    split; [exact Hu|]. split; [exact Hsims|]. split; [exact Hscores|].
    split; [|exact Hd].
    vm_compute in Hu. injection Hu as <-.
    vm_compute in Hsims. injection Hsims as <-.
    apply (Hfull 21%nat).
    + vm_compute. reflexivity.
    + reflexivity.
    + vm_compute. intros H.
      repeat (destruct H as [H|H]; [discriminate H|]). exact H.
Defined.

(* ================================================================== *)
(** * Base recommenders: the closing lines of [recommend] *)
(* ================================================================== *)

Lemma distinct_NoDup (l : list Z) : distinct l = true -> NoDup l.
Proof.
  induction l as [|x l IH]; simpl; intros H; constructor.
  - apply andb_prop in H as [H _]. intros Hin.
    apply negb_true_iff in H.
    assert (E : existsb (Z.eqb x) l = true).
    { apply existsb_exists. exists x. split; [exact Hin|apply Z.eqb_refl]. }
    congruence.
  - apply IH. apply andb_prop in H as [_ H]. exact H.
Qed.


Lemma take_ok (a : list Q) (idx : list nat) :
  Forall (fun i => (i < length a)%nat) idx ->
  take a idx = Ok (map (fun i => nth i a 0) idx).
Proof.
  intros H. unfold take. apply mapM_ok. intros i Hi.
  rewrite Forall_forall in H.
  rewrite (nth_error_nth' _ 0 (H i Hi)). reflexivity.
Qed.

Lemma mask_select_filter (f : nat -> bool) (idx : list nat) :
  mask_select idx (map f idx) = filter f idx.
Proof.
  induction idx as [|i idx IH]; simpl; [reflexivity|].
  rewrite IH. reflexivity.
Qed.

Section BaseTail.
Context {np : NumPy}.
Import BaseRecommender.

Variable b : BaseRecommender.t.
Hypothesis b_wf : base_wf b = true.

Let U := length (user_ids b).
Let D := length (dest_ids b).

Lemma base_wf_shape : has_shape (interaction_matrix b) U D = true.
Proof.
  unfold base_wf in b_wf. apply andb_prop in b_wf as [H _].
  apply andb_prop in H as [H _]. exact H.
Qed.

Lemma base_wf_NoDup : NoDup (dest_ids b).
Proof.
  unfold base_wf in b_wf. apply andb_prop in b_wf as [H _].
  apply andb_prop in H as [_ H]. apply distinct_NoDup, H.
Qed.

Lemma format_one_ok (idx : nat) :
  (idx < D)%nat ->
  exists rec,
    format_one b idx = Ok rec /\
    Rec.destination_id rec = nth idx (dest_ids b) 0%Z.
Proof.
  intros Hidx. unfold format_one, _get_destination_id.
  rewrite (nth_error_nth' _ 0%Z Hidx). cbn [bind].
  assert (Hf : formattable (destinations b) (nth idx (dest_ids b) 0%Z) = true).
  { unfold base_wf in b_wf. apply andb_prop in b_wf as [_ H].
    rewrite forallb_forall in H. apply H, nth_In, Hidx. }
  unfold formattable in Hf. apply andb_prop in Hf as [Hc Hr].
  unfold DataFrame.select_eq. rewrite Hc. cbn [bind].
  destruct (filter _ _) as [|r rs]; [discriminate|].
  cbn [DataFrame.iloc0 bind]. unfold has_key in Hr.
  unfold DataFrame.getitem.
  destruct (row_lookup "name" r); [|discriminate].
  destruct (row_lookup "country" r); [|discriminate].
  destruct (row_lookup "overall_sustainability_score" r); [|discriminate].
  destruct (row_lookup "landscape_type" r); [|discriminate].
  cbn [bind]. eexists. split; reflexivity.
Qed.

Lemma _format_recommendations_ok (idxs : list nat) :
  Forall (fun i => (i < D)%nat) idxs ->
  exists out,
    _format_recommendations b idxs = Ok out /\
    map Rec.destination_id out = map (fun i => nth i (dest_ids b) 0%Z) idxs.
Proof.
  unfold _format_recommendations.
  induction 1 as [|i idxs Hi _ IH]; cbn [mapM map].
  - exists []. split; reflexivity.
  - destruct (format_one_ok i Hi) as (rec & Hrec & Hid).
    destruct IH as (out & Hout & Hids).
    rewrite Hrec. cbn [bind]. rewrite Hout. cbn [bind].
    exists (rec :: out). split; [reflexivity|].
    cbn [map]. rewrite Hid, Hids. reflexivity.
Qed.

Lemma unvisited_ok (u : nat) (idxs : list nat) :
  (u < U)%nat ->
  Forall (fun i => (i < D)%nat) idxs ->
  unvisited b u idxs =
  Ok (filter (fun i => negb (Qlt_bool 0
                               (nth i (nth u (mrows (interaction_matrix b))
                                           []) 0)))
             idxs).
Proof.
  intros Hu Hidx. unfold unvisited.
  assert (Hshape := base_wf_shape).
  assert (HU := proj1 (has_shape_spec _ _ _ Hshape)).
  rewrite matrix_row_ok by lia. cbn [bind].
  rewrite take_ok.
  - cbn [bind]. f_equal. rewrite map_map. apply mask_select_filter.
  - rewrite (shaped_row_length _ U D u Hshape Hu). exact Hidx.
Qed.

End BaseTail.

(* ================================================================== *)
(** * Base recommenders: score vectors *)
(* ================================================================== *)

Lemma column_sums_length (m : Matrix) (r c : nat) :
  has_shape m r c = true -> length (column_sums m) = c.
Proof.
  intros H. apply has_shape_spec in H as (_ & Hc & Hall).
  unfold column_sums. rewrite Hc.
  assert (Hz : length (zeros c) = c) by apply repeat_length.
  revert Hz. generalize (zeros c).
  induction Hall as [|row rows Hrow _ IH]; intros acc Hacc; simpl.
  - exact Hacc.
  - apply IH. rewrite zip_with_length; congruence.
Qed.

Lemma where_pos_range (row : list Q) :
  forall k i, In i (where_pos row k) ->
              (k <= i)%nat /\ (i < k + length row)%nat.
Proof.
  induction row as [|x row IH]; intros k i H; simpl in H; [contradiction|].
  destruct (Qlt_bool 0 x).
  - destruct H as [<-|H]; [simpl; lia|].
    apply IH in H. simpl. lia.
  - apply IH in H. simpl. lia.
Qed.

Lemma where_pos_nil (row : list Q) (k : nat) :
  where_pos row k = [] -> Forall (fun x => ~ 0 < x) row.
Proof.
  revert k. induction row as [|x row IH]; intros k H; [constructor|].
  simpl in H. destruct (Qlt_bool 0 x) eqn:E; [discriminate|].
  constructor; [|eapply IH; exact H].
  intros Hx. apply Qlt_bool_iff in Hx. congruence.
Qed.

(** Adding rows of a matrix to a vector of the width of the matrix. *)
Lemma add_rows_ok (m : Matrix) (r c : nat) :
  has_shape m r c = true ->
  forall idxs acc,
    Forall (fun i => (i < r)%nat) idxs ->
    length acc = c ->
    exists res,
      foldM (fun acc idx => row <- matrix_row m idx ;; vec_iadd acc row)
            idxs acc = Ok res /\
      length res = c.
Proof.
  intros Hshape. assert (Hr := proj1 (has_shape_spec _ _ _ Hshape)).
  induction idxs as [|i idxs IH]; intros acc Hrange Hacc.
  - exists acc. split; [reflexivity|exact Hacc].
  - apply Forall_cons_iff in Hrange as [Hi Hrest].
    cbn [foldM]. rewrite matrix_row_ok by lia. cbn [bind].
    assert (Hlen : length acc = length (nth i (mrows m) [])).
    { rewrite (shaped_row_length m _ c i Hshape Hi). exact Hacc. }
    rewrite (vec_iadd_ok _ _ Hlen). cbn [bind].
    apply IH; [exact Hrest|]. rewrite zip_with_length; assumption.
Qed.

Section Scores.
Context {np : NumPy}.

Lemma similarity_scores_ok (c : ContentBasedRecommender.t) (D : nat)
      (visited : list nat) :
  D = length (BaseRecommender.dest_ids (ContentBasedRecommender.base c)) ->
  has_shape (ContentBasedRecommender.feature_similarity c) D D = true ->
  Forall (fun i => (i < D)%nat) visited ->
  exists scores,
    ContentBasedRecommender.similarity_scores c visited = Ok scores /\
    length scores = D.
Proof.
  intros HD Hshape Hrange. unfold ContentBasedRecommender.similarity_scores.
  destruct (add_rows_ok _ D D Hshape visited (zeros D) Hrange)
    as (acc & Hacc & Hlen); [apply repeat_length|].
  rewrite <- HD, Hacc. cbn [bind]. eexists. split; [reflexivity|].
  rewrite length_map. exact Hlen.
Qed.

Lemma item_scores_ok (c : CollaborativeFilteringRecommender.t) (U D u : nat) :
  D = length (BaseRecommender.dest_ids
                (CollaborativeFilteringRecommender.base c)) ->
  has_shape (BaseRecommender.interaction_matrix
               (CollaborativeFilteringRecommender.base c)) U D = true ->
  has_shape (CollaborativeFilteringRecommender.similarity_matrix c) D D
  = true ->
  (u < U)%nat ->
  exists scores,
    CollaborativeFilteringRecommender.item_scores c u = Ok scores /\
    length scores = D.
Proof.
  intros HD HM HS Hu. unfold CollaborativeFilteringRecommender.item_scores.
  assert (HU := proj1 (has_shape_spec _ _ _ HM)).
  assert (HSr := proj1 (has_shape_spec _ _ _ HS)).
  rewrite matrix_row_ok by lia. cbn [bind].
  assert (Hrow := shaped_row_length _ U D u HM Hu).
  set (row := nth u _ []) in *.
  assert (Hloop :
            forall (ps : list (nat * Q)) acc,
              Forall (fun p => (fst p < D)%nat) ps ->
              length acc = D ->
              exists res,
                foldM (fun scores (p : nat * Q) =>
                         let (i, has_visited) := p in
                         if Qlt_bool 0 has_visited
                         then similarities <-
                                matrix_row
                                  (CollaborativeFilteringRecommender.similarity_matrix
                                     c) i ;;
                              vec_iadd scores similarities
                         else Ok scores)
                      ps acc = Ok res /\
                length res = D).
  { induction ps as [|[i x] ps IH]; intros acc Hrange Hacc.
    - exists acc. split; [reflexivity|exact Hacc].
    - apply Forall_cons_iff in Hrange as [Hi Hrest]. simpl in Hi.
      cbn [foldM]. destruct (Qlt_bool 0 x); cbn [bind].
      + rewrite matrix_row_ok by lia. cbn [bind].
        assert (Hlen : length acc
                       = length (nth i (mrows
                           (CollaborativeFilteringRecommender.similarity_matrix
                              c)) [])).
        { rewrite (shaped_row_length _ D D i HS Hi). exact Hacc. }
        rewrite (vec_iadd_ok _ _ Hlen). cbn [bind].
        apply IH; [exact Hrest|]. rewrite zip_with_length; assumption.
      + apply IH; assumption. }
  destruct (Hloop (enumerate row) (zeros D)) as (res & Hres & Hlen).
  - apply Forall_forall. intros [i x] Hin. unfold enumerate in Hin.
    apply in_combine_l, in_seq in Hin. simpl. lia.
  - apply repeat_length.
  - rewrite <- HD, Hres. cbn [bind]. eexists. split; [reflexivity|].
    rewrite normalize_length. exact Hlen.
Qed.
End Scores.

(* ================================================================== *)
(** * Base recommenders: [recommend] with [exclude_visited] *)
(* ================================================================== *)

Section Fresh.
Context {np : NumPy} {st : Storage}.


Lemma history_not_empty (m : Matrix) (u : nat) :
  all_have_history m = true -> (u < length (mrows m))%nat ->
  where_pos (nth u (mrows m) []) 0 <> [].
Proof.
  intros Hall Hu E. unfold all_have_history in Hall.
  rewrite forallb_forall in Hall.
  specialize (Hall (nth u (mrows m) []) (nth_In _ _ Hu)).
  rewrite E in Hall. discriminate.
Qed.



End Fresh.

(* ================================================================== *)
(** * The dictionary of the ensemble *)
(* ================================================================== *)

Section Dictionary.
Import HybridRecommender.

Lemma entry_of_In (all : list (Z * Entry)) (k : Z) (e : Entry) :
  NoDup (map fst all) -> In (k, e) all -> entry_of all k = Some e.
Proof.
  induction all as [|[k' e'] all IH]; intros Hnd Hin; [contradiction|].
  simpl in Hnd. inversion Hnd as [|? ? Hnot Hnd']; subst.
  simpl. destruct Hin as [E|Hin].
  - injection E as -> ->. rewrite Z.eqb_refl. reflexivity.
  - destruct (Z.eqb_spec k' k) as [->|_].
    + exfalso. apply Hnot. apply (in_map fst) in Hin. exact Hin.
    + apply IH; assumption.
Qed.

Lemma entry_of_None (all : list (Z * Entry)) (k : Z) :
  entry_of all k = None <-> ~ In k (map fst all).
Proof.
  induction all as [|[k' e'] all IH]; simpl; [tauto|].
  destruct (Z.eqb_spec k' k) as [->|Hne].
  - split; [discriminate|]. intros H. exfalso. apply H. left. reflexivity.
  - rewrite IH. tauto.
Qed.

Lemma upsert_entry (all : list (Z * Entry)) (k : Z) (rec : Rec.t) (sc : Q)
      (src : string) (k' : Z) :
  entry_of (upsert all k rec sc src) k' =
  if Z.eqb k k'
  then Some match entry_of all k with
            | Some e => {| recommendation := recommendation e;
                           score := score e + sc;
                           sources := (sources e ++ [src])%list |}
            | None => {| recommendation := rec;
                         score := sc;
                         sources := [src] |}
            end
  else entry_of all k'.
Proof.
  induction all as [|[k0 e0] all IH]; simpl.
  - destruct (Z.eqb k k'); reflexivity.
  - destruct (Z.eqb_spec k0 k) as [->|Hne]; simpl.
    + destruct (Z.eqb k k'); reflexivity.
    + rewrite IH.
      destruct (Z.eqb_spec k0 k'), (Z.eqb_spec k k'); subst;
        try congruence; reflexivity.
Qed.

Lemma upsert_keys (all : list (Z * Entry)) (k : Z) (rec : Rec.t) (sc : Q)
      (src : string) :
  map fst (upsert all k rec sc src) =
  if existsb (Z.eqb k) (map fst all) then map fst all
  else (map fst all ++ [k])%list.
Proof.
  induction all as [|[k0 e0] all IH]; simpl; [reflexivity|].
  rewrite (Z.eqb_sym k k0).
  destruct (Z.eqb_spec k0 k) as [->|Hne]; simpl; [reflexivity|].
  rewrite IH. destruct (existsb _ _); reflexivity.
Qed.

Lemma upsert_In_keys (all : list (Z * Entry)) (k : Z) (rec : Rec.t) (sc : Q)
      (src : string) (k' : Z) :
  In k' (map fst (upsert all k rec sc src)) <-> In k' (map fst all) \/ k' = k.
Proof.
  rewrite upsert_keys. destruct (existsb _ _) eqn:E.
  - apply existsb_exists in E as (x & Hx & Hk). apply Z.eqb_eq in Hk.
    subst x. split; [tauto|]. intros [H| ->]; assumption.
  - rewrite in_app_iff. simpl. intuition.
Qed.

Lemma upsert_keyed (all : list (Z * Entry)) (rec : Rec.t) (sc : Q)
      (src : string) :
  keyed all -> keyed (upsert all (Rec.destination_id rec) rec sc src).
Proof.
  intros [Hnd Hid]. split.
  - rewrite upsert_keys. destruct (existsb _ _) eqn:E; [exact Hnd|].
    apply NoDup_app; [exact Hnd|repeat constructor; intros []|].
    intros a Ha [<-|[]].
    assert (existsb (Z.eqb (Rec.destination_id rec)) (map fst all) = true).
    { apply existsb_exists. exists (Rec.destination_id rec).
      split; [exact Ha|apply Z.eqb_refl]. }
    congruence.
  - clear Hnd. induction Hid as [|[k0 e0] all Hk0 Hall IH]; simpl.
    + repeat constructor.
    + destruct (Z.eqb_spec k0 (Rec.destination_id rec)) as [E|_].
      * constructor; [exact Hk0|exact Hall].
      * constructor; [exact Hk0|exact IH].
Qed.

(** Where the recommendation stored under a key comes from. *)
Lemma upsert_origin (all : list (Z * Entry)) (k : Z) (rec : Rec.t) (sc : Q)
      (src : string) (P : Rec.t -> Prop) :
  Forall (fun p => P (recommendation (snd p))) all -> P rec ->
  Forall (fun p => P (recommendation (snd p))) (upsert all k rec sc src).
Proof.
  intros Hall Hrec.
  induction Hall as [|[k0 e0] all Hk0 Hall IH]; simpl.
  - repeat constructor. exact Hrec.
  - destruct (Z.eqb k0 k); constructor; assumption.
Qed.

Lemma upsert_score (all : list (Z * Entry)) (k : Z) (rec : Rec.t) (sc : Q)
      (src : string) (k' : Z) :
  score_of (upsert all k rec sc src) k' ==
  score_of all k' + (if Z.eqb k k' then sc else 0).
Proof.
  unfold score_of. rewrite upsert_entry.
  destruct (Z.eqb_spec k k') as [->|_].
  - destruct (entry_of all k'); simpl; ring.
  - ring.
Qed.

Lemma upsert_sources (all : list (Z * Entry)) (k : Z) (rec : Rec.t) (sc : Q)
      (src : string) (k' : Z) :
  sources_of (upsert all k rec sc src) k' =
  (sources_of all k' ++ (if Z.eqb k k' then [src] else []))%list.
Proof.
  unfold sources_of. rewrite upsert_entry.
  destruct (Z.eqb_spec k k') as [->|_].
  - destruct (entry_of all k'); reflexivity.
  - rewrite app_nil_r. reflexivity.
Qed.
End Dictionary.

Lemma py_sum_ext {A : Type} (f g : A -> Q) (l : list A) :
  (forall x, In x l -> f x == g x) -> py_sum (map f l) == py_sum (map g l).
Proof.
  induction l as [|x l IH]; intros H; [reflexivity|].
  cbn [map]. rewrite !py_sum_cons, (H x (or_introl eq_refl)), IH.
  - reflexivity.
  - intros y Hy. apply H. right. exact Hy.
Qed.

Section Merge.
Import HybridRecommender.

Lemma merge_from_spec (src : string) (w : Q) (L : nat)
      (P : Rec.t -> Prop) (ps : list (nat * Rec.t)) :
  forall all,
    keyed all ->
    Forall (fun p => P (recommendation (snd p))) all ->
    (forall p, In p ps -> P (snd p)) ->
    let all' := merge_from src w L ps all in
    keyed all' /\
    Forall (fun p => P (recommendation (snd p))) all' /\
    (forall k, In k (map fst all') <->
               In k (map fst all) \/
               exists p, In p ps /\ Rec.destination_id (snd p) = k) /\
    (forall k, score_of all' k ==
               score_of all k + py_sum (map (code_score w L k) ps)) /\
    (forall k, sources_of all' k =
               (sources_of all k
                ++ map (fun _ => src)
                       (filter (fun p => Z.eqb (Rec.destination_id (snd p)) k)
                               ps))%list).
Proof.
  induction ps as [|[j rec] ps IH]; intros all Hkeyed Horigin HP; cbn zeta.
  - split; [exact Hkeyed|]. split; [exact Horigin|]. split; [|split].
    + intros k. split; [tauto|]. intros [H|(p & [] & _)]. exact H.
    + intros k. unfold py_sum. simpl. ring.
    + intros k. simpl. rewrite app_nil_r. reflexivity.
  - unfold merge_from. cbn [fold_left].
    set (sc := w * (1 - inject_Z (Z.of_nat j) / inject_Z (Z.of_nat L))).
    set (all1 := upsert all (Rec.destination_id rec) rec sc src).
    destruct (IH all1) as (Hk & Ho & Hkeys & Hscore & Hsrc).
    + apply upsert_keyed, Hkeyed.
    + apply upsert_origin; [exact Horigin|].
      apply (HP (j, rec)). left. reflexivity.
    + intros p Hp. apply HP. right. exact Hp.
    + fold (merge_from src w L ps all1).
      split; [exact Hk|]. split; [exact Ho|]. split; [|split].
      * intros k. rewrite Hkeys. unfold all1. rewrite upsert_In_keys.
        split.
        -- intros [[H|H]|(p & Hp & Hid)].
           ++ left. exact H.
           ++ right. exists (j, rec). split; [left; reflexivity|].
              simpl. congruence.
           ++ right. exists p. split; [right; exact Hp|exact Hid].
        -- intros [H|(p & [<-|Hp] & Hid)].
           ++ left. left. exact H.
           ++ left. right. simpl in Hid. congruence.
           ++ right. exists p. split; assumption.
      * intros k. rewrite Hscore. unfold all1. rewrite upsert_score.
        cbn [map]. rewrite py_sum_cons. unfold code_score at 2.
        cbn [fst snd]. fold sc. ring.
      * intros k. rewrite Hsrc. unfold all1. rewrite upsert_sources.
        cbn [filter snd]. rewrite <- app_assoc.
        destruct (Z.eqb (Rec.destination_id rec) k); reflexivity.
Qed.

Lemma code_score_confidence (a : Answer) (k : Z) :
  py_sum (map (code_score (a_weight a) (length (a_recs a)) k)
              (enumerate (a_recs a)))
  == contribution k a.
Proof.
  unfold contribution. apply py_sum_ext. intros [j rec] Hin.
  unfold code_score, positional_confidence. cbn [fst snd].
  destruct (Z.eqb (Rec.destination_id rec) k); [|reflexivity].
  assert (Hj : (j < length (a_recs a))%nat).
  { unfold enumerate in Hin. apply in_combine_l, in_seq in Hin. lia. }
  assert (HL : ~ inject_Z (Z.of_nat (length (a_recs a))) == 0).
  { replace 0 with (inject_Z 0) by reflexivity. rewrite inject_Z_injective.
    lia. }
  unfold Z.sub. rewrite inject_Z_plus, inject_Z_opp. field. exact HL.
Qed.

Lemma filter_enumerate_length {A : Type} (f : A -> bool) (l : list A) :
  forall k,
    length (filter (fun p : nat * A => f (snd p))
                   (combine (seq k (length l)) l))
    = length (filter f l).
Proof.
  induction l as [|x l IH]; intros k; simpl; [reflexivity|].
  destruct (f x); simpl; rewrite IH; reflexivity.
Qed.

Lemma map_const_length {A B C : Type} (c : C) (l1 : list A) (l2 : list B) :
  length l1 = length l2 -> map (fun _ => c) l1 = map (fun _ => c) l2.
Proof.
  revert l2. induction l1 as [|x l1 IH]; intros [|y l2] H; simpl in *;
    try discriminate; [reflexivity|].
  f_equal. apply IH. congruence.
Qed.

Lemma merge_all_spec (P : Rec.t -> Prop) (answers : list Answer) :
  forall all,
    keyed all ->
    Forall (fun p => P (recommendation (snd p))) all ->
    (forall a rec, In a answers -> In rec (a_recs a) -> P rec) ->
    let all' := merge_all answers all in
    keyed all' /\
    Forall (fun p => P (recommendation (snd p))) all' /\
    (forall k, In k (map fst all') <->
               In k (map fst all) \/
               exists a, In a answers /\
                         In k (map Rec.destination_id (a_recs a))) /\
    (forall k, score_of all' k == score_of all k + accumulated k answers) /\
    (forall k, sources_of all' k
               = (sources_of all k ++ provenance k answers)%list).
Proof.
  induction answers as [|a answers IH]; intros all Hkeyed Horigin HP;
    cbn zeta.
  - split; [exact Hkeyed|]. split; [exact Horigin|]. split; [|split].
    + intros k. split; [tauto|]. intros [H|(a & [] & _)]. exact H.
    + intros k. unfold accumulated, py_sum. simpl. ring.
    + intros k. simpl. rewrite app_nil_r. reflexivity.
  - unfold merge_all. cbn [fold_left].
    set (all1 := merge all (a_source a) (a_weight a) (a_recs a)).
    destruct (merge_from_spec (a_source a) (a_weight a) (length (a_recs a))
                              P (enumerate (a_recs a)) all Hkeyed Horigin)
      as (Hk1 & Ho1 & Hkeys1 & Hscore1 & Hsrc1).
    { intros [j rec] Hin. apply in_enumerate in Hin.
      apply (HP a rec); [left; reflexivity|exact Hin]. }
    change (merge_from (a_source a) (a_weight a) (length (a_recs a))
                       (enumerate (a_recs a)) all) with all1 in *.
    destruct (IH all1 Hk1 Ho1) as (Hk & Ho & Hkeys & Hscore & Hsrc).
    { intros a' rec Ha'. apply HP. right. exact Ha'. }
    fold (merge_all answers all1).
    split; [exact Hk|]. split; [exact Ho|]. split; [|split].
    + intros k. rewrite Hkeys, Hkeys1. split.
      * intros [[H|(p & Hp & Hid)]|(a' & Ha' & Hin)].
        -- left. exact H.
        -- right. exists a. split; [left; reflexivity|].
           destruct p as [j rec]. apply in_enumerate in Hp.
           rewrite <- Hid. apply in_map, Hp.
        -- right. exists a'. split; [right; exact Ha'|exact Hin].
      * intros [H|(a' & [<-|Ha'] & Hin)].
        -- left. left. exact H.
        -- left. right. apply in_map_iff in Hin as (rec & Hid & Hrec).
           apply (In_nth _ _ rec) in Hrec as (j & Hj & Hnth).
           exists (j, rec). split; [|exact Hid].
           unfold enumerate.
           replace (j, rec)
             with (nth j (combine (seq 0 (length (a_recs a))) (a_recs a))
                       (0%nat, rec)).
           ++ apply nth_In. rewrite length_combine, length_seq. lia.
           ++ rewrite combine_nth by apply length_seq.
              rewrite seq_nth by exact Hj. rewrite Hnth. reflexivity.
        -- right. exists a'. split; assumption.
    + intros k. rewrite Hscore, Hscore1, code_score_confidence.
      unfold accumulated. cbn [map]. rewrite py_sum_cons. ring.
    + intros k. rewrite Hsrc, Hsrc1, <- app_assoc. f_equal.
      cbn [provenance flat_map]. f_equal.
      apply map_const_length.
      apply (filter_enumerate_length
               (fun rec => Z.eqb (Rec.destination_id rec) k) (a_recs a) 0).
Qed.
End Merge.

(* ================================================================== *)
(** * The ensemble *)
(* ================================================================== *)

Lemma apply_sustainability_weighting_Ok_perm
      (st : Storage) (self : SustainabilityScorer.t) (recs out : list Rec.t)
      (weight : Q) :
  SustainabilityScorer.apply_sustainability_weighting self recs weight
  = Ok out ->
  Permutation out recs.
Proof.
  unfold SustainabilityScorer.apply_sustainability_weighting.
  destruct (SustainabilityScorer.loaded self) as [df|]; [|discriminate].
  cbn [bind].
  destruct (mapM _ _) as [wl|] eqn:Hwl; [|discriminate].
  cbn [bind]. intros H. injection H as <-.
  rewrite sorted_desc_perm.
  assert (H : Forall2 (fun p w => Weighted.recommendation w = snd p)
                      (enumerate recs) wl).
  { eapply mapM_Forall2; [|exact Hwl].
    intros [i rec] w _. unfold SustainabilityScorer.weigh.
    destruct (SustainabilityScorer.get_sustainability_score _ _) as [v|];
      [|discriminate].
    cbn [bind]. destruct (as_float v) as [q|]; [|discriminate].
    cbn [bind]. intros E. injection E as <-. reflexivity. }
  assert (E : map Weighted.recommendation wl = map snd (enumerate recs)).
  { clear Hwl. induction H as [|p w ps ws Hp _ IH]; simpl;
      [reflexivity|]. rewrite Hp, IH. reflexivity. }
  rewrite E, map_snd_enumerate. reflexivity.
Qed.

Section Ensemble.
Context {np : NumPy} {st : Storage}.
Import HybridRecommender.

Lemma collect_answers (h : t) (user_id : Z) (n : nat) (exclude_visited : bool)
      (answers : list Answer) :
  answers_of h user_id n exclude_visited answers ->
  collect h user_id n exclude_visited = Ok (merge_all answers []).
Proof.
  unfold answers_of, collect. intros H. generalize (@nil (Z * Entry)).
  induction H as [|[i r] a ps answers (Hrec & Hw & Hsrc) _ IH]; intros all.
  - reflexivity.
  - cbn [foldM fst snd] in *. rewrite Hrec. cbn [bind]. rewrite Hw.
    cbn [bind]. rewrite <- Hsrc. apply IH.
Qed.

(** The first four steps of [recommend]: the entries of the dictionary in
    descending order of score, truncated. *)
Lemma combined_spec (h : t) (user_id : Z) (n : nat) (exclude_visited : bool)
      (answers : list Answer) :
  recommenders h <> [] ->
  answers_of h user_id n exclude_visited answers ->
  exists entries,
    combined h user_id n exclude_visited
    = Ok (map recommendation (firstn n entries)) /\
    NoDup (map entry_id entries) /\
    (forall k, In k (map entry_id entries) <->
               exists a, In a answers /\
                         In k (map Rec.destination_id (a_recs a))) /\
    Forall (fun e => score e == accumulated (entry_id e) answers /\
                     sources e = provenance (entry_id e) answers /\
                     exists a, In a answers /\
                               In (recommendation e) (a_recs a)) entries /\
    StronglySorted (fun e1 e2 => score e2 <= score e1) entries.
Proof.
  intros Hne Hanswers.
  set (all := merge_all answers []).
  exists (sorted_desc score (map snd all)).
  destruct (merge_all_spec
              (fun rec => exists a, In a answers /\ In rec (a_recs a))
              answers [])
    as ((Hnd & Hid) & Horigin & Hkeys & Hscore & Hsrc).
  { split; constructor. }
  { constructor. }
  { intros a rec Ha Hrec. exists a. split; assumption. }
  fold all in Hnd, Hid, Horigin, Hkeys, Hscore, Hsrc.
  assert (Hids : map entry_id (map snd all) = map fst all).
  { rewrite map_map. apply map_ext_in. intros p Hp.
    rewrite Forall_forall in Hid. apply Hid, Hp. }
  assert (Hperm := sorted_desc_perm _ score (map snd all)).
  assert (Hkeys' : forall k,
             In k (map fst all) <->
             exists a, In a answers /\
                       In k (map Rec.destination_id (a_recs a))).
  { intros k. rewrite Hkeys. simpl. tauto. }
  split; [|split; [|split; [|split]]].
  - unfold combined. destruct (recommenders h); [congruence|].
    rewrite (collect_answers h user_id n exclude_visited answers Hanswers).
    reflexivity.
  - eapply Permutation_NoDup;
      [symmetry; apply Permutation_map, Hperm|].
    rewrite Hids. exact Hnd.
  - intros k. rewrite <- (Hkeys' k), <- Hids.
    split; apply Permutation_in; [|symmetry]; apply Permutation_map, Hperm.
  - apply Forall_forall. intros e He.
    apply (Permutation_in _ Hperm) in He.
    apply in_map_iff in He as ([k e'] & <- & Hin). cbn [snd].
    assert (Hk : entry_id e' = k).
    { rewrite Forall_forall in Hid. apply (Hid (k, e')), Hin. }
    assert (He' := entry_of_In all k e' Hnd Hin).
    split; [|split].
    + rewrite Hk. specialize (Hscore k). unfold score_of in Hscore.
      rewrite He' in Hscore. simpl in Hscore. rewrite Hscore. ring.
    + rewrite Hk. specialize (Hsrc k). unfold sources_of in Hsrc.
      rewrite He' in Hsrc. exact Hsrc.
    + rewrite Forall_forall in Horigin. apply (Horigin (k, e')), Hin.
  - apply sorted_desc_sorted.
Qed.
End Ensemble.




(* ================================================================== *)
(** * The ensemble with [exclude_visited] *)
(* ================================================================== *)



Section EnsembleFresh.
Context {np : NumPy} {st : Storage}.

Variable h : HybridRecommender.t.
Variable b0 : BaseRecommender.t.
Variable user_id : Z.
Variable n u : nat.

Hypothesis u_index : BaseRecommender._get_user_index b0 user_id = Ok u.
Hypothesis known : In user_id (BaseRecommender.user_ids b0).




End EnsembleFresh.

(* ================================================================== *)
(** * Further properties: index tables and score vectors *)
(* ================================================================== *)

Lemma where_eq_first (ids : list Z) (x : Z) :
  forall k i rest,
    where_eq ids x k = i :: rest ->
    (k <= i)%nat /\ nth_error ids (i - k) = Some x /\
    forall j, (j < i - k)%nat -> nth_error ids j <> Some x.
Proof.
  induction ids as [|y ids IH]; intros k i rest H; simpl in H;
    [discriminate|].
  destruct (Z.eqb_spec y x) as [->|Hne].
  - injection H as <- _. rewrite Nat.sub_diag. split; [lia|].
    split; [reflexivity|]. intros j Hj. lia.
  - destruct (IH (S k) i rest H) as (Hk & Hnth & Hfirst).
    split; [lia|]. replace (i - k)%nat with (S (i - S k)) by lia.
    split; [exact Hnth|].
    intros [|j] Hj; simpl; [congruence|]. apply Hfirst. lia.
Qed.

(** X1.  The index tables of a recommender invert each other: every known
    destination (user) id has an index, [_get_destination_id]
    ([_get_user_id]) of that index is the id, and the index is the first
    position of the id; for pairwise distinct destination ids the index of
    the id at position [i] is [i]; an unknown destination id raises
    [IndexError]. *)
Theorem X1_index_id_round_trip (b : BaseRecommender.t) :
  (forall d, In d (BaseRecommender.dest_ids b) ->
             exists i,
               BaseRecommender._get_destination_index b d = Ok i /\
               BaseRecommender._get_destination_id b i = Ok d /\
               forall j, (j < i)%nat ->
                         BaseRecommender._get_destination_id b j <> Ok d) /\
  (forall u, In u (BaseRecommender.user_ids b) ->
             exists i,
               BaseRecommender._get_user_index b u = Ok i /\
               BaseRecommender._get_user_id b i = Ok u) /\
  (NoDup (BaseRecommender.dest_ids b) ->
   forall i d, BaseRecommender._get_destination_id b i = Ok d ->
               BaseRecommender._get_destination_index b d = Ok i) /\
  (forall d, ~ In d (BaseRecommender.dest_ids b) ->
             BaseRecommender._get_destination_index b d = Raise IndexError).
Proof.
  split; [|split; [|split]].
  - intros d Hd.
    destruct (where_eq_in _ _ Hd 0%nat) as (i & rest & Hw & _ & _).
    cbn [Nat.add] in Hw.
    destruct (where_eq_first _ _ _ _ _ Hw) as (_ & Hnth & Hfirst).
    rewrite Nat.sub_0_r in Hnth, Hfirst.
    exists i. unfold BaseRecommender._get_destination_index,
                BaseRecommender._get_destination_id.
    rewrite Hw, Hnth. split; [reflexivity|]. split; [reflexivity|].
    intros j Hj. specialize (Hfirst j Hj).
    destruct (nth_error _ j); congruence.
  - intros u Hu.
    destruct (_get_user_index_known b u Hu) as (i & Hi & _ & Hnth).
    exists i. split; [exact Hi|].
    unfold BaseRecommender._get_user_id. rewrite Hnth. reflexivity.
  - intros Hnd i d Hid. unfold BaseRecommender._get_destination_id in Hid.
    destruct (nth_error (BaseRecommender.dest_ids b) i) as [d'|] eqn:Hnth;
      [|discriminate].
    injection Hid as ->.
    assert (Hin : In d (BaseRecommender.dest_ids b))
      by (eapply nth_error_In; exact Hnth).
    destruct (where_eq_in _ _ Hin 0%nat) as (i' & rest & Hw & Hi' & Hnth').
    cbn [Nat.add] in Hw.
    unfold BaseRecommender._get_destination_index. rewrite Hw.
    f_equal.
    apply (proj1 (NoDup_nth_error _) Hnd); [exact Hi'|congruence].
  - intros d Hd. unfold BaseRecommender._get_destination_index.
    rewrite (where_eq_nil _ _ _ Hd). reflexivity.
Qed.

Lemma X1_witness :
  BaseRecommender._get_destination_index
    (scenario_base "PopularityRecommender") 4 = Ok 3%nat /\
  BaseRecommender._get_destination_index
    (scenario_base "PopularityRecommender") 7 = Raise IndexError.
Proof.
  destruct (X1_index_id_round_trip (scenario_base "PopularityRecommender"))
    as (_ & _ & Hinv & Hunknown).
  split.
  - apply Hinv; [|reflexivity].
    apply distinct_NoDup. reflexivity.
  - apply Hunknown. simpl. intros [H|[H|[H|[H|[H|[]]]]]]; discriminate.
Defined.

(** X2.  The popularity recommender does not personalize: without
    [exclude_visited] it gives every known user the same answer. *)
Theorem X2_popularity_is_not_personal
        (np : NumPy) (p : PopularityRecommender.t) (user1 user2 : Z)
        (n : nat) :
  In user1 (BaseRecommender.user_ids (PopularityRecommender.base p)) ->
  In user2 (BaseRecommender.user_ids (PopularityRecommender.base p)) ->
  PopularityRecommender.recommend p user1 n false
  = PopularityRecommender.recommend p user2 n false.
Proof.
  intros H1 H2.
  destruct (_get_user_index_known _ _ H1) as (u1 & Hu1 & _).
  destruct (_get_user_index_known _ _ H2) as (u2 & Hu2 & _).
  unfold PopularityRecommender.recommend. rewrite Hu1, Hu2. reflexivity.
Qed.

Lemma X2_witness :
  @PopularityRecommender.recommend numpy_stable scenario_popularity 10 3 false
  = @PopularityRecommender.recommend numpy_stable scenario_popularity 30 3
                                     false.
Proof.
  apply X2_popularity_is_not_personal; simpl; tauto.
Defined.

(** X3.  For a user without history the content-based recommender falls
    back on a popularity recommender that it loads from ["data/processed"]:
    when that directory cannot be read the call raises [FileNotFoundError],
    whatever data the recommender itself holds. *)
Theorem X3_content_fallback_needs_default_files
        (np : NumPy) (st : Storage) (c : ContentBasedRecommender.t)
        (user_id : Z) (u : nat) (row : list Q) (n : nat)
        (exclude_visited : bool) :
  BaseRecommender._get_user_index (ContentBasedRecommender.base c) user_id
  = Ok u ->
  matrix_row (BaseRecommender.interaction_matrix
                (ContentBasedRecommender.base c)) u = Ok row ->
  where_pos row 0 = [] ->
  read_processed "data/processed" = None ->
  ContentBasedRecommender.recommend c user_id n exclude_visited
  = Raise FileNotFoundError.
Proof.
  intros Hu Hrow Hnone Hdisk. unfold ContentBasedRecommender.recommend.
  rewrite Hu. cbn [bind]. rewrite Hrow. cbn [bind]. rewrite Hnone.
  cbn [length Nat.eqb].
  unfold ContentBasedRecommender.fallback, BaseRecommender.load_data.
  rewrite Hdisk. reflexivity.
Qed.

Lemma X3_witness :
  @ContentBasedRecommender.recommend numpy_stable no_files cold_content 40 3
                                     true
  = Raise FileNotFoundError.
Proof.
  apply (X3_content_fallback_needs_default_files
           numpy_stable no_files cold_content 40 1 [0; 0; 0; 0; 0] 3 true);
    reflexivity.
Defined.

(* ------------------------------------------------------------------ *)
(** ** The ranked tail of every [recommend] *)

Lemma StronglySorted_filter {A : Type} (R : A -> A -> Prop) (f : A -> bool)
      (l : list A) :
  StronglySorted R l -> StronglySorted R (filter f l).
Proof.
  induction 1 as [|x l Hs IH Hx]; simpl; [constructor|].
  destruct (f x); [|exact IH].
  constructor; [exact IH|].
  rewrite Forall_forall in *. intros y Hy. apply filter_In in Hy.
  apply Hx, Hy.
Qed.

Lemma StronglySorted_firstn {A : Type} (R : A -> A -> Prop) (n : nat)
      (l : list A) :
  StronglySorted R l -> StronglySorted R (firstn n l).
Proof.
  intros H. revert n. induction H as [|x l Hs IH Hx]; intros [|n]; simpl;
    try constructor.
  - apply IH.
  - rewrite Forall_forall in *. intros y Hy. apply Hx.
    apply (in_firstn n l y Hy).
Qed.

Lemma StronglySorted_map {A B : Type} (R : B -> B -> Prop) (f : A -> B)
      (l : list A) :
  StronglySorted (fun a b => R (f a) (f b)) l <-> StronglySorted R (map f l).
Proof.
  induction l as [|x l IH]; simpl.
  - split; constructor.
  - split; intros H; apply StronglySorted_inv in H as [Hs Hx];
      constructor; try (apply IH; exact Hs).
    + rewrite Forall_forall in *. intros y Hy.
      apply in_map_iff in Hy as (a & <- & Ha). apply Hx, Ha.
    + rewrite Forall_forall in *. intros a Ha.
      apply Hx, in_map, Ha.
Qed.

Lemma StronglySorted_weaken {A : Type} (R R' : A -> A -> Prop) (l : list A) :
  (forall a b, In a l -> In b l -> R a b -> R' a b) ->
  StronglySorted R l -> StronglySorted R' l.
Proof.
  intros Himp H. induction H as [|x l Hs IH Hx]; constructor.
  - apply IH. intros a b Ha Hb. apply Himp; right; assumption.
  - rewrite Forall_forall in *. intros y Hy.
    apply Himp; [left; reflexivity|right; exact Hy|apply Hx, Hy].
Qed.

Lemma filter_perm_length {A : Type} (f : A -> bool) (l l' : list A) :
  Permutation l l' -> length (filter f l) = length (filter f l').
Proof.
  induction 1 as [|x l l' _ IH|x y l|l l' l'' _ IH1 _ IH2]; simpl.
  - reflexivity.
  - destruct (f x); simpl; congruence.
  - destruct (f x), (f y); reflexivity.
  - congruence.
Qed.

Lemma map_nth_seq {A : Type} (d : A) (l : list A) :
  map (fun i => nth i l d) (seq 0 (length l)) = l.
Proof.
  induction l as [|x l IH]; simpl; [reflexivity|].
  f_equal. rewrite <- seq_shift, map_map. exact IH.
Qed.

Lemma filter_map_length {A B : Type} (f : B -> bool) (g : A -> B)
      (l : list A) :
  length (filter (fun a => f (g a)) l) = length (filter f (map g l)).
Proof.
  induction l as [|x l IH]; simpl; [reflexivity|].
  destruct (f (g x)); simpl; congruence.
Qed.

Lemma _get_destination_index_nth (b : BaseRecommender.t) (i : nat) :
  NoDup (BaseRecommender.dest_ids b) ->
  (i < length (BaseRecommender.dest_ids b))%nat ->
  BaseRecommender._get_destination_index
    b (nth i (BaseRecommender.dest_ids b) 0%Z) = Ok i.
Proof.
  intros Hnd Hi.
  assert (Hin : In (nth i (BaseRecommender.dest_ids b) 0%Z)
                   (BaseRecommender.dest_ids b)) by (apply nth_In; exact Hi).
  destruct (where_eq_in _ _ Hin 0%nat) as (i' & rest & Hw & Hi' & Hnth').
  cbn [Nat.add] in Hw.
  unfold BaseRecommender._get_destination_index. rewrite Hw. f_equal.
  apply (proj1 (NoDup_nth_error _) Hnd); [exact Hi'|].
  rewrite Hnth'. symmetry. apply nth_error_nth'. exact Hi.
Qed.

Section RankedTail.
Context {np : NumPy}.
Import BaseRecommender.

Variable b : BaseRecommender.t.
Hypothesis b_wf : base_wf b = true.

Let U := length (user_ids b).
Let D := length (dest_ids b).

Lemma ranked_indices_range (u : nat) (scores : list Q) (n : nat)
      (exclude_visited : bool) :
  length scores = D ->
  Forall (fun i => (i < D)%nat) (ranked_indices b u scores n exclude_visited).
Proof.
  intros Hlen. apply Forall_forall. intros i Hi. unfold ranked_indices in Hi.
  apply in_firstn in Hi.
  assert (Hin : In i (argsort (vec_neg scores))).
  { destruct exclude_visited; [apply filter_In in Hi; apply Hi|exact Hi]. }
  apply argsort_in_range in Hin. unfold vec_neg in Hin.
  rewrite length_map, Hlen in Hin. exact Hin.
Qed.

Lemma ranked_indices_sorted (u : nat) (scores : list Q) (n : nat)
      (exclude_visited : bool) :
  StronglySorted (fun i j => nth j scores 0 <= nth i scores 0)
                 (ranked_indices b u scores n exclude_visited).
Proof.
  assert (Hs : StronglySorted (fun i j => nth j scores 0 <= nth i scores 0)
                              (argsort (vec_neg scores))).
  { eapply StronglySorted_weaken; [|apply argsort_sorted].
    intros i j _ _ H. cbv beta in H. rewrite !vec_neg_nth in H.
    apply Qopp_le_compat in H. rewrite !Qopp_involutive in H. exact H. }
  unfold ranked_indices. apply StronglySorted_firstn.
  destruct exclude_visited; [apply StronglySorted_filter|]; exact Hs.
Qed.

Lemma ranked_indices_length (u : nat) (scores : list Q) (n : nat)
      (exclude_visited : bool) :
  (u < U)%nat -> length scores = D ->
  length (ranked_indices b u scores n exclude_visited)
  = Nat.min n (if exclude_visited
               then unvisited_count (nth u (mrows (interaction_matrix b)) [])
               else D).
Proof.
  intros Hu Hlen. unfold ranked_indices. rewrite length_firstn. f_equal.
  assert (Hl : length (vec_neg scores) = D)
    by (unfold vec_neg; rewrite length_map; exact Hlen).
  destruct exclude_visited.
  - rewrite (filter_perm_length _ _ _ (argsort_perm (vec_neg scores))).
    rewrite Hl. unfold unvisited_count.
    set (row := nth u (mrows (interaction_matrix b)) []).
    assert (Hrow : length row = D)
      by (apply (shaped_row_length _ U D u (base_wf_shape b b_wf) Hu)).
    rewrite <- Hrow.
    rewrite (filter_map_length (fun x => negb (Qlt_bool 0 x))
                               (fun i => nth i row 0)).
    rewrite map_nth_seq. reflexivity.
  - rewrite (Permutation_length (argsort_perm (vec_neg scores))).
    rewrite length_seq. exact Hl.
Qed.

Lemma rank_and_format_explicit (u : nat) (scores : list Q) (n : nat)
      (exclude_visited : bool) :
  (u < U)%nat -> length scores = D ->
  exists out,
    rank_and_format b u scores n exclude_visited = Ok out /\
    map Rec.destination_id out
    = map (fun i => nth i (dest_ids b) 0%Z)
          (ranked_indices b u scores n exclude_visited).
Proof.
  intros Hu Hlen.
  assert (Hrange := ranked_indices_range u scores n exclude_visited Hlen).
  unfold rank_and_format.
  assert (Hall : Forall (fun i => (i < D)%nat) (argsort (vec_neg scores))).
  { apply Forall_forall. intros i Hi. apply argsort_in_range in Hi.
    unfold vec_neg in Hi. rewrite length_map, Hlen in Hi. exact Hi. }
  destruct exclude_visited.
  - rewrite (unvisited_ok b b_wf u _ Hu Hall). cbn [bind].
    apply (_format_recommendations_ok b b_wf). exact Hrange.
  - cbn [bind]. apply (_format_recommendations_ok b b_wf). exact Hrange.
Qed.
End RankedTail.

Section Ranked.
Context {np : NumPy} {st : Storage}.

(** Every base recommender, for a known user, ranks one score vector. *)
Lemma recommend_ranked (r : Recommender) (user_id : Z) :
  recommender_wf r ->
  In user_id (BaseRecommender.user_ids (base_of r)) ->
  exists u scores,
    BaseRecommender._get_user_index (base_of r) user_id = Ok u /\
    (u < length (BaseRecommender.user_ids (base_of r)))%nat /\
    length scores = length (BaseRecommender.dest_ids (base_of r)) /\
    forall n exclude_visited,
    exists out,
      recommend r user_id n exclude_visited = Ok out /\
      map Rec.destination_id out
      = map (fun i => nth i (BaseRecommender.dest_ids (base_of r)) 0%Z)
            (ranked_indices (base_of r) u scores n exclude_visited).
Proof.
  intros Hwf Hknown.
  destruct (_get_user_index_known _ _ Hknown) as (u & Hu & Hlt & _).
  exists u.
  destruct r as [p|c|c]; cbn [base_of recommend] in *.
  - destruct Hwf as [Hwf Hlen].
    exists (PopularityRecommender.popularity_scores p).
    repeat split; try assumption. intros n ex.
    unfold PopularityRecommender.recommend. rewrite Hu. cbn [bind].
    apply rank_and_format_explicit; assumption.
  - destruct Hwf as (Hwf & Hfs & Hdisk). cbn [base_of] in *.
    set (b := ContentBasedRecommender.base c) in *.
    assert (Hshape := base_wf_shape b Hwf).
    assert (HU := proj1 (has_shape_spec _ _ _ Hshape)).
    set (row := nth u (mrows (BaseRecommender.interaction_matrix b)) []).
    assert (Hrow : length row = length (BaseRecommender.dest_ids b)).
    { apply (shaped_row_length _ _ _ u Hshape Hlt). }
    destruct (where_pos row 0) as [|i visited] eqn:Ev.
    + exists (column_sums (BaseRecommender.interaction_matrix b)).
      split; [exact Hu|]. split; [exact Hlt|].
      split; [apply (column_sums_length _ _ _ Hshape)|].
      intros n ex. unfold ContentBasedRecommender.recommend. fold b.
      rewrite Hu. cbn [bind]. rewrite matrix_row_ok by lia. cbn [bind].
      fold row. rewrite Ev. cbn [length Nat.eqb].
      destruct Hdisk as [Hall|Hdisk].
      { exfalso. apply (history_not_empty _ u Hall); [lia|exact Ev]. }
      unfold ContentBasedRecommender.fallback, BaseRecommender.load_data.
      rewrite Hdisk. cbn [bind].
      set (b' := {| BaseRecommender.name := _ |}).
      unfold PopularityRecommender.recommend.
      change (BaseRecommender._get_user_index
                (PopularityRecommender.base
                   (PopularityRecommender.fit
                      {| PopularityRecommender.base := b';
                         PopularityRecommender.popularity_scores := [] |}))
                user_id)
        with (BaseRecommender._get_user_index b user_id).
      rewrite Hu. cbn [bind].
      apply (rank_and_format_explicit b' Hwf u
               (column_sums (BaseRecommender.interaction_matrix b)) n ex).
      * exact Hlt.
      * apply (column_sums_length _ _ _ Hshape).
    + destruct (similarity_scores_ok c _ (i :: visited) eq_refl Hfs)
        as (scores & Hscores & Hlen).
      { apply Forall_forall. intros j Hj. rewrite <- Ev in Hj.
        apply where_pos_range in Hj. fold b. lia. }
      exists scores. split; [exact Hu|]. split; [exact Hlt|].
      split; [exact Hlen|].
      intros n ex. unfold ContentBasedRecommender.recommend. fold b.
      rewrite Hu. cbn [bind]. rewrite matrix_row_ok by lia. cbn [bind].
      fold row. rewrite Ev.
      replace (Nat.eqb (length (i :: visited)) 0) with false by reflexivity.
      rewrite Hscores. cbn [bind].
      apply rank_and_format_explicit; assumption.
  - destruct Hwf as (Hwf & HS). cbn [base_of] in *.
    set (b := CollaborativeFilteringRecommender.base c) in *.
    assert (Hshape := base_wf_shape b Hwf).
    assert (Hcols := proj1 (proj2 (has_shape_spec _ _ _ Hshape))).
    assert (Hscores :
              exists scores,
                match CollaborativeFilteringRecommender.method c with
                | CollaborativeFilteringRecommender.user =>
                    CollaborativeFilteringRecommender.user_scores c u
                | CollaborativeFilteringRecommender.item =>
                    CollaborativeFilteringRecommender.item_scores c u
                end = Ok scores /\
                length scores = length (BaseRecommender.dest_ids b)).
    { destruct (CollaborativeFilteringRecommender.method c).
      - destruct (user_scores_spec np c u) as (sims & scores & _ & _ & _ & Hs
                                               & Hlen & _); fold b.
        + exact Hlt.
        + rewrite Hcols. exact Hshape.
        + exact HS.
        + exists scores. split; [exact Hs|]. fold b in Hlen. congruence.
      - destruct (item_scores_ok c _ _ u eq_refl Hshape HS Hlt)
          as (scores & Hs & Hlen).
        exists scores. split; assumption. }
    destruct Hscores as (scores & Hs & Hlen).
    exists scores. split; [exact Hu|]. split; [exact Hlt|].
    split; [exact Hlen|].
    intros n ex. unfold CollaborativeFilteringRecommender.recommend. fold b.
    rewrite Hu. cbn [bind]. rewrite Hs. cbn [bind].
    apply rank_and_format_explicit; assumption.
Qed.
End Ranked.

(** X4.  A fitted popularity recommender over well-formed data answers every
    known user, with or without [exclude_visited], by a list in which the
    popularity score never increases from one recommendation to a later
    one. *)
Theorem X4_popularity_order_is_descending
        (np : NumPy) (p : PopularityRecommender.t) (user_id : Z) (n : nat)
        (exclude_visited : bool) :
  base_wf (PopularityRecommender.base p) = true ->
  length (PopularityRecommender.popularity_scores p)
  = length (BaseRecommender.dest_ids (PopularityRecommender.base p)) ->
  In user_id (BaseRecommender.user_ids (PopularityRecommender.base p)) ->
  exists out,
    PopularityRecommender.recommend p user_id n exclude_visited = Ok out /\
    StronglySorted (fun r1 r2 => popularity_of p r2 <= popularity_of p r1)
                   out.
Proof.
  intros Hwf Hlen Hknown.
  destruct (_get_user_index_known _ _ Hknown) as (u & Hu & Hlt & _).
  set (b := PopularityRecommender.base p) in *.
  destruct (rank_and_format_explicit
              b Hwf u (PopularityRecommender.popularity_scores p) n
              exclude_visited Hlt Hlen) as (out & Hout & Hids).
  exists out. split.
  { unfold PopularityRecommender.recommend. fold b. rewrite Hu. exact Hout. }
  set (g := fun d : Z =>
              match BaseRecommender._get_destination_index b d with
              | Ok i => nth i (PopularityRecommender.popularity_scores p) 0
              | Raise _ => 0
              end).
  change (StronglySorted
            (fun r1 r2 => g (Rec.destination_id r2)
                          <= g (Rec.destination_id r1)) out).
  apply (StronglySorted_map (fun d1 d2 => g d2 <= g d1) Rec.destination_id).
  rewrite Hids.
  apply (StronglySorted_map (fun d1 d2 => g d2 <= g d1)
                            (fun i => nth i (BaseRecommender.dest_ids b) 0%Z)).
  assert (Hrange := ranked_indices_range
                      b u (PopularityRecommender.popularity_scores p) n
                      exclude_visited Hlen).
  rewrite Forall_forall in Hrange.
  eapply StronglySorted_weaken;
    [|apply (ranked_indices_sorted
               b u (PopularityRecommender.popularity_scores p) n
               exclude_visited)].
  intros i j Hi Hj H. cbv beta in *. unfold g.
  rewrite !_get_destination_index_nth;
    try (apply (base_wf_NoDup b Hwf)); try (apply Hrange; assumption).
  exact H.
Qed.

Lemma X4_witness :
  exists out,
    @PopularityRecommender.recommend numpy_stable scenario_popularity 10 3
                                     true = Ok out /\
    StronglySorted (fun r1 r2 => popularity_of scenario_popularity r2
                                 <= popularity_of scenario_popularity r1)
                   out.
Proof.
  apply X4_popularity_order_is_descending;
    [reflexivity|reflexivity|simpl; tauto].
Defined.

(** X5.  A well-formed base recommender of any kind returns, for a known
    user, exactly [n] recommendations unless fewer candidates exist: the
    length is the minimum of [n] and the number of destinations the user has
    not visited, or of [n] and the number of all destinations when
    [exclude_visited] is off. *)
Theorem X5_recommend_length
        (np : NumPy) (st : Storage) (r : Recommender) (user_id : Z) (n : nat)
        (exclude_visited : bool) :
  recommender_wf r ->
  In user_id (BaseRecommender.user_ids (base_of r)) ->
  exists u row out,
    BaseRecommender._get_user_index (base_of r) user_id = Ok u /\
    matrix_row (BaseRecommender.interaction_matrix (base_of r)) u = Ok row /\
    recommend r user_id n exclude_visited = Ok out /\
    length out
    = Nat.min n (if exclude_visited then unvisited_count row
                 else length (BaseRecommender.dest_ids (base_of r))).
Proof.
  intros Hwf Hknown.
  destruct (recommend_ranked r user_id Hwf Hknown)
    as (u & scores & Hu & Hlt & Hlen & Hrec).
  destruct (Hrec n exclude_visited) as (out & Hout & Hids).
  assert (Hbase : base_wf (base_of r) = true).
  { destruct r; apply Hwf. }
  assert (Hshape := base_wf_shape _ Hbase).
  assert (HU := proj1 (has_shape_spec _ _ _ Hshape)).
  exists u, (nth u (mrows (BaseRecommender.interaction_matrix (base_of r)))
                 []), out.
  split; [exact Hu|]. split; [apply matrix_row_ok; lia|].
  split; [exact Hout|].
  rewrite <- (length_map Rec.destination_id), Hids, length_map.
  apply (ranked_indices_length _ Hbase); assumption.
Qed.

Lemma X5_witness :
  exists u row out,
    BaseRecommender._get_user_index
      (base_of (Popularity scenario_popularity)) 10 = Ok u /\
    matrix_row (BaseRecommender.interaction_matrix
                  (base_of (Popularity scenario_popularity))) u = Ok row /\
    @recommend numpy_stable no_files (Popularity scenario_popularity) 10 7
               true = Ok out /\
    length out
    = Nat.min 7 (if true then unvisited_count row
                 else length (BaseRecommender.dest_ids
                                (base_of (Popularity scenario_popularity)))).
Proof.
  apply (X5_recommend_length numpy_stable no_files
                             (Popularity scenario_popularity) 10 7 true).
  - split; reflexivity.
  - simpl. tauto.
Defined.

(* ------------------------------------------------------------------ *)
(** ** Collaborative filtering scores *)

Lemma py_sum_zeros (n : nat) : py_sum (zeros n) == 0.
Proof.
  induction n as [|n IH]; [reflexivity|].
  change (zeros (S n)) with (0 :: zeros n).
  rewrite py_sum_cons, IH. reflexivity.
Qed.

Lemma normalize_zeros (n : nat) : normalize (zeros n) = zeros n.
Proof.
  unfold normalize.
  rewrite (Qlt_bool_comp 0 0 (py_sum (zeros n)) 0 (Qeq_refl 0)
                         (py_sum_zeros n)).
  reflexivity.
Qed.

Lemma normalize_sum (l : list Q) :
  py_sum (normalize l) == 1 \/ (normalize l = l /\ ~ 0 < py_sum l).
Proof.
  unfold normalize. destruct (Qlt_bool 0 (py_sum l)) eqn:E.
  - left. apply Qlt_bool_iff in E. rewrite py_sum_scale.
    field. intros H. rewrite H in E. apply (Qlt_irrefl 0 E).
  - right. split; [reflexivity|]. intros H. apply Qlt_bool_iff in H.
    congruence.
Qed.

Lemma foldM_skip {A S : Type} (f : S -> A -> result S) (l : list A) (s : S) :
  (forall s' a, In a l -> f s' a = Ok s') -> foldM f l s = Ok s.
Proof.
  induction l as [|a l IH]; intros H; simpl; [reflexivity|].
  rewrite (H s a (or_introl eq_refl)). cbn [bind].
  apply IH. intros s' a' Ha'. apply H. right. exact Ha'.
Qed.

Lemma normalize_from (raw : list Q) : normalized_from raw (normalize raw).
Proof.
  split; [apply normalize_length|]. split.
  - intros Hpos. split.
    + destruct (normalize_sum raw) as [H|[_ H]]; [exact H|contradiction].
    + intros d. rewrite normalize_nth.
      apply Qlt_bool_iff in Hpos. rewrite Hpos. reflexivity.
  - intros Hn. destruct (normalize_sum raw) as [H|[H _]]; [|exact H].
    unfold normalize. destruct (Qlt_bool 0 (py_sum raw)) eqn:E;
      [|reflexivity].
    apply Qlt_bool_iff in E. contradiction.
Qed.

(** X6.  Collaborative filtering, user-based or item-based, ranks the
    accumulated scores divided by their sum when that sum is positive, so
    that the ranked vector sums to one, and the accumulated scores themselves
    when their sum is not positive. *)
Theorem X6_cf_scores_are_normalized
        (np : NumPy) (c : CollaborativeFilteringRecommender.t) (u : nat)
        (raw : list Q) :
  (user_accumulated c u = Ok raw ->
   exists scores,
     CollaborativeFilteringRecommender.user_scores c u = Ok scores /\
     normalized_from raw scores) /\
  (item_accumulated c u = Ok raw ->
   exists scores,
     CollaborativeFilteringRecommender.item_scores c u = Ok scores /\
     normalized_from raw scores).
Proof.
  split.
  - unfold user_accumulated, CollaborativeFilteringRecommender.user_scores.
    destruct (CollaborativeFilteringRecommender.user_similarities c u)
      as [sims|e]; [|discriminate].
    cbn [bind]. intros H. rewrite H. cbn [bind].
    exists (normalize raw). split; [reflexivity|apply normalize_from].
  - unfold item_accumulated, CollaborativeFilteringRecommender.item_scores.
    destruct (matrix_row _ u) as [row|e]; [|discriminate].
    cbn [bind]. intros H. rewrite H. cbn [bind].
    exists (normalize raw). split; [reflexivity|apply normalize_from].
Qed.

Lemma X6_witness :
  exists scores,
    CollaborativeFilteringRecommender.item_scores cold_item_cf 0
    = Ok scores /\
    normalized_from [1; 1; 0; 0; 0] scores.
Proof.
  apply (proj2 (X6_cf_scores_are_normalized
                  numpy_stable cold_item_cf 0 [1; 1; 0; 0; 0])).
  vm_compute. reflexivity.
Defined.

(** X7.  Cold start of collaborative filtering.  The item-based scores of a
    user whose interaction row has no positive entry, and the user-based
    scores of a user none of whose similarities (the own one zeroed) is
    positive, are all zero. *)
Theorem X7_cf_cold_start_scores_are_zero (np : NumPy) :
  (forall (c : CollaborativeFilteringRecommender.t) (u : nat) (row : list Q),
      matrix_row (BaseRecommender.interaction_matrix
                    (CollaborativeFilteringRecommender.base c)) u = Ok row ->
      where_pos row 0 = [] ->
      CollaborativeFilteringRecommender.item_scores c u
      = Ok (zeros (length (BaseRecommender.dest_ids
                             (CollaborativeFilteringRecommender.base c))))) /\
  (forall (c : CollaborativeFilteringRecommender.t) (u : nat)
          (sims : list Q),
      CollaborativeFilteringRecommender.user_similarities c u = Ok sims ->
      Forall (fun s => s <= 0) sims ->
      CollaborativeFilteringRecommender.user_scores c u
      = Ok (zeros (ncols (BaseRecommender.interaction_matrix
                            (CollaborativeFilteringRecommender.base c))))).
Proof.
  split.
  - intros c u row Hrow Hnone.
    unfold CollaborativeFilteringRecommender.item_scores.
    rewrite Hrow. cbn [bind].
    rewrite foldM_skip.
    + cbn [bind]. rewrite normalize_zeros. reflexivity.
    + intros s' [i x] Hin. apply in_enumerate in Hin.
      assert (Hx := where_pos_nil row 0 Hnone).
      rewrite Forall_forall in Hx. specialize (Hx x Hin).
      destruct (Qlt_bool 0 x) eqn:E; [|reflexivity].
      apply Qlt_bool_iff in E. contradiction.
  - intros c u sims Hsims Hall.
    unfold CollaborativeFilteringRecommender.user_scores.
    rewrite Hsims. cbn [bind].
    unfold CollaborativeFilteringRecommender.accumulate_user.
    rewrite foldM_skip.
    + cbn [bind]. rewrite normalize_zeros. reflexivity.
    + intros s' v _. cbv zeta.
      assert (Hv : nth v sims 0 <= 0).
      { destruct (Nat.lt_ge_cases v (length sims)) as [Hlt|Hge].
        - rewrite Forall_forall in Hall. apply Hall, nth_In, Hlt.
        - rewrite nth_overflow by exact Hge. apply Qle_refl. }
      apply Qle_bool_iff in Hv. rewrite Hv. reflexivity.
Qed.

Lemma X7_witness :
  CollaborativeFilteringRecommender.item_scores cold_item_cf 1
  = Ok (zeros 5) /\
  @CollaborativeFilteringRecommender.user_scores numpy_stable cold_user_cf 1
  = Ok (zeros 5).
Proof.
  destruct (X7_cf_cold_start_scores_are_zero numpy_stable) as [Hitem Huser].
  split.
  - apply (Hitem cold_item_cf 1%nat [0; 0; 0; 0; 0]); reflexivity.
  - apply (Huser cold_user_cf 1%nat [0; 0]); [reflexivity|].
    repeat constructor; apply Qle_refl.
Defined.

(* ================================================================== *)
(** * Further properties: the ensemble *)
(* ================================================================== *)

Lemma Forall2_Qeq_refl (l : list Q) : Forall2 Qeq l l.
Proof. induction l; constructor; [reflexivity|assumption]. Qed.

Lemma Forall2_Qeq_trans (l1 l2 l3 : list Q) :
  Forall2 Qeq l1 l2 -> Forall2 Qeq l2 l3 -> Forall2 Qeq l1 l3.
Proof.
  intros H. revert l3. induction H as [|x y l1 l2 Hxy _ IH]; intros l3 H3.
  - exact H3.
  - inversion H3 as [|y' z l2' l3' Hyz Hrest]; subst.
    constructor; [rewrite Hxy; exact Hyz|apply IH, Hrest].
Qed.

Lemma Forall2_Qeq_map (f g : Q -> Q) (l1 l2 : list Q) :
  (forall x y, x == y -> f x == g y) ->
  Forall2 Qeq l1 l2 -> Forall2 Qeq (map f l1) (map g l2).
Proof.
  intros Hfg H. induction H as [|x y l1 l2 Hxy _ IH]; simpl; constructor;
    [apply Hfg, Hxy|exact IH].
Qed.

Lemma Forall2_Qeq_sum (l1 l2 : list Q) :
  Forall2 Qeq l1 l2 -> py_sum l1 == py_sum l2.
Proof.
  induction 1 as [|x y l1 l2 Hxy _ IH]; [reflexivity|].
  rewrite !py_sum_cons, Hxy, IH. reflexivity.
Qed.

Lemma later_factor_pos (raws : list Q) :
  Forall (fun a => 0 < a) raws -> 0 < later_factor raws.
Proof.
  induction 1 as [|a raws Ha _ IH]; simpl; [reflexivity|].
  apply Qmult_lt_0_compat; [lra|exact IH].
Qed.

Lemma mapM_raise {A B : Type} (f : A -> result B) (e : PyExn) (l : list A) :
  l <> [] -> (forall a, f a = Raise e) -> mapM f l = Raise e.
Proof.
  intros Hne H. destruct l as [|a l]; [congruence|].
  simpl. rewrite H. reflexivity.
Qed.

Section EnsembleSequence.
Import HybridRecommender.

Lemma add_recommender_shape (h h' : t) (r : Recommender) (w : Q) :
  add_recommender h r w = Ok h' ->
  recommenders h' = (recommenders h ++ [r])%list /\
  length (weights h') = S (length (weights h)).
Proof.
  unfold add_recommender. cbv zeta.
  destruct (mapM _ _) as [ws|e] eqn:E; [|discriminate].
  cbn [bind]. intros H. injection H as <-. cbn [recommenders weights].
  split; [reflexivity|].
  rewrite (mapM_length _ _ _ E), length_app. simpl. lia.
Qed.

(** The weights after a run of calls with positive raw weights on a state
    whose weights are positive and sum to one. *)
Lemma add_all_weights (calls : list (Recommender * Q)) :
  forall h,
    Forall (fun x => 0 < x) (weights h) ->
    py_sum (weights h) == 1 ->
    Forall (fun p => 0 < snd p) calls ->
    exists h',
      add_all h calls = Ok h' /\
      Forall2 Qeq (weights h')
              (map (fun x => x / later_factor (map snd calls)) (weights h)
               ++ later_weights (map snd calls)).
Proof.
  induction calls as [|[r a] calls IH]; intros h Hpos Hsum Hcalls.
  - exists h. split; [reflexivity|]. simpl. rewrite app_nil_r.
    rewrite <- (map_id (weights h)) at 1.
    apply Forall2_Qeq_map; [|apply Forall2_Qeq_refl].
    intros x y Hxy. rewrite Hxy. field.
  - apply Forall_cons_iff in Hcalls as [Ha Hrest]. cbn [snd] in Ha.
    assert (Htot : py_sum (weights h ++ [a]) == 1 + a).
    { rewrite py_sum_app, py_sum_cons, Hsum. unfold py_sum. simpl. ring. }
    assert (Hnz : ~ py_sum (weights h ++ [a]) == 0) by lra.
    destruct (@add_recommender_weights h r a Hnz) as (h1 & Hadd & Hw1 & _).
    destruct (@add_recommender_normalizes h r a Hpos Ha)
      as (h1' & Hadd' & Hpos1 & Hsum1 & _).
    assert (h1' = h1) by congruence. subst h1'.
    destruct (IH h1 Hpos1 Hsum1 Hrest) as (h' & Hall & Hw').
    exists h'. split.
    { unfold add_all in *. cbn [foldM fst snd]. rewrite Hadd. exact Hall. }
    eapply Forall2_Qeq_trans; [exact Hw'|].
    assert (HLpos := later_factor_pos (map snd calls)
                       (proj2 (Forall_map _ _ _) Hrest)).
    rewrite Hw1, !map_app, <- app_assoc. cbn [map snd app later_weights].
    apply Forall2_app.
    + rewrite map_map. apply Forall2_Qeq_map; [|apply Forall2_Qeq_refl].
      intros x y Hxy. cbn [later_factor]. rewrite Hxy, Htot. field.
      split; lra.
    + constructor; [|apply Forall2_Qeq_refl].
      cbn [later_factor]. rewrite Htot. field. split; lra.
Qed.
End EnsembleSequence.

(** X8.  [add_recommender] keeps the two lists of the ensemble aligned:
    after any run of calls that returns, the recommenders are the old ones
    followed by the added ones in call order, and there is one weight per
    recommender whenever there was before. *)
Theorem X8_add_recommender_keeps_lists_aligned
        (calls : list (Recommender * Q)) (h h' : HybridRecommender.t) :
  length (HybridRecommender.weights h)
  = length (HybridRecommender.recommenders h) ->
  add_all h calls = Ok h' ->
  HybridRecommender.recommenders h'
  = (HybridRecommender.recommenders h ++ map fst calls)%list /\
  length (HybridRecommender.weights h')
  = length (HybridRecommender.recommenders h').
Proof.
  revert h. induction calls as [|[r w] calls IH]; intros h Hlen Hall.
  - injection Hall as <-. rewrite app_nil_r. split; [reflexivity|exact Hlen].
  - unfold add_all in Hall. cbn [foldM fst snd] in Hall.
    destruct (HybridRecommender.add_recommender h r w) as [h1|e] eqn:Hadd;
      [|discriminate].
    cbn [bind] in Hall.
    destruct (add_recommender_shape h h1 r w Hadd) as [Hr Hw].
    destruct (IH h1) as [Hr' Hw'].
    + rewrite Hr, Hw, length_app. simpl. lia.
    + exact Hall.
    + split; [|exact Hw'].
      rewrite Hr', Hr, <- app_assoc. reflexivity.
Qed.

Lemma X8_witness :
  exists h',
    create_default_hybrid_recommender = Ok h' /\
    HybridRecommender.recommenders h' = map fst default_calls /\
    length (HybridRecommender.weights h') = 4%nat.
Proof.
  destruct create_default_hybrid_recommender as [h'|e] eqn:E;
    [|discriminate E].
  exists h'. split; [reflexivity|].
  destruct (X8_add_recommender_keeps_lists_aligned
              default_calls HybridRecommender.init h' eq_refl E) as [Hr Hw].
  split; [exact Hr|]. rewrite Hw, Hr. reflexivity.
Defined.

Lemma py_sum_ge_0 (l : list Q) : Forall (fun x => 0 <= x) l -> 0 <= py_sum l.
Proof.
  induction 1 as [|x l Hx _ IH]; [apply Qle_refl|].
  rewrite py_sum_cons. lra.
Qed.

Lemma py_sum_all_zero (l : list Q) :
  Forall (fun x => x == 0) l -> py_sum l == 0.
Proof.
  induction 1 as [|x l Hx _ IH]; [reflexivity|].
  rewrite py_sum_cons, Hx, IH. reflexivity.
Qed.

Lemma py_sum_some_positive (l : list Q) :
  Forall (fun x => 0 <= x) l -> Exists (fun x => 0 < x) l -> 0 < py_sum l.
Proof.
  intros Hall Hex. induction Hex as [x l Hx|x l _ IH];
    apply Forall_cons_iff in Hall as [H0 Hrest]; rewrite py_sum_cons.
  - assert (H := py_sum_ge_0 l Hrest). lra.
  - specialize (IH Hrest). lra.
Qed.

(** X9.  [add_recommender] on weights that are not negative.  When the
    stored weights and the new raw weight are all zero (weight 0 on the empty
    ensemble, for one) it raises [ZeroDivisionError]; when one of them is
    positive it returns, and the stored weights are not negative and sum to
    one. *)
Theorem X9_add_recommender_zero_total
        (h : HybridRecommender.t) (r : Recommender) (w : Q) :
  Forall (fun x => 0 <= x) (HybridRecommender.weights h ++ [w]) ->
  (Forall (fun x => x == 0) (HybridRecommender.weights h ++ [w]) ->
   HybridRecommender.add_recommender h r w = Raise ZeroDivisionError) /\
  (Exists (fun x => 0 < x) (HybridRecommender.weights h ++ [w]) ->
   exists h',
     HybridRecommender.add_recommender h r w = Ok h' /\
     Forall (fun x => 0 <= x) (HybridRecommender.weights h') /\
     py_sum (HybridRecommender.weights h') == 1).
Proof.
  intros Hnonneg. split.
  - intros Hzero. apply py_sum_all_zero in Hzero.
    unfold HybridRecommender.add_recommender. cbv zeta.
    rewrite (mapM_raise _ ZeroDivisionError).
    + reflexivity.
    + destruct (HybridRecommender.weights h); discriminate.
    + intros a. unfold py_div.
      apply Qeq_bool_iff in Hzero. rewrite Hzero. reflexivity.
  - intros Hpos.
    assert (Htot := py_sum_some_positive _ Hnonneg Hpos).
    assert (Hnz : ~ py_sum (HybridRecommender.weights h ++ [w]) == 0) by lra.
    destruct (@add_recommender_weights h r w Hnz) as (h' & Hadd & Hw & _).
    exists h'. split; [exact Hadd|]. rewrite Hw. split.
    + apply Forall_map. eapply Forall_impl; [|exact Hnonneg].
      intros x Hx. cbv beta in *. apply Qle_shift_div_l; lra.
    + rewrite py_sum_scale. field. exact Hnz.
Qed.

Lemma X9_witness :
  HybridRecommender.add_recommender
    HybridRecommender.init (Popularity PopularityRecommender.init) 0
  = Raise ZeroDivisionError /\
  exists h',
    HybridRecommender.add_recommender
      HybridRecommender.init (Popularity PopularityRecommender.init) (1 # 2)
    = Ok h' /\
    py_sum (HybridRecommender.weights h') == 1.
Proof.
  split.
  - apply (proj1 (X9_add_recommender_zero_total
                    HybridRecommender.init
                    (Popularity PopularityRecommender.init) 0
                    ltac:(repeat constructor; discriminate))).
    repeat constructor.
  - destruct (proj2 (X9_add_recommender_zero_total
                       HybridRecommender.init
                       (Popularity PopularityRecommender.init) (1 # 2)
                       ltac:(repeat constructor; discriminate)))
      as (h' & Hadd & _ & Hsum).
    + constructor. reflexivity.
    + exists h'. split; assumption.
Defined.

(** X10.  The weights an ensemble ends with after [add_recommender] calls
    with positive raw weights [a1, a2, ..., an] on the empty ensemble: the
    first is [1 / ((1+a2)...(1+an))], the [i]-th is
    [ai / ((1+ai)...(1+an))]; the first raw weight [a1] has no influence,
    and each later call shrinks what was stored before. *)
Theorem X10_weights_after_a_run_of_calls
        (r1 : Recommender) (a1 : Q) (rest : list (Recommender * Q)) :
  0 < a1 ->
  Forall (fun p => 0 < snd p) rest ->
  exists h,
    add_all HybridRecommender.init ((r1, a1) :: rest) = Ok h /\
    Forall2 Qeq (HybridRecommender.weights h)
            (final_weights (a1 :: map snd rest)).
Proof.
  intros Ha Hrest.
  destruct (@add_recommender_weights HybridRecommender.init r1 a1)
    as (h1 & Hadd & Hw1 & _).
  { cbn [HybridRecommender.weights HybridRecommender.init app].
    unfold py_sum. simpl. lra. }
  cbn [HybridRecommender.weights HybridRecommender.init app map] in Hw1.
  assert (Hone : a1 / py_sum [a1] == 1).
  { unfold py_sum. simpl. field. lra. }
  destruct (add_all_weights rest h1) as (h & Hall & Hw).
  - rewrite Hw1. repeat constructor. rewrite Hone. reflexivity.
  - rewrite Hw1. rewrite py_sum_cons, Hone. unfold py_sum. simpl. ring.
  - exact Hrest.
  - exists h. split.
    { unfold add_all in *. cbn [foldM fst snd]. rewrite Hadd. exact Hall. }
    eapply Forall2_Qeq_trans; [exact Hw|].
    rewrite Hw1. cbn [map app final_weights].
    constructor; [|apply Forall2_Qeq_refl].
    rewrite Hone. reflexivity.
Qed.

Lemma X10_witness :
  exists h,
    create_default_hybrid_recommender = Ok h /\
    Forall2 Qeq (HybridRecommender.weights h)
            (final_weights [0.1; 0.3; 0.3; 0.3]).
Proof.
  apply (X10_weights_after_a_run_of_calls
           (Popularity PopularityRecommender.init) 0.1
           (tl default_calls)).
  - reflexivity.
  - repeat constructor.
Defined.

Lemma recommend_unknown_user (np : NumPy) (st : Storage) (r : Recommender)
      (user_id : Z) (n : nat) (exclude_visited : bool) :
  ~ In user_id (BaseRecommender.user_ids (base_of r)) ->
  recommend r user_id n exclude_visited = Raise IndexError.
Proof.
  intros H. apply _get_user_index_unknown in H.
  destruct r as [p|c|c]; cbn [recommend base_of] in *.
  - unfold PopularityRecommender.recommend. rewrite H. reflexivity.
  - unfold ContentBasedRecommender.recommend. rewrite H. reflexivity.
  - unfold CollaborativeFilteringRecommender.recommend. rewrite H.
    reflexivity.
Qed.

(** X11.  Errors of the hybrid [recommend].  With no recommender added it
    raises [ValueError] before it looks at the user; otherwise an exception of
    the first recommender reaches the caller unchanged, so a user unknown to
    the first recommender gives [IndexError] whatever the other recommenders
    hold. *)
Theorem X11_hybrid_recommend_errors
        (np : NumPy) (st : Storage) (h : HybridRecommender.t) (user_id : Z)
        (n : nat) (exclude_visited : bool) :
  (HybridRecommender.recommenders h = [] ->
   HybridRecommender.recommend h user_id n exclude_visited
   = Raise (ValueError "No recommenders added to hybrid model")) /\
  (forall r rest e,
      HybridRecommender.recommenders h = r :: rest ->
      recommend r user_id (n * 2) exclude_visited = Raise e ->
      HybridRecommender.recommend h user_id n exclude_visited = Raise e) /\
  (forall r rest,
      HybridRecommender.recommenders h = r :: rest ->
      ~ In user_id (BaseRecommender.user_ids (base_of r)) ->
      HybridRecommender.recommend h user_id n exclude_visited
      = Raise IndexError).
Proof.
  assert (Hfirst : forall r rest e,
             HybridRecommender.recommenders h = r :: rest ->
             recommend r user_id (n * 2) exclude_visited = Raise e ->
             HybridRecommender.recommend h user_id n exclude_visited
             = Raise e).
  { intros r rest e Hr He.
    unfold HybridRecommender.recommend, HybridRecommender.combined,
      HybridRecommender.collect.
    rewrite Hr. unfold enumerate. cbn [length seq combine foldM].
    rewrite He. reflexivity. }
  split; [|split].
  - intros Hr. unfold HybridRecommender.recommend, HybridRecommender.combined.
    rewrite Hr. reflexivity.
  - exact Hfirst.
  - intros r rest Hr Hu. apply (Hfirst r rest IndexError Hr).
    apply recommend_unknown_user. exact Hu.
Qed.

Lemma X11_witness :
  @HybridRecommender.recommend numpy_stable no_files HybridRecommender.init
                               10 5 true
  = Raise (ValueError "No recommenders added to hybrid model") /\
  @HybridRecommender.recommend numpy_stable no_files scenario_hybrid 99 5 true
  = Raise IndexError.
Proof.
  split.
  - apply (proj1 (X11_hybrid_recommend_errors
                    numpy_stable no_files HybridRecommender.init 10 5 true)).
    reflexivity.
  - apply (proj2 (proj2 (X11_hybrid_recommend_errors
                           numpy_stable no_files scenario_hybrid 99 5 true))
             (Popularity scenario_popularity) []).
    + reflexivity.
    + simpl. intros [H|[H|[H|[]]]]; discriminate.
Defined.

Section EnsemblePartial.
Context {np : NumPy} {st : Storage}.

Lemma collect_from_answers (h : HybridRecommender.t) (user_id : Z) (n : nat)
      (exclude_visited : bool) (ps : list (nat * Recommender)) :
  forall all all',
    foldM (fun all (p : nat * Recommender) =>
             let (i, recommender) := p in
             recs <- recommend recommender user_id (n * 2) exclude_visited ;;
             weight <- match nth_error (HybridRecommender.weights h) i with
                       | Some w => Ok w
                       | None => Raise IndexError
                       end ;;
             Ok (HybridRecommender.merge
                   all (BaseRecommender.name (base_of recommender))
                   weight recs))
          ps all = Ok all' ->
    exists answers,
      Forall2 (fun (p : nat * Recommender) (a : Answer) =>
                 recommend (snd p) user_id (n * 2) exclude_visited
                 = Ok (a_recs a) /\
                 nth_error (HybridRecommender.weights h) (fst p)
                 = Some (a_weight a) /\
                 a_source a = BaseRecommender.name (base_of (snd p)))
              ps answers.
Proof.
  induction ps as [|[i r] ps IH]; intros all all' H.
  - exists []. constructor.
  - cbn [foldM] in H.
    destruct (recommend r user_id (n * 2) exclude_visited) as [recs|e] eqn:Hr;
      [|discriminate].
    cbn [bind] in H.
    destruct (nth_error (HybridRecommender.weights h) i) as [w|] eqn:Hw;
      [|discriminate].
    cbn [bind] in H.
    destruct (IH _ _ H) as (answers & Hanswers).
    exists ({| a_source := BaseRecommender.name (base_of r);
               a_weight := w;
               a_recs := recs |} :: answers).
    constructor; [|exact Hanswers].
    cbn [fst snd a_recs a_weight a_source]. repeat split; assumption.
Qed.

Lemma collect_Ok_answers (h : HybridRecommender.t) (user_id : Z) (n : nat)
      (exclude_visited : bool) (all : list (Z * HybridRecommender.Entry)) :
  HybridRecommender.collect h user_id n exclude_visited = Ok all ->
  exists answers, answers_of h user_id n exclude_visited answers.
Proof.
  unfold HybridRecommender.collect, answers_of. apply collect_from_answers.
Qed.

Lemma Forall2_in_right {A B : Type} (P : A -> B -> Prop) (l : list A)
      (l' : list B) (y : B) :
  Forall2 P l l' -> In y l' -> exists x, In x l /\ P x y.
Proof.
  induction 1 as [|a b l l' Hab _ IH]; intros Hin; [contradiction|].
  destruct Hin as [<-|Hin].
  - exists a. split; [left; reflexivity|exact Hab].
  - destruct (IH Hin) as (x & Hx & HP). exists x.
    split; [right; exact Hx|exact HP].
Qed.

(** Whatever the state of the ensemble, a combined list that is returned is
    cut to [n], has distinct ids and holds only entries that some registered
    recommender returned. *)
Lemma combined_partial (h : HybridRecommender.t) (user_id : Z) (n : nat)
      (exclude_visited : bool) (top : list Rec.t) :
  HybridRecommender.combined h user_id n exclude_visited = Ok top ->
  (length top <= n)%nat /\
  NoDup (map Rec.destination_id top) /\
  Forall (fun rec =>
            exists r recs,
              In r (HybridRecommender.recommenders h) /\
              recommend r user_id (n * 2) exclude_visited = Ok recs /\
              In rec recs) top.
Proof.
  intros Htop.
  assert (Hne : HybridRecommender.recommenders h <> []).
  { intros E. unfold HybridRecommender.combined in Htop. rewrite E in Htop.
    discriminate. }
  assert (Hanswers : exists answers,
             answers_of h user_id n exclude_visited answers).
  { unfold HybridRecommender.combined in Htop.
    destruct (HybridRecommender.recommenders h); [congruence|].
    destruct (HybridRecommender.collect h user_id n exclude_visited)
      as [all|e] eqn:Hc; [|discriminate].
    apply (collect_Ok_answers h user_id n exclude_visited all Hc). }
  destruct Hanswers as (answers & Hanswers).
  destruct (combined_spec h user_id n exclude_visited answers Hne Hanswers)
    as (entries & Hcomb & Hnd & _ & Hentries & _).
  rewrite Hcomb in Htop. injection Htop as <-.
  split; [|split].
  - rewrite length_map. apply firstn_le_length.
  - rewrite map_map. change (NoDup (map entry_id (firstn n entries))).
    rewrite <- firstn_map. apply NoDup_firstn, Hnd.
  - apply Forall_forall. intros rec Hrec.
    apply in_map_iff in Hrec as (e & <- & He). apply in_firstn in He.
    rewrite Forall_forall in Hentries.
    destruct (Hentries e He) as (_ & _ & a & Ha & Hin).
    destruct (Forall2_in_right _ _ _ a Hanswers Ha)
      as ([i r] & Hp & Hrec & _ & _).
    exists r, (a_recs a). cbn [snd] in Hrec.
    split; [|split; [exact Hrec|exact Hin]].
    apply (in_enumerate _ i r Hp).
Qed.
End EnsemblePartial.

(** X12.  Whatever state the hybrid recommender is in, a list it returns has
    at most [n] entries with pairwise distinct destination ids, and each
    entry was returned by one of its recommenders when asked for [2n]
    candidates. *)
Theorem X12_hybrid_returns_distinct_known_candidates
        (np : NumPy) (st : Storage) (h : HybridRecommender.t) (user_id : Z)
        (n : nat) (exclude_visited : bool) (out : list Rec.t) :
  HybridRecommender.recommend h user_id n exclude_visited = Ok out ->
  (length out <= n)%nat /\
  NoDup (map Rec.destination_id out) /\
  Forall (fun rec =>
            exists r recs,
              In r (HybridRecommender.recommenders h) /\
              recommend r user_id (n * 2) exclude_visited = Ok recs /\
              In rec recs) out.
Proof.
  intros Hout. unfold HybridRecommender.recommend in Hout.
  destruct (HybridRecommender.combined h user_id n exclude_visited)
    as [top|e] eqn:Htop; [|discriminate].
  cbn [bind] in Hout.
  destruct (combined_partial h user_id n exclude_visited top Htop)
    as (Hlen & Hnd & Hfrom).
  assert (Hperm : Permutation out top).
  { destruct (Qlt_bool 0 (HybridRecommender.sustainability_weight h)).
    - destruct (HybridRecommender.sustainability_scorer h) as [scorer|];
        [|discriminate].
      eapply apply_sustainability_weighting_Ok_perm. exact Hout.
    - injection Hout as <-. reflexivity. }
  split; [|split].
  - rewrite (Permutation_length Hperm). exact Hlen.
  - eapply Permutation_NoDup; [|exact Hnd].
    symmetry. apply Permutation_map, Hperm.
  - rewrite Forall_forall in *. intros rec Hrec.
    apply Hfrom. apply (Permutation_in _ Hperm Hrec).
Qed.

Lemma X12_witness :
  exists out,
    @HybridRecommender.recommend numpy_stable no_files scenario_hybrid 30 2
                                 true = Ok out /\
    (length out <= 2)%nat /\
    NoDup (map Rec.destination_id out).
Proof.
  destruct (@HybridRecommender.recommend numpy_stable no_files
              scenario_hybrid 30 2 true) as [out|e] eqn:E;
    [|vm_compute in E; discriminate E].
  exists out. split; [reflexivity|].
  destruct (X12_hybrid_returns_distinct_known_candidates
              numpy_stable no_files scenario_hybrid 30 2 true out E)
    as (Hlen & Hnd & _).
  split; assumption.
Defined.

(* ================================================================== *)
(** * Visited destinations are removed before the list is cut *)
(* ================================================================== *)

Section AnswerCount.
Context {np : NumPy} {st : Storage}.

Variable b0 : BaseRecommender.t.
Variable user_id : Z.
Variable u : nat.

Hypothesis u_index : BaseRecommender._get_user_index b0 user_id = Ok u.
Hypothesis known : In user_id (BaseRecommender.user_ids b0).




End AnswerCount.





Section SingleRecommender.
Context {np : NumPy} {st : Storage}.

Lemma upsert_fresh (all : list (Z * HybridRecommender.Entry)) (k : Z)
      (rec : Rec.t) (sc : Q) (src : string) :
  ~ In k (map fst all) ->
  HybridRecommender.upsert all k rec sc src
  = (all ++ [(k, {| HybridRecommender.recommendation := rec;
                    HybridRecommender.score := sc;
                    HybridRecommender.sources := [src] |})])%list.
Proof.
  induction all as [|[k' e] all IH]; intros H; simpl; [reflexivity|].
  destruct (Z.eqb_spec k' k) as [E|_].
  - exfalso. apply H. left. exact E.
  - rewrite IH; [reflexivity|]. intros Hin. apply H. right. exact Hin.
Qed.

Lemma merge_from_fresh (src : string) (w : Q) (L : nat)
      (ps : list (nat * Rec.t)) :
  forall all,
    NoDup (map fst all ++ map (fun p => Rec.destination_id (snd p)) ps) ->
    merge_from src w L ps all = (all ++ map (first_entry src w L) ps)%list.
Proof.
  induction ps as [|[j rec] ps IH]; intros all Hnd.
  - simpl. rewrite app_nil_r. reflexivity.
  - cbn [merge_from fold_left map].
    change (fold_left _ ps ?a) with (merge_from src w L ps a).
    rewrite upsert_fresh.
    + rewrite IH.
      * rewrite <- app_assoc. reflexivity.
      * rewrite map_app. cbn [map fst snd]. rewrite <- app_assoc.
        exact Hnd.
    + cbn [map snd] in Hnd. apply NoDup_remove_2 in Hnd.
      intros Hin. apply Hnd, in_or_app. left. exact Hin.
Qed.

Lemma enumerate_increasing {A : Type} (l : list A) :
  forall k, StronglySorted (fun p q : nat * A => (fst p < fst q)%nat)
                           (combine (seq k (length l)) l).
Proof.
  induction l as [|x l IH]; intros k; simpl; constructor.
  - apply IH.
  - apply Forall_forall. intros [j y] Hin. apply in_combine_l in Hin.
    apply in_seq in Hin. simpl. lia.
Qed.

Lemma first_entries_sorted (src : string) (w : Q) (recs : list Rec.t) :
  0 <= w ->
  StronglySorted (fun e1 e2 => HybridRecommender.score e2
                               <= HybridRecommender.score e1)
                 (map snd (map (first_entry src w (length recs))
                               (enumerate recs))).
Proof.
  intros Hw. rewrite map_map.
  apply (StronglySorted_map
           (fun e1 e2 => HybridRecommender.score e2
                         <= HybridRecommender.score e1)
           (fun x => snd (first_entry src w (length recs) x))).
  eapply StronglySorted_weaken; [|apply (enumerate_increasing recs 0)].
  intros [i r] [j r'] Hi _ Hlt. cbn [fst snd first_entry] in *.
  cbn [HybridRecommender.score].
  assert (HL : (0 < length recs)%nat).
  { apply in_combine_l, in_seq in Hi. lia. }
  set (c := inject_Z (Z.of_nat (length recs))).
  assert (Hc : 0 < c).
  { unfold c. replace 0 with (inject_Z 0) by reflexivity.
    rewrite <- Zlt_Qlt. lia. }
  assert (Hij : inject_Z (Z.of_nat i) / c <= inject_Z (Z.of_nat j) / c).
  { unfold Qdiv. apply Qmult_le_compat_r.
    - rewrite <- Zle_Qle. lia.
    - apply Qinv_le_0_compat. lra. }
  set (a := inject_Z (Z.of_nat i) / c) in *.
  set (b := inject_Z (Z.of_nat j) / c) in *.
  nra.
Qed.
End SingleRecommender.

(** X13.  An ensemble of one recommender with a weight that is not negative
    and a sustainability weight that is not positive returns what that
    recommender returns for [2n] candidates, cut to [n], provided the
    candidates have pairwise distinct ids. *)
Theorem X13_single_recommender_ensemble
        (np : NumPy) (st : Storage) (h : HybridRecommender.t)
        (r : Recommender) (w : Q) (ws : list Q) (user_id : Z) (n : nat)
        (exclude_visited : bool) (recs : list Rec.t) :
  HybridRecommender.recommenders h = [r] ->
  HybridRecommender.weights h = w :: ws ->
  0 <= w ->
  ~ 0 < HybridRecommender.sustainability_weight h ->
  recommend r user_id (n * 2) exclude_visited = Ok recs ->
  NoDup (map Rec.destination_id recs) ->
  HybridRecommender.recommend h user_id n exclude_visited
  = Ok (firstn n recs).
Proof.
  intros Hr Hws Hw Hsw Hrecs Hnd.
  unfold HybridRecommender.recommend, HybridRecommender.combined,
    HybridRecommender.collect.
  rewrite Hr, Hws. unfold enumerate at 1.
  cbn [length seq combine foldM nth_error]. rewrite Hrecs. cbn [bind].
  set (src := BaseRecommender.name (base_of r)).
  change (HybridRecommender.merge [] src w recs)
    with (merge_from src w (length recs) (enumerate recs) []).
  rewrite merge_from_fresh.
  - cbn [app].
    rewrite (sorted_desc_fixpoint _ _ _
               (first_entries_sorted src w recs Hw)).
    destruct (Qlt_bool 0 (HybridRecommender.sustainability_weight h)) eqn:E.
    { apply Qlt_bool_iff in E. contradiction. }
    f_equal. rewrite firstn_map, firstn_map, !map_map.
    cbn [first_entry snd HybridRecommender.recommendation].
    rewrite <- firstn_map. f_equal. apply map_snd_enumerate.
  - cbn [map app].
    rewrite <- (map_map snd Rec.destination_id), map_snd_enumerate.
    exact Hnd.
Qed.

Lemma X13_witness :
  @HybridRecommender.recommend numpy_stable no_files unscored_hybrid 30 2 true
  = Ok (firstn 2 [ scenario_rec 1 9; scenario_rec 2 2; scenario_rec 4 8;
                   scenario_rec 5 3 ]).
Proof.
  apply (X13_single_recommender_ensemble
           numpy_stable no_files unscored_hybrid
           (Popularity scenario_popularity) 1 [] 30 2 true).
  - reflexivity.
  - reflexivity.
  - vm_compute. discriminate.
  - vm_compute. intros H. discriminate H.
  - vm_compute. reflexivity.
  - repeat constructor; simpl; intuition discriminate.
Defined.

(* ================================================================== *)
(** * Further properties: the sustainability scorer *)
(* ================================================================== *)

(** X14.  The two score accessors of the scorer agree.  Without a
    [destination_id] column both raise [KeyError]; for an id without a row
    the overall score is [0.0] and the detailed scores are the empty
    dictionary; for an id with a row that has the five metric cells and the
    overall cell, the detailed scores are the five metrics, in the order of
    [sustainability_weights], followed by ["overall"], whose value is what
    [get_sustainability_score] returns. *)
Theorem X14_score_accessors_agree (df : DataFrame.t) (destination_id : Z) :
  (in_columns "destination_id" (DataFrame.columns df) = false ->
   SustainabilityScorer.get_sustainability_score df destination_id
   = Raise (KeyError "destination_id") /\
   SustainabilityScorer.get_detailed_sustainability_scores df destination_id
   = Raise (KeyError "destination_id")) /\
  (in_columns "destination_id" (DataFrame.columns df) = true ->
   filter (DataFrame.cell_matches "destination_id" destination_id)
          (DataFrame.rows df) = [] ->
   SustainabilityScorer.get_sustainability_score df destination_id
   = Ok (VFloat 0) /\
   SustainabilityScorer.get_detailed_sustainability_scores df destination_id
   = Ok []) /\
  (forall r rs c w m b l overall,
      in_columns "destination_id" (DataFrame.columns df) = true ->
      filter (DataFrame.cell_matches "destination_id" destination_id)
             (DataFrame.rows df) = r :: rs ->
      row_lookup "carbon_footprint_score" r = Some c ->
      row_lookup "water_consumption_score" r = Some w ->
      row_lookup "waste_management_score" r = Some m ->
      row_lookup "biodiversity_impact_score" r = Some b ->
      row_lookup "local_economy_support_score" r = Some l ->
      row_lookup "overall_sustainability_score" r = Some overall ->
      SustainabilityScorer.get_sustainability_score df destination_id
      = Ok overall /\
      SustainabilityScorer.get_detailed_sustainability_scores
        df destination_id
      = Ok [ ("carbon_footprint_score", c); ("water_consumption_score", w);
             ("waste_management_score", m);
             ("biodiversity_impact_score", b);
             ("local_economy_support_score", l); ("overall", overall) ]).
Proof.
  unfold SustainabilityScorer.get_sustainability_score,
    SustainabilityScorer.get_detailed_sustainability_scores,
    DataFrame.select_eq.
  split; [|split].
  - intros H. rewrite H. split; reflexivity.
  - intros Hcol Hrows. rewrite Hcol. cbn [bind]. rewrite Hrows.
    split; reflexivity.
  - intros r rs c w m b l overall Hcol Hrows Hc Hw Hm Hb Hl Ho.
    rewrite Hcol. cbn [bind]. rewrite Hrows.
    unfold SustainabilityScorer.sustainability_weights.
    cbn [map fst mapM]. unfold DataFrame.getitem.
    rewrite Hc, Hw, Hm, Hb, Hl, Ho. split; reflexivity.
Qed.

Lemma X14_witness :
  SustainabilityScorer.get_sustainability_score metric_table 7
  = Ok (VFloat 0) /\
  SustainabilityScorer.get_detailed_sustainability_scores
    {| DataFrame.columns := ["name"]; DataFrame.rows := [] |} 7
  = Raise (KeyError "destination_id") /\
  SustainabilityScorer.get_detailed_sustainability_scores metric_table 2
  = Ok [ ("carbon_footprint_score", VFloat 2);
         ("water_consumption_score", VFloat 3);
         ("waste_management_score", VFloat 2);
         ("biodiversity_impact_score", VFloat 1);
         ("local_economy_support_score", VFloat 4);
         ("overall", VFloat (23 # 10)) ].
Proof.
  split; [|split].
  - apply (proj1 (proj2 (X14_score_accessors_agree metric_table 7)));
      reflexivity.
  - apply (proj1 (X14_score_accessors_agree
                    {| DataFrame.columns := ["name"]; DataFrame.rows := [] |}
                    7)).
    reflexivity.
  - apply (proj2 (proj2 (X14_score_accessors_agree metric_table 2))
             (metric_row 2 2 3 2 1 4 (23 # 10)) []);
      reflexivity.
Defined.

(* ------------------------------------------------------------------ *)
(** ** Re-ranking *)

Lemma combine_scores_recommendations (recs : list Rec.t) :
  forall bs ss ws,
    length bs = length recs -> length ss = length recs ->
    length ws = length recs ->
    map Weighted.recommendation
        (SustainabilityWeighting.combine_scores recs bs ss ws) = recs.
Proof.
  unfold SustainabilityWeighting.combine_scores.
  induction recs as [|rec recs IH]; intros bs ss ws Hb Hs Hw;
    [reflexivity|].
  destruct bs as [|b bs]; [discriminate|].
  destruct ss as [|s ss]; [discriminate|].
  destruct ws as [|w ws]; [discriminate|].
  simpl in *. f_equal. apply IH; lia.
Qed.

Lemma positional_scores_length (n : nat) :
  length (SustainabilityWeighting.positional_scores n) = n.
Proof.
  unfold SustainabilityWeighting.positional_scores.
  rewrite length_map, length_seq. reflexivity.
Qed.

Lemma apply_weighting_length (self : SustainabilityWeighting.t)
      (bs ss : list Q) (scheme : string) (w : Q) (kwargs : Kwargs)
      (ws : list Q) :
  SustainabilityWeighting.apply_weighting self bs ss scheme w kwargs = Ok ws ->
  length ws = Nat.min (length bs) (length ss).
Proof.
  unfold SustainabilityWeighting.apply_weighting.
  destruct (SustainabilityWeighting.lookup _ scheme) as [f|]; [|discriminate].
  intros H. rewrite (mapM_length _ _ _ H). apply length_combine.
Qed.

(** X15.  Re-ranking never adds, drops or duplicates a recommendation: what
    [apply_sustainability_weighting] and
    [apply_weighting_to_recommendations] return, for any weight, any scheme,
    registered by the class or by the caller, and any keyword arguments, is
    a permutation of the input list. *)
Theorem X15_reranking_permutes
        (st : Storage) (recs out : list Rec.t) (weight : Q) :
  (forall scorer,
      SustainabilityScorer.apply_sustainability_weighting scorer recs weight
      = Ok out ->
      Permutation out recs) /\
  (forall self scheme kwargs,
      SustainabilityWeighting.apply_weighting_to_recommendations
        self recs scheme weight kwargs = Ok out ->
      Permutation out recs).
Proof.
  split.
  - intros scorer H.
    apply (apply_sustainability_weighting_Ok_perm st scorer recs out weight H).
  - intros self scheme kwargs H.
    unfold SustainabilityWeighting.apply_weighting_to_recommendations in H.
    destruct recs as [|rec recs]; [injection H as <-; reflexivity|].
    cbv zeta in H.
    destruct (mapM SustainabilityWeighting.rec_sustainability (rec :: recs))
      as [ss|e] eqn:Hss; [|discriminate].
    cbn [bind] in H.
    destruct (SustainabilityWeighting.apply_weighting _ _ _ _ _ _)
      as [ws|e] eqn:Hws; [|discriminate].
    cbn [bind] in H. injection H as <-.
    rewrite sorted_desc_perm.
    assert (Hs := mapM_length _ _ _ Hss).
    assert (Hw := apply_weighting_length _ _ _ _ _ _ _ Hws).
    rewrite positional_scores_length, Hs, Nat.min_id in Hw.
    rewrite combine_scores_recommendations;
      [reflexivity|apply positional_scores_length|exact Hs|exact Hw].
Qed.

Lemma X15_witness :
  exists out,
    SustainabilityWeighting.apply_weighting_to_recommendations
      (@SustainabilityWeighting.init numpy_stable) scenario_recs "threshold"
      0.6 [("threshold", 0.5)] = Ok out /\
    Permutation out scenario_recs.
Proof.
  destruct (SustainabilityWeighting.apply_weighting_to_recommendations
              (@SustainabilityWeighting.init numpy_stable) scenario_recs
              "threshold" 0.6 [("threshold", 0.5)]) as [out|e] eqn:E;
    [|vm_compute in E; discriminate E].
  exists out. split; [reflexivity|].
  apply (proj2 (X15_reranking_permutes no_files scenario_recs out 0.6)
           (@SustainabilityWeighting.init numpy_stable) "threshold"
           [("threshold", 0.5)] E).
Defined.

Lemma weigh_one_key (df : DataFrame.t) (n_recs : nat) (p : nat * Rec.t)
      (w : Weighted.t) :
  SustainabilityScorer.weigh df 1 n_recs p = Ok w ->
  10 * Weighted.weighted_score w
  == table_score df (Weighted.recommendation w).
Proof.
  destruct p as [i rec]. unfold SustainabilityScorer.weigh, table_score.
  destruct (SustainabilityScorer.get_sustainability_score _ _) as [v|e]
    eqn:Hv; [|discriminate].
  cbn [bind]. destruct (as_float v) as [q|e] eqn:Hq; [|discriminate].
  cbn [bind]. intros H. injection H as <-.
  cbn [Weighted.weighted_score Weighted.recommendation].
  rewrite Hv. cbn [bind]. rewrite Hq. field.
Qed.

Lemma mapM_Forall_out {A B : Type} (f : A -> result B) (P : B -> Prop)
      (l : list A) (r : list B) :
  (forall a b, In a l -> f a = Ok b -> P b) ->
  mapM f l = Ok r -> Forall P r.
Proof.
  intros HP H.
  assert (H2 := mapM_Forall2 f (fun _ b => P b) l HP r H).
  clear H HP. induction H2; constructor; assumption.
Qed.

Lemma sorted_by_key {A : Type} (c : Q) (key : A -> Q) (g : Rec.t -> Q)
      (f : A -> Rec.t) (l : list A) :
  0 < c ->
  Forall (fun a => c * key a == g (f a)) l ->
  StronglySorted (fun r1 r2 => g r2 <= g r1) (map f (sorted_desc key l)).
Proof.
  intros Hc Hkey.
  apply (StronglySorted_map (fun r1 r2 => g r2 <= g r1) f).
  eapply StronglySorted_weaken; [|apply (sorted_desc_sorted _ key l)].
  intros a b Ha Hb H. cbv beta in *.
  rewrite Forall_forall in Hkey.
  assert (Ea := Hkey a (Permutation_in _ (sorted_desc_perm _ key l) Ha)).
  assert (Eb := Hkey b (Permutation_in _ (sorted_desc_perm _ key l) Hb)).
  rewrite <- Ea, <- Eb. apply Qmult_le_l; assumption.
Qed.

Lemma linear_one_keys (recs : list Rec.t) :
  forall bs ss,
    Forall2 (fun rec s => SustainabilityWeighting.rec_sustainability rec
                          = Ok s) recs ss ->
    Forall (fun w => 1 * Weighted.weighted_score w
                     == own_score (Weighted.recommendation w))
           (SustainabilityWeighting.combine_scores
              recs bs ss
              (map (fun p => SustainabilityWeighting._linear_weighting
                               (fst p) (snd p) 1)
                   (combine bs ss))).
Proof.
  unfold SustainabilityWeighting.combine_scores.
  intros bs ss H. revert bs.
  induction H as [|rec s recs ss Hs _ IH]; intros bs; [constructor|].
  destruct bs as [|b bs]; [constructor|].
  simpl. constructor; [|apply IH].
  cbn [Weighted.weighted_score Weighted.recommendation fst snd].
  unfold own_score. rewrite Hs.
  unfold SustainabilityWeighting._linear_weighting. ring.
Qed.

(** X16.  With weight 1 the position is ignored and the order is that of
    the sustainability scores alone: [apply_sustainability_weighting]
    returns the recommendations by descending score of the destination
    table, and the linear scheme of [apply_weighting_to_recommendations]
    by descending score carried by the recommendation. *)
Theorem X16_weight_one_sorts_by_sustainability
        (np : NumPy) (st : Storage) (recs out : list Rec.t) :
  (forall scorer df,
      SustainabilityScorer.loaded scorer = Ok df ->
      SustainabilityScorer.apply_sustainability_weighting scorer recs 1
      = Ok out ->
      StronglySorted (fun r1 r2 => table_score df r2 <= table_score df r1)
                     out) /\
  (SustainabilityWeighting.apply_weighting_to_recommendations
     SustainabilityWeighting.init recs "linear" 1 [] = Ok out ->
   StronglySorted (fun r1 r2 => own_score r2 <= own_score r1) out).
Proof.
  split.
  - intros scorer df Hdf H.
    unfold SustainabilityScorer.apply_sustainability_weighting in H.
    rewrite Hdf in H. cbn [bind] in H.
    destruct (mapM _ (enumerate recs)) as [wl|e] eqn:Hwl; [|discriminate].
    cbn [bind] in H. injection H as <-.
    apply (sorted_by_key 10 Weighted.weighted_score (table_score df));
      [reflexivity|].
    eapply mapM_Forall_out; [|exact Hwl].
    intros p w _ Hw. apply (weigh_one_key df (length recs) p w Hw).
  - intros H.
    unfold SustainabilityWeighting.apply_weighting_to_recommendations in H.
    destruct recs as [|rec recs]; [injection H as <-; constructor|].
    cbv zeta in H.
    destruct (mapM SustainabilityWeighting.rec_sustainability (rec :: recs))
      as [ss|e] eqn:Hss; [|discriminate].
    cbn [bind] in H.
    rewrite (@apply_weighting_total
               np SustainabilityWeighting._linear_weighting) in H
      by reflexivity.
    cbn [bind] in H. injection H as <-.
    apply (sorted_by_key 1 Weighted.weighted_score own_score);
      [reflexivity|].
    apply linear_one_keys.
    apply (mapM_Forall2 SustainabilityWeighting.rec_sustainability
                        (fun rec s =>
                           SustainabilityWeighting.rec_sustainability rec
                           = Ok s)
                        (rec :: recs)); [|exact Hss].
    intros a b _ Hab. exact Hab.
Qed.

Lemma X16_witness :
  exists out,
    @SustainabilityScorer.apply_sustainability_weighting
      no_files {| SustainabilityScorer.destinations := Some scenario_table |}
      scenario_recs 1 = Ok out /\
    StronglySorted (fun r1 r2 => table_score scenario_table r2
                                 <= table_score scenario_table r1) out.
Proof.
  destruct (@SustainabilityScorer.apply_sustainability_weighting
              no_files
              {| SustainabilityScorer.destinations := Some scenario_table |}
              scenario_recs 1) as [out|e] eqn:E;
    [|vm_compute in E; discriminate E].
  exists out. split; [reflexivity|].
  apply (proj1 (X16_weight_one_sorts_by_sustainability
                  numpy_stable no_files scenario_recs out)
           {| SustainabilityScorer.destinations := Some scenario_table |}
           scenario_table eq_refl E).
Defined.

Lemma meets_threshold_scored (df : DataFrame.t) (threshold : Q)
      (rec : Rec.t) :
  scored_table df = true ->
  SustainabilityScorer.meets_threshold df threshold rec
  = Ok (Qle_bool threshold (table_score df rec)).
Proof.
  intros Hdf.
  destruct (scored_table_lookup df (Rec.destination_id rec) Hdf)
    as (v & q & Hv & Hq).
  unfold SustainabilityScorer.meets_threshold, table_score.
  rewrite Hv. cbn [bind]. rewrite Hq. reflexivity.
Qed.

Lemma filter_loop (df : DataFrame.t) (threshold : Q) (recs : list Rec.t) :
  scored_table df = true ->
  forall acc,
    foldM (fun filtered_recs rec =>
             keep <- SustainabilityScorer.meets_threshold df threshold rec ;;
             Ok (if keep then (filtered_recs ++ [rec])%list
                 else filtered_recs))
          recs acc
    = Ok (acc ++ filter (fun rec => Qle_bool threshold (table_score df rec))
                        recs)%list.
Proof.
  intros Hdf. induction recs as [|rec recs IH]; intros acc.
  - simpl. rewrite app_nil_r. reflexivity.
  - cbn [foldM filter]. rewrite (meets_threshold_scored df threshold rec Hdf).
    cbn [bind]. rewrite IH.
    destruct (Qle_bool threshold (table_score df rec)); [|reflexivity].
    rewrite <- app_assoc. reflexivity.
Qed.

Lemma filter_idempotent {A : Type} (f : A -> bool) (l : list A) :
  filter f (filter f l) = filter f l.
Proof.
  induction l as [|x l IH]; simpl; [reflexivity|].
  destruct (f x) eqn:E; simpl; [rewrite E, IH|]; auto.
Qed.

(** X17.  On a destination table with numeric scores
    [filter_by_sustainability_threshold] keeps, in their order, exactly the
    recommendations whose score in the table (0.0 for an id the table does
    not have) is at least the threshold; filtering the result again with the
    same threshold changes nothing. *)
Theorem X17_threshold_filter
        (st : Storage) (scorer : SustainabilityScorer.t) (df : DataFrame.t)
        (recs : list Rec.t) (threshold : Q) :
  SustainabilityScorer.loaded scorer = Ok df ->
  scored_table df = true ->
  let kept := filter (fun rec => Qle_bool threshold (table_score df rec))
                     recs in
  SustainabilityScorer.filter_by_sustainability_threshold
    scorer recs threshold = Ok kept /\
  SustainabilityScorer.filter_by_sustainability_threshold
    scorer kept threshold = Ok kept.
Proof.
  intros Hload Hdf kept.
  unfold SustainabilityScorer.filter_by_sustainability_threshold.
  rewrite Hload. cbn [bind].
  rewrite !(filter_loop df threshold _ Hdf). cbn [app].
  split; [reflexivity|]. unfold kept. rewrite filter_idempotent.
  reflexivity.
Qed.

Lemma X17_witness :
  @SustainabilityScorer.filter_by_sustainability_threshold
    no_files {| SustainabilityScorer.destinations := Some scenario_table |}
    scenario_recs 6
  = Ok [scenario_rec 1 9; scenario_rec 4 8].
Proof.
  apply (proj1 (X17_threshold_filter
                  no_files
                  {| SustainabilityScorer.destinations :=
                       Some scenario_table |}
                  scenario_table scenario_recs 6 eq_refl eq_refl)).
Defined.

(* ================================================================== *)
(** * Further properties: the weighting schemes *)
(* ================================================================== *)

Lemma blend_unit (w b f : Q) :
  unit_interval w -> unit_interval b -> unit_interval f ->
  unit_interval ((1 - w) * b + w * f).
Proof.
  unfold unit_interval. intros [Hw0 Hw1] [Hb0 Hb1] [Hf0 Hf1]. split; nra.
Qed.

Lemma square_unit (s : Q) : unit_interval s -> unit_interval (s * s).
Proof. unfold unit_interval. intros [H0 H1]. split; nra. Qed.

Lemma sigmoid_unit (np : NumPy) (s : Q) :
  0 < exp (- (10) * (s - 0.5)) ->
  unit_interval (SustainabilityWeighting.sigmoid s).
Proof.
  intros He. unfold SustainabilityWeighting.sigmoid, unit_interval.
  set (e := exp (- (10) * (s - 0.5))) in *.
  split.
  - apply Qle_shift_div_l; lra.
  - apply Qle_shift_div_r; lra.
Qed.

Lemma threshold_factor_unit (s w : Q) :
  unit_interval w -> unit_interval s -> s < 0.7 ->
  unit_interval (s * (1 - (0.7 - s) / 0.7 * w)).
Proof.
  unfold unit_interval. intros [Hw0 Hw1] [Hs0 Hs1] Hlt.
  assert (E : (0.7 - s) / 0.7 == 1 - s * (10 # 7)) by field.
  rewrite E. set (p := 1 - s * (10 # 7)).
  assert (Hp0 : 0 <= p) by (unfold p; lra).
  assert (Hp1 : p <= 1) by (unfold p; lra).
  assert (Hpw0 : 0 <= p * w) by (apply Qmult_le_0_compat; assumption).
  assert (Hpw1 : p * w <= 1) by nra.
  set (q := p * w) in *. split; nra.
Qed.

Lemma threshold_default_unit (b s w x : Q) :
  unit_interval w -> unit_interval b -> unit_interval s ->
  SustainabilityWeighting._threshold_weighting b s w 0.7 = Ok x ->
  unit_interval x.
Proof.
  intros Hw Hb Hs. unfold SustainabilityWeighting._threshold_weighting.
  destruct (Qlt_bool s 0.7) eqn:Hlt.
  - rewrite py_div_ok by (intros H; discriminate H).
    cbn [bind]. intros H. injection H as <-.
    apply Qlt_bool_iff in Hlt.
    apply blend_unit; try assumption. apply threshold_factor_unit; assumption.
  - cbn [bind]. intros H. injection H as <-.
    apply blend_unit; assumption.
Qed.

(** X18.  The four schemes of the class keep scores in range: for a weight,
    base scores and sustainability scores in [0,1], [apply_weighting]
    (without keyword arguments) returns scores in [0,1]; for the sigmoid
    scheme this needs the exponential to be positive at the points where it
    is evaluated. *)
Theorem X18_schemes_stay_in_unit_interval
        (np : NumPy) (scheme : string)
        (base_scores sustainability_scores : list Q) (weight : Q) :
  In scheme ["linear"; "quadratic"; "sigmoid"; "threshold"] ->
  unit_interval weight ->
  Forall unit_interval base_scores ->
  Forall unit_interval sustainability_scores ->
  (scheme = "sigmoid" ->
   Forall (fun s => 0 < exp (- (10) * (s - 0.5))) sustainability_scores) ->
  exists scores,
    SustainabilityWeighting.apply_weighting
      SustainabilityWeighting.init base_scores sustainability_scores scheme
      weight [] = Ok scores /\
    Forall unit_interval scores.
Proof.
  intros Hscheme Hw Hb Hs Hexp.
  rewrite Forall_forall in Hb, Hs.
  assert (Hpair : forall p, In p (combine base_scores sustainability_scores) ->
                            unit_interval (fst p) /\ unit_interval (snd p)).
  { intros [b s] Hp. split.
    - apply Hb. apply (in_combine_l _ _ _ _ Hp).
    - apply Hs. apply (in_combine_r _ _ _ _ Hp). }
  simpl in Hscheme.
  destruct Hscheme as [<-|[<-|[<-|[<-|[]]]]].
  - rewrite (@apply_weighting_total
               np SustainabilityWeighting._linear_weighting) by reflexivity.
    eexists. split; [reflexivity|].
    apply Forall_forall. intros x Hx.
    apply in_map_iff in Hx as (p & <- & Hp).
    destruct (Hpair p Hp). apply blend_unit; assumption.
  - rewrite (@apply_weighting_total
               np SustainabilityWeighting._quadratic_weighting)
      by reflexivity.
    eexists. split; [reflexivity|].
    apply Forall_forall. intros x Hx.
    apply in_map_iff in Hx as (p & <- & Hp).
    destruct (Hpair p Hp).
    apply blend_unit; try assumption. apply square_unit. assumption.
  - rewrite (@apply_weighting_total
               np SustainabilityWeighting._sigmoid_weighting) by reflexivity.
    eexists. split; [reflexivity|].
    specialize (Hexp eq_refl). rewrite Forall_forall in Hexp.
    apply Forall_forall. intros x Hx.
    apply in_map_iff in Hx as (p & <- & Hp).
    destruct (Hpair p Hp).
    apply blend_unit; try assumption. apply sigmoid_unit.
    apply Hexp. destruct p as [b s]. apply (in_combine_r _ _ _ _ Hp).
  - destruct (@apply_threshold_total
                np base_scores sustainability_scores weight)
      as (scores & Hscores & _).
    exists scores. split; [exact Hscores|].
    unfold SustainabilityWeighting.apply_weighting in Hscores.
    rewrite (@lookup_threshold np) in Hscores.
    eapply mapM_Forall_out; [|exact Hscores].
    intros [b s] x Hp Hx. destruct (Hpair _ Hp) as [Hb' Hs'].
    apply (threshold_default_unit b s weight x Hw Hb' Hs' Hx).
Qed.

Lemma X18_witness :
  exists scores,
    SustainabilityWeighting.apply_weighting
      (@SustainabilityWeighting.init numpy_stable) [1; 0.5] [0.5; 0.5]
      "sigmoid" 0.3 [] = Ok scores /\
    Forall unit_interval scores.
Proof.
  apply (X18_schemes_stay_in_unit_interval
           numpy_stable "sigmoid" [1; 0.5] [0.5; 0.5] 0.3).
  - simpl. tauto.
  - split; discriminate.
  - repeat constructor; discriminate.
  - repeat constructor; discriminate.
  - intros _. repeat constructor.
Defined.

Lemma lookup_store_same (fs : list (string * WeightingFunction))
      (k : string) (f : WeightingFunction) :
  SustainabilityWeighting.lookup (SustainabilityWeighting.store fs k f) k
  = Some f.
Proof.
  induction fs as [|[k' f'] fs IH]; simpl.
  - rewrite String.eqb_refl. reflexivity.
  - destruct (String.eqb_spec k' k) as [->|Hne]; simpl.
    + rewrite String.eqb_refl. reflexivity.
    + destruct (String.eqb_spec k' k); [contradiction|exact IH].
Qed.

Lemma lookup_store_other (fs : list (string * WeightingFunction))
      (k k' : string) (f : WeightingFunction) :
  k' <> k ->
  SustainabilityWeighting.lookup (SustainabilityWeighting.store fs k f) k'
  = SustainabilityWeighting.lookup fs k'.
Proof.
  intros Hne. induction fs as [|[k0 f0] fs IH]; simpl.
  - destruct (String.eqb_spec k k'); [congruence|reflexivity].
  - destruct (String.eqb_spec k0 k) as [->|Hk]; simpl.
    + destruct (String.eqb_spec k k'); [congruence|reflexivity].
    + rewrite IH. reflexivity.
Qed.

Lemma store_keys (fs : list (string * WeightingFunction)) (k : string)
      (f : WeightingFunction) :
  map fst (SustainabilityWeighting.store fs k f)
  = if existsb (String.eqb k) (map fst fs) then map fst fs
    else (map fst fs ++ [k])%list.
Proof.
  induction fs as [|[k' f'] fs IH]; simpl; [reflexivity|].
  rewrite (String.eqb_sym k k').
  destruct (String.eqb k' k); simpl; [reflexivity|].
  rewrite IH. destruct (existsb _ _); reflexivity.
Qed.

(** X19.  [register_custom_weighting] followed by [apply_weighting]: the
    registered name applies the registered function to each zipped pair,
    also when the name was one of the four built-in schemes; every other
    registered scheme works as before; the key of an overwritten scheme
    keeps its place and a new key goes last. *)
Theorem X19_register_then_apply
        (self : SustainabilityWeighting.t) (name : string)
        (function : WeightingFunction) :
  let self' :=
    SustainabilityWeighting.register_custom_weighting self name function in
  (forall base_scores sustainability_scores weight kwargs,
      SustainabilityWeighting.apply_weighting
        self' base_scores sustainability_scores name weight kwargs
      = mapM (fun p : Q * Q =>
                let (base, sust) := p in function base sust weight kwargs)
             (combine base_scores sustainability_scores)) /\
  (forall scheme f base_scores sustainability_scores weight kwargs,
      scheme <> name ->
      SustainabilityWeighting.lookup
        (SustainabilityWeighting.weighting_functions self) scheme = Some f ->
      SustainabilityWeighting.apply_weighting
        self' base_scores sustainability_scores scheme weight kwargs
      = SustainabilityWeighting.apply_weighting
          self base_scores sustainability_scores scheme weight kwargs) /\
  map fst (SustainabilityWeighting.weighting_functions self')
  = if existsb (String.eqb name)
               (map fst (SustainabilityWeighting.weighting_functions self))
    then map fst (SustainabilityWeighting.weighting_functions self)
    else (map fst (SustainabilityWeighting.weighting_functions self)
          ++ [name])%list.
Proof.
  intros self'. split; [|split].
  - intros bs ss w kw. unfold SustainabilityWeighting.apply_weighting.
    unfold self', SustainabilityWeighting.register_custom_weighting.
    cbn [SustainabilityWeighting.weighting_functions].
    rewrite lookup_store_same. reflexivity.
  - intros scheme f bs ss w kw Hne Hf.
    unfold SustainabilityWeighting.apply_weighting.
    unfold self', SustainabilityWeighting.register_custom_weighting.
    cbn [SustainabilityWeighting.weighting_functions].
    rewrite (lookup_store_other _ _ _ _ Hne), Hf. reflexivity.
  - apply store_keys.
Qed.

Lemma X19_witness :
  SustainabilityWeighting.apply_weighting
    (SustainabilityWeighting.register_custom_weighting
       (@SustainabilityWeighting.init numpy_stable) "linear"
       (fun b s w _ => Ok (b * s)))
    [1; 0.5] [0.9; 0.2] "quadratic" 0.5 []
  = SustainabilityWeighting.apply_weighting
      (@SustainabilityWeighting.init numpy_stable)
      [1; 0.5] [0.9; 0.2] "quadratic" 0.5 [].
Proof.
  apply (proj1 (proj2 (X19_register_then_apply
                         (@SustainabilityWeighting.init numpy_stable)
                         "linear" (fun b s w _ => Ok (b * s))))
           "quadratic"
           (SustainabilityWeighting.no_kwargs
              SustainabilityWeighting._quadratic_weighting)).
  - discriminate.
  - reflexivity.
Defined.

(** X20.  The threshold scheme against the linear one.  For a positive
    threshold it always returns; at or above the threshold the score is the
    linear score; below it, for a weight and a sustainability score that are
    not negative, the score is at most the linear score. *)
Theorem X20_threshold_penalizes
        (base_score sustainability_score weight threshold : Q) :
  0 < threshold ->
  exists x,
    SustainabilityWeighting._threshold_weighting
      base_score sustainability_score weight threshold = Ok x /\
    (threshold <= sustainability_score ->
     x == SustainabilityWeighting._linear_weighting
            base_score sustainability_score weight) /\
    (0 <= weight -> 0 <= sustainability_score ->
     x <= SustainabilityWeighting._linear_weighting
            base_score sustainability_score weight).
Proof.
  unfold SustainabilityWeighting._threshold_weighting,
    SustainabilityWeighting._linear_weighting.
  intros Hth.
  destruct (Qlt_bool sustainability_score threshold) eqn:Hlt.
  - apply Qlt_bool_iff in Hlt.
    rewrite py_div_ok by lra. cbn [bind].
    eexists. split; [reflexivity|]. split.
    + intros Hge. lra.
    + intros Hw Hs.
      set (p := (threshold - sustainability_score) / threshold).
      assert (Hp : 0 <= p).
      { unfold p. apply Qle_shift_div_l; lra. }
      assert (H1 : 0 <= weight * sustainability_score)
        by (apply Qmult_le_0_compat; assumption).
      assert (H2 : 0 <= p * weight)
        by (apply Qmult_le_0_compat; assumption).
      assert (H3 := Qmult_le_0_compat _ _ H1 H2).
      assert (E : weight * (sustainability_score * (1 - p * weight))
                  == weight * sustainability_score
                     - weight * sustainability_score * (p * weight))
        by ring.
      rewrite E. lra.
  - cbn [bind]. eexists. split; [reflexivity|].
    split; intros; lra.
Qed.

Lemma X20_witness :
  exists x,
    SustainabilityWeighting._threshold_weighting 1 0.4 0.5 0.7 = Ok x /\
    x <= SustainabilityWeighting._linear_weighting 1 0.4 0.5.
Proof.
  destruct (X20_threshold_penalizes 1 0.4 0.5 0.7)
    as (x & Hx & _ & Hle); [reflexivity|].
  exists x. split; [exact Hx|]. apply Hle; discriminate.
Defined.



(* ================================================================== *)
(** * Further properties: the counterfactual explainer *)
(* ================================================================== *)

Lemma find_rank_ids (recs recs' : list Rec.t) (dest_id : Z) :
  map Rec.destination_id recs = map Rec.destination_id recs' ->
  forall i,
    CounterfactualExplainer.find_rank recs dest_id i
    = CounterfactualExplainer.find_rank recs' dest_id i.
Proof.
  revert recs'. induction recs as [|rec recs IH]; intros [|rec' recs'] H i;
    try discriminate; [reflexivity|].
  simpl in H. injection H as Hid Hrest. simpl. rewrite Hid.
  destruct (Z.eqb _ _); [reflexivity|]. apply IH, Hrest.
Qed.

Lemma format_ids (b : BaseRecommender.t) (idxs : list nat)
      (out : list Rec.t) :
  BaseRecommender._format_recommendations b idxs = Ok out ->
  mapM (BaseRecommender._get_destination_id b) idxs
  = Ok (map Rec.destination_id out).
Proof.
  unfold BaseRecommender._format_recommendations.
  revert out. induction idxs as [|i idxs IH]; intros out H; simpl in H.
  - injection H as <-. reflexivity.
  - destruct (BaseRecommender.format_one b i) as [rec|e] eqn:Hrec;
      [|discriminate].
    cbn [bind] in H.
    destruct (mapM (BaseRecommender.format_one b) idxs) as [recs|e];
      [|discriminate].
    cbn [bind] in H. injection H as <-.
    simpl. rewrite (IH recs eq_refl).
    unfold BaseRecommender.format_one in Hrec.
    destruct (BaseRecommender._get_destination_id b i) as [d|e];
      [|discriminate].
    cbn [bind] in *.
    repeat match type of Hrec with
           | bind ?m _ = Ok _ => destruct m; [|discriminate]; cbn [bind] in Hrec
           end.
    injection Hrec as <-. reflexivity.
Qed.

Section SameRanking.
Context {np : NumPy} {st : Storage}.

Lemma rank_and_format_ids (b : BaseRecommender.t) (df : DataFrame.t)
      (u : nat) (scores : list Q) (n : nat) (exclude_visited : bool)
      (out out' : list Rec.t) :
  BaseRecommender.rank_and_format b u scores n exclude_visited = Ok out ->
  BaseRecommender.rank_and_format
    (CounterfactualExplainer.set_base_destinations b df) u scores n
    exclude_visited = Ok out' ->
  map Rec.destination_id out = map Rec.destination_id out'.
Proof.
  unfold BaseRecommender.rank_and_format.
  change (BaseRecommender.unvisited
            (CounterfactualExplainer.set_base_destinations b df))
    with (BaseRecommender.unvisited b).
  destruct (if exclude_visited then _ else _) as [idxs|e]; [|discriminate].
  cbn [bind]. intros H H'.
  apply format_ids in H. apply format_ids in H'.
  change (BaseRecommender._get_destination_id
            (CounterfactualExplainer.set_base_destinations b df))
    with (BaseRecommender._get_destination_id b) in H'.
  congruence.
Qed.

(** A base recommender ranks the same destination ids on any destination
    table it is given. *)
Lemma recommend_ids (r : Recommender) (df : DataFrame.t) (user_id : Z)
      (out out' : list Rec.t) :
  CounterfactualExplainer.run (CounterfactualExplainer.Base r) user_id
  = Ok out ->
  CounterfactualExplainer.run
    (CounterfactualExplainer.set_destinations
       (CounterfactualExplainer.Base r) (Some df)) user_id = Ok out' ->
  map Rec.destination_id out = map Rec.destination_id out'.
Proof.
  destruct r as [p|c|c];
    cbn [CounterfactualExplainer.run CounterfactualExplainer.set_destinations
           recommend].
  - unfold PopularityRecommender.recommend.
    cbn [PopularityRecommender.base PopularityRecommender.popularity_scores].
    change (BaseRecommender._get_user_index
              (CounterfactualExplainer.set_base_destinations
                 (PopularityRecommender.base p) df))
      with (BaseRecommender._get_user_index (PopularityRecommender.base p)).
    destruct (BaseRecommender._get_user_index _ user_id) as [u|e];
      [|discriminate].
    cbn [bind]. apply rank_and_format_ids.
  - unfold ContentBasedRecommender.recommend.
    cbn [ContentBasedRecommender.base].
    change (BaseRecommender._get_user_index
              (CounterfactualExplainer.set_base_destinations
                 (ContentBasedRecommender.base c) df))
      with (BaseRecommender._get_user_index (ContentBasedRecommender.base c)).
    destruct (BaseRecommender._get_user_index _ user_id) as [u|e];
      [|discriminate].
    cbn [bind]. cbn [BaseRecommender.interaction_matrix
                       CounterfactualExplainer.set_base_destinations].
    destruct (matrix_row _ u) as [row|e]; [|discriminate].
    cbn [bind]. cbv zeta.
    destruct (Nat.eqb (length (where_pos row 0)) 0).
    + intros H H'. congruence.
    + unfold ContentBasedRecommender.similarity_scores.
      cbn [ContentBasedRecommender.base
             ContentBasedRecommender.feature_similarity
             BaseRecommender.dest_ids
             CounterfactualExplainer.set_base_destinations].
      destruct (foldM _ (where_pos row 0) _) as [acc|e]; [|discriminate].
      cbn [bind]. apply rank_and_format_ids.
  - unfold CollaborativeFilteringRecommender.recommend.
    cbn [CollaborativeFilteringRecommender.base
           CollaborativeFilteringRecommender.method].
    change (BaseRecommender._get_user_index
              (CounterfactualExplainer.set_base_destinations
                 (CollaborativeFilteringRecommender.base c) df))
      with (BaseRecommender._get_user_index
              (CollaborativeFilteringRecommender.base c)).
    destruct (BaseRecommender._get_user_index _ user_id) as [u|e];
      [|discriminate].
    cbn [bind].
    set (c' := {| CollaborativeFilteringRecommender.base := _ |}).
    assert (Hu : CollaborativeFilteringRecommender.user_scores c' u
                 = CollaborativeFilteringRecommender.user_scores c u)
      by reflexivity.
    assert (Hi : CollaborativeFilteringRecommender.item_scores c' u
                 = CollaborativeFilteringRecommender.item_scores c u)
      by reflexivity.
    rewrite Hu, Hi.
    destruct (match CollaborativeFilteringRecommender.method c with
              | CollaborativeFilteringRecommender.user => _
              | CollaborativeFilteringRecommender.item => _
              end) as [scores|e]; [|discriminate].
    cbn [bind]. apply rank_and_format_ids.
Qed.

Lemma run_ids (r : CounterfactualExplainer.AnyRecommender)
      (df : DataFrame.t) (user_id : Z) (out out' : list Rec.t) :
  CounterfactualExplainer.run r user_id = Ok out ->
  CounterfactualExplainer.run
    (CounterfactualExplainer.set_destinations r (Some df)) user_id = Ok out' ->
  map Rec.destination_id out = map Rec.destination_id out'.
Proof.
  destruct r as [b|h].
  - apply recommend_ids.
  - change (CounterfactualExplainer.run
              (CounterfactualExplainer.set_destinations
                 (CounterfactualExplainer.Hybrid h) (Some df)) user_id)
      with (CounterfactualExplainer.run (CounterfactualExplainer.Hybrid h)
                                        user_id).
    intros H H'. congruence.
Qed.
End SameRanking.

(** X22.  [generate_feature_counterfactual] cannot report a rank change.
    The recommender is re-run on the modified destination table without
    being fitted again, and no [recommend] ranks by that table: whenever an
    explanation is returned, for a base recommender or the hybrid one and
    whatever feature and target value, the counterfactual rank is the
    current rank and the rank change is 0. *)
Theorem X22_feature_counterfactual_keeps_rank
        (np : NumPy) (st : Storage) (self self' : CounterfactualExplainer.t)
        (user_id dest_id : Z) (feature : string) (target_value : Value)
        (x : CounterfactualExplainer.FeatureExplanation) :
  CounterfactualExplainer.generate_feature_counterfactual
    self user_id dest_id feature target_value
  = (Ok (CounterfactualExplainer.Explanation x), self') ->
  CounterfactualExplainer.f_counterfactual_rank x
  = CounterfactualExplainer.Rank (CounterfactualExplainer.f_current_rank x) /\
  CounterfactualExplainer.f_rank_change x = CounterfactualExplainer.Change 0.
Proof.
  unfold CounterfactualExplainer.generate_feature_counterfactual.
  destruct (CounterfactualExplainer.recommender self) as [r|];
    [|intros H; discriminate H].
  destruct (CounterfactualExplainer.load_data self) as [[self1 df]|e];
    [|intros H; discriminate H].
  destruct (negb (in_columns feature (DataFrame.columns df)));
    [intros H; discriminate H|].
  destruct (CounterfactualExplainer.run r user_id) as [current|e] eqn:Hcur;
    [|intros H; discriminate H].
  destruct (CounterfactualExplainer.find_rank current dest_id 0)
    as [current_rank|] eqn:Hrank; [|intros H; discriminate H].
  destruct (CounterfactualExplainer.modified_destinations _ _ _ _)
    as [[[dest_info current_value] modified]|e]; [|intros H; discriminate H].
  cbv zeta.
  destruct (CounterfactualExplainer.run
              (CounterfactualExplainer.set_destinations r (Some modified))
              user_id) as [cf|e] eqn:Hcf; [|intros H; discriminate H].
  unfold CounterfactualExplainer.feature_explanation. cbv zeta.
  rewrite <- (find_rank_ids current cf dest_id
                (run_ids r modified user_id current cf Hcur Hcf)).
  rewrite Hrank.
  destruct (DataFrame.getitem dest_info "name") as [nm|e];
    [|intros H; discriminate H].
  cbn [bind]. intros H. injection H as <- _.
  cbn [CounterfactualExplainer.f_counterfactual_rank
         CounterfactualExplainer.f_current_rank
         CounterfactualExplainer.f_rank_change
         CounterfactualExplainer.new_rank_of
         CounterfactualExplainer.rank_change_of].
  rewrite Z.sub_diag. split; reflexivity.
Qed.

Lemma X22_witness :
  exists x self',
    @CounterfactualExplainer.generate_feature_counterfactual
      numpy_stable no_files popularity_explainer 30 4 "name" (VStr "Peak")
    = (Ok (CounterfactualExplainer.Explanation x), self') /\
    CounterfactualExplainer.f_rank_change x = CounterfactualExplainer.Change 0.
Proof.
  assert (E : exists x self',
             @CounterfactualExplainer.generate_feature_counterfactual
               numpy_stable no_files popularity_explainer 30 4 "name"
               (VStr "Peak")
             = (Ok (CounterfactualExplainer.Explanation x), self')).
  { eexists. eexists. vm_compute. reflexivity. }
  destruct E as (x & self' & E). exists x, self'. split; [exact E|].
  apply (proj2 (X22_feature_counterfactual_keeps_rank
                  numpy_stable no_files popularity_explainer self' 30 4
                  "name" (VStr "Peak") x E)).
Defined.

Lemma find_rank_spec (recs : list Rec.t) (dest_id : Z) :
  forall i r,
    CounterfactualExplainer.find_rank recs dest_id i = Some r ->
    exists j,
      r = (i + j + 1)%nat /\ (j < length recs)%nat /\
      (exists rec, nth_error recs j = Some rec /\
                   Rec.destination_id rec = dest_id) /\
      forall j' rec, (j' < j)%nat -> nth_error recs j' = Some rec ->
                     Rec.destination_id rec <> dest_id.
Proof.
  induction recs as [|rec recs IH]; intros i r H; simpl in H;
    [discriminate|].
  destruct (Z.eqb_spec (Rec.destination_id rec) dest_id) as [E|Hne].
  - injection H as <-. exists 0%nat. split; [lia|]. split; [simpl; lia|].
    split; [exists rec; split; [reflexivity|exact E]|].
    intros j' rec' Hj'. lia.
  - destruct (IH (S i) r H) as (j & Hr & Hj & Hat & Hfirst).
    exists (S j). split; [lia|]. split; [simpl; lia|]. split; [exact Hat|].
    intros [|j'] rec' Hj' Hnth; simpl in Hnth.
    + injection Hnth as <-. exact Hne.
    + apply (Hfirst j' rec'); [lia|exact Hnth].
Qed.

Lemma find_rank_ranked (recs : list Rec.t) (dest_id : Z) (r : nat) :
  CounterfactualExplainer.find_rank recs dest_id 0 = Some r ->
  ranked_at recs dest_id r /\ (r <= length recs)%nat.
Proof.
  intros H. destruct (find_rank_spec recs dest_id 0 r H)
    as (j & -> & Hj & Hat & Hfirst).
  replace (0 + j + 1 - 1)%nat with j by lia.
  split; [|lia]. split; [lia|].
  replace (0 + j + 1 - 1)%nat with j by lia. split; assumption.
Qed.

Lemma find_rank_none (recs : list Rec.t) (dest_id : Z) :
  forall i,
    CounterfactualExplainer.find_rank recs dest_id i = None ->
    ~ In dest_id (map Rec.destination_id recs).
Proof.
  induction recs as [|rec recs IH]; intros i H; simpl in *; [tauto|].
  destruct (Z.eqb_spec (Rec.destination_id rec) dest_id) as [E|Hne];
    [discriminate|].
  intros [E|Hin]; [contradiction|]. apply (IH (S i) H Hin).
Qed.

Lemma nth_error_skipn {A : Type} (l : list A) :
  forall a x, nth_error l a = Some x -> skipn a l = x :: skipn (S a) l.
Proof.
  induction l as [|y l IH]; intros [|a] x H; simpl in H; try discriminate.
  - injection H as ->. reflexivity.
  - change (skipn (S a) (y :: l)) with (skipn a l).
    rewrite (IH a x H). reflexivity.
Qed.

Lemma moved_entry_name (recs : list Rec.t) (i : nat)
      (m : CounterfactualExplainer.Moved) :
  CounterfactualExplainer.moved_entry recs i = Ok m ->
  exists rec, nth_error recs i = Some rec /\
              CounterfactualExplainer.m_name m = Rec.name rec.
Proof.
  unfold CounterfactualExplainer.moved_entry.
  destruct (nth_error recs i) as [rec|]; [|discriminate].
  destruct (Rec.sustainability_score rec); [|discriminate].
  intros H. injection H as <-. exists rec. split; reflexivity.
Qed.

Lemma moved_names (recs : list Rec.t) (k : nat) :
  forall a l,
    mapM (CounterfactualExplainer.moved_entry recs) (seq a k) = Ok l ->
    map CounterfactualExplainer.m_name l
    = map Rec.name (firstn k (skipn a recs)).
Proof.
  induction k as [|k IH]; intros a l H; simpl in H.
  - injection H as <-. reflexivity.
  - destruct (CounterfactualExplainer.moved_entry recs a) as [m|e] eqn:Hm;
      [|discriminate].
    cbn [bind] in H.
    destruct (mapM _ (seq (S a) k)) as [ms|e] eqn:Hms; [|discriminate].
    cbn [bind] in H. injection H as <-.
    destruct (moved_entry_name recs a m Hm) as (rec & Hnth & Hname).
    rewrite (nth_error_skipn recs a rec Hnth). simpl.
    rewrite Hname, (IH (S a) ms Hms). reflexivity.
Qed.

Lemma moved_names_shifted (recs : list Rec.t) (k : nat) :
  forall a l,
    mapM (fun i => CounterfactualExplainer.moved_entry recs (i - 1))
         (seq (S a) k) = Ok l ->
    map CounterfactualExplainer.m_name l
    = map Rec.name (firstn k (skipn a recs)).
Proof.
  intros a l H. apply moved_names.
  rewrite <- H. clear H. revert a.
  induction k as [|k IH]; intros a; [reflexivity|].
  cbn [seq mapM]. rewrite (IH (S a)).
  replace (S a - 1)%nat with a by lia. reflexivity.
Qed.

Lemma moved_spec (current cf : list Rec.t) (cur new : nat)
      (up down : list CounterfactualExplainer.Moved) :
  (1 <= cur <= length current)%nat ->
  (1 <= new <= length cf)%nat ->
  CounterfactualExplainer.moved current cf cur (Some new) = Ok (up, down) ->
  ((new < cur)%nat ->
   up = [] /\
   map CounterfactualExplainer.m_name down
   = map Rec.name (firstn (cur - new) (skipn (new - 1) cf))) /\
  ((cur < new)%nat ->
   down = [] /\
   map CounterfactualExplainer.m_name up
   = map Rec.name (firstn (new - cur) (skipn (cur - 1) cf))) /\
  (new = cur -> up = [] /\ down = []).
Proof.
  intros Hcur Hnew. unfold CounterfactualExplainer.moved.
  destruct (Nat.eqb_spec cur new) as [E|Hne].
  - intros H. injection H as <- <-. repeat split; intros; try lia;
      reflexivity.
  - destruct (Nat.ltb_spec new cur) as [Hlt|Hge].
    + rewrite filter_all.
      * unfold CounterfactualExplainer.range.
        replace (cur - 1 - (new - 1))%nat with (cur - new)%nat by lia.
        destruct (mapM _ _) as [ms|e] eqn:Hms; [|discriminate].
        cbn [bind]. intros H. injection H as <- <-.
        split; [|split]; intros; try lia.
        split; [reflexivity|]. apply (moved_names cf _ _ _ Hms).
      * intros i Hi. unfold CounterfactualExplainer.range in Hi.
        apply in_seq in Hi. apply Nat.ltb_lt. lia.
    + rewrite filter_all.
      * unfold CounterfactualExplainer.range.
        destruct (mapM _ _) as [ms|e] eqn:Hms; [|discriminate].
        cbn [bind]. intros H. injection H as <- <-.
        split; [|split]; intros; try lia.
        split; [reflexivity|].
        replace cur with (S (cur - 1)) in Hms at 1 by lia.
        apply (moved_names_shifted cf _ _ _ Hms).
      * intros i Hi. unfold CounterfactualExplainer.range in Hi.
        apply in_seq in Hi. apply Nat.ltb_lt. lia.
Qed.

(** X24.  What an explanation of [generate_sustainability_counterfactual]
    says.  The recommender has a sustainability weight (it is the hybrid
    one); the current rank is the first position, counted from 1, of the
    destination in its answer, and the counterfactual rank that in the answer
    under the target weight; the rank change is their difference;
    [current_weight] is the argument of the call.  When the rank improves
    from [c] to [r], [moved_down] names the [c - r] entries of the
    counterfactual answer from rank [r] on; when it worsens, [moved_up] names
    the [r - c] entries from rank [c] on; the other list is empty, and both
    are when the rank is unchanged or the destination dropped out. *)
Theorem X24_sustainability_explanation_contents
        (np : NumPy) (st : Storage) (self self' : CounterfactualExplainer.t)
        (user_id dest_id : Z) (sustainability_weight target_weight : Q)
        (x : CounterfactualExplainer.SustainabilityExplanation) :
  CounterfactualExplainer.generate_sustainability_counterfactual
    self user_id dest_id sustainability_weight target_weight
  = (Ok (CounterfactualExplainer.Explanation x), self') ->
  let c := CounterfactualExplainer.s_current_rank x in
  exists r w current cf,
    CounterfactualExplainer.recommender self = Some r /\
    CounterfactualExplainer.get_weight r = Ok w /\
    CounterfactualExplainer.run r user_id = Ok current /\
    CounterfactualExplainer.run
      (CounterfactualExplainer.set_weight r target_weight) user_id = Ok cf /\
    ranked_at current dest_id c /\
    CounterfactualExplainer.s_current_weight x = sustainability_weight /\
    CounterfactualExplainer.s_counterfactual_weight x = target_weight /\
    match CounterfactualExplainer.s_counterfactual_rank x with
    | CounterfactualExplainer.Rank new =>
        ranked_at cf dest_id new /\
        CounterfactualExplainer.s_rank_change x
        = CounterfactualExplainer.Change (Z.of_nat c - Z.of_nat new) /\
        ((new < c)%nat ->
         CounterfactualExplainer.s_moved_up x = [] /\
         map CounterfactualExplainer.m_name
             (CounterfactualExplainer.s_moved_down x)
         = map Rec.name (firstn (c - new) (skipn (new - 1) cf))) /\
        ((c < new)%nat ->
         CounterfactualExplainer.s_moved_down x = [] /\
         map CounterfactualExplainer.m_name
             (CounterfactualExplainer.s_moved_up x)
         = map Rec.name (firstn (new - c) (skipn (c - 1) cf))) /\
        (new = c ->
         CounterfactualExplainer.s_moved_up x = [] /\
         CounterfactualExplainer.s_moved_down x = [])
    | CounterfactualExplainer.NotInTop20 =>
        ~ In dest_id (map Rec.destination_id cf) /\
        CounterfactualExplainer.s_rank_change x
        = CounterfactualExplainer.DroppedOut /\
        CounterfactualExplainer.s_moved_up x = [] /\
        CounterfactualExplainer.s_moved_down x = []
    end.
Proof.
  unfold CounterfactualExplainer.generate_sustainability_counterfactual.
  destruct (CounterfactualExplainer.recommender self) as [r|];
    [|intros H; discriminate H].
  destruct (CounterfactualExplainer.load_data self) as [[self1 df]|e];
    [|intros H; discriminate H].
  destruct (CounterfactualExplainer.run r user_id) as [current|e] eqn:Hcur;
    [|intros H; discriminate H].
  destruct (CounterfactualExplainer.find_rank current dest_id 0)
    as [cur|] eqn:Hrank; [|intros H; discriminate H].
  destruct (CounterfactualExplainer.get_weight r) as [w|e] eqn:Hw;
    [|intros H; discriminate H].
  cbv zeta.
  destruct (CounterfactualExplainer.run
              (CounterfactualExplainer.set_weight r target_weight) user_id)
    as [cf|e] eqn:Hcf; [|intros H; discriminate H].
  unfold CounterfactualExplainer.sustainability_explanation. cbv zeta.
  destruct (DataFrame.select_eq df "destination_id" dest_id) as [sel|e];
    [|intros H; discriminate H].
  cbn [bind].
  destruct (DataFrame.iloc0 sel) as [dest_info|e];
    [|intros H; discriminate H].
  cbn [bind].
  destruct (DataFrame.getitem dest_info "overall_sustainability_score")
    as [score|e]; [|intros H; discriminate H].
  cbn [bind].
  destruct (CounterfactualExplainer.moved current cf cur _)
    as [[up down]|e] eqn:Hmv; [|intros H; discriminate H].
  cbn [bind].
  destruct (DataFrame.getitem dest_info "name") as [nm|e];
    [|intros H; discriminate H].
  cbn [bind fst snd]. intros H. injection H as <- _.
  cbn [CounterfactualExplainer.s_current_rank
         CounterfactualExplainer.s_current_weight
         CounterfactualExplainer.s_counterfactual_weight
         CounterfactualExplainer.s_counterfactual_rank
         CounterfactualExplainer.s_rank_change
         CounterfactualExplainer.s_moved_up
         CounterfactualExplainer.s_moved_down].
  destruct (find_rank_ranked current dest_id cur Hrank) as [Hranked Hle].
  exists r, w, current, cf.
  repeat (split; [first [reflexivity|assumption]|]).
  destruct (CounterfactualExplainer.find_rank cf dest_id 0) as [new|]
    eqn:Hnew; cbn [CounterfactualExplainer.new_rank_of
                     CounterfactualExplainer.rank_change_of].
  - destruct (find_rank_ranked cf dest_id new Hnew) as [Hranked' Hle'].
    split; [exact Hranked'|]. split; [reflexivity|].
    apply (moved_spec current cf cur new up down); try assumption.
    + destruct Hranked as [H1 _]. lia.
    + destruct Hranked' as [H1 _]. lia.
  - split; [apply (find_rank_none cf dest_id 0 Hnew)|].
    split; [reflexivity|].
    unfold CounterfactualExplainer.moved in Hmv. injection Hmv as <- <-.
    split; reflexivity.
Qed.

Lemma X24_witness :
  exists x self',
    @CounterfactualExplainer.generate_sustainability_counterfactual
      numpy_stable no_files scored_explainer 30 2 0.3 1
    = (Ok (CounterfactualExplainer.Explanation x), self') /\
    CounterfactualExplainer.s_current_weight x = 0.3.
Proof.
  assert (E : exists x self',
             @CounterfactualExplainer.generate_sustainability_counterfactual
               numpy_stable no_files scored_explainer 30 2 0.3 1
             = (Ok (CounterfactualExplainer.Explanation x), self')).
  { eexists. eexists. vm_compute. reflexivity. }
  destruct E as (x & self' & E). exists x, self'. split; [exact E|].
  destruct (X24_sustainability_explanation_contents
              numpy_stable no_files scored_explainer self' 30 2 0.3 1 x E)
    as (r & w & current & cf & _ & _ & _ & _ & _ & Hw & _).
  exact Hw.
Defined.



(* ================================================================== *)
(** * Further properties: the demo application *)
(* ================================================================== *)

Section Compare.
Context {np : NumPy} {st : Storage}.


End Compare.



(* ================================================================== *)
(** * Further properties: the evaluation metrics *)
(* ================================================================== *)

Lemma py_sum_le_length (l : list Q) :
  Forall (fun x => x <= 1) l -> py_sum l <= inject_Z (Z.of_nat (length l)).
Proof.
  induction 1 as [|x l Hx _ IH]; [apply Qle_refl|].
  rewrite py_sum_cons. cbn [length]. rewrite Nat2Z.inj_succ.
  unfold Z.succ. rewrite inject_Z_plus. change (inject_Z 1) with 1. lra.
Qed.

Lemma py_sum_perm (l l' : list Q) :
  Permutation l l' -> py_sum l == py_sum l'.
Proof.
  induction 1 as [|x l l' _ IH|x y l|l l' l'' _ IH1 _ IH2].
  - reflexivity.
  - rewrite !py_sum_cons, IH. reflexivity.
  - rewrite !py_sum_cons. ring.
  - rewrite IH1. exact IH2.
Qed.

Section Metrics.
Context {np : NumPy}.

Variables y_true y_pred : list Q.
Hypothesis y_true_unit : Forall unit_interval y_true.
Hypothesis same_length : length y_pred = length y_true.

Lemma hits_bounds (k : nat) :
  exists h,
    metrics.hits y_true y_pred k = Ok h /\
    0 <= h /\ h <= inject_Z (Z.of_nat k) /\ h <= py_sum y_true.
Proof.
  unfold metrics.hits. cbv zeta.
  set (order := argsort (vec_neg y_pred)).
  assert (Hlen : length (vec_neg y_pred) = length y_true).
  { unfold vec_neg. rewrite length_map. exact same_length. }
  assert (Hrange : forall i, In i order -> (i < length y_true)%nat).
  { intros i Hi. apply argsort_in_range in Hi. lia. }
  assert (Hunit : forall i, In i order ->
                            unit_interval (nth i y_true 0)).
  { intros i Hi. rewrite Forall_forall in y_true_unit.
    apply y_true_unit, nth_In, Hrange, Hi. }
  rewrite take_ok.
  2:{ apply Forall_forall. intros i Hi. apply Hrange.
      apply (in_firstn k order i Hi). }
  cbn [bind]. eexists. split; [reflexivity|].
  set (f := fun i => nth i y_true 0).
  assert (Hfirst : Forall unit_interval (map f (firstn k order))).
  { apply Forall_forall. intros x Hx.
    apply in_map_iff in Hx as (i & <- & Hi).
    apply Hunit. apply (in_firstn k order i Hi). }
  split; [|split].
  - apply py_sum_ge_0. eapply Forall_impl; [|exact Hfirst].
    intros x Hx. apply Hx.
  - eapply Qle_trans.
    + apply py_sum_le_length. eapply Forall_impl; [|exact Hfirst].
      intros x Hx. apply Hx.
    + rewrite length_map. rewrite <- Zle_Qle.
      apply Nat2Z.inj_le. apply firstn_le_length.
  - assert (Hall : py_sum (map f order) == py_sum y_true).
    { unfold order.
      rewrite (py_sum_perm _ _ (Permutation_map
                                  f (argsort_perm (vec_neg y_pred)))).
      rewrite Hlen. unfold f. rewrite map_nth_seq. reflexivity. }
    rewrite <- Hall.
    rewrite <- (firstn_skipn k order) at 2.
    rewrite map_app, py_sum_app.
    assert (Hrest : 0 <= py_sum (map f (skipn k order))).
    { apply py_sum_ge_0. apply Forall_forall. intros x Hx.
      apply in_map_iff in Hx as (i & <- & Hi).
      apply Hunit. rewrite <- (firstn_skipn k order).
      apply in_or_app. right. exact Hi. }
    lra.
Qed.
End Metrics.

(** X27.  For relevance values in [0,1] (binary ones in particular) and one
    prediction per value, [precision_at_k] and [recall_at_k] return for every
    [k], and what they return lies in [0,1]. *)
Theorem X27_precision_and_recall_in_unit_interval
        (np : NumPy) (y_true y_pred : list Q) (k : nat) :
  Forall unit_interval y_true ->
  length y_pred = length y_true ->
  exists p r,
    metrics.precision_at_k y_true y_pred k = Ok p /\
    metrics.recall_at_k y_true y_pred k = Ok r /\
    unit_interval p /\ unit_interval r.
Proof.
  intros Hunit Hlen.
  destruct (hits_bounds y_true y_pred Hunit Hlen k)
    as (h & Hh & H0 & Hk & Hsum).
  assert (Hzero : unit_interval 0) by (split; discriminate).
  assert (Hp : exists p, metrics.precision_at_k y_true y_pred k = Ok p /\
                         unit_interval p).
  { unfold metrics.precision_at_k.
    destruct (Nat.eqb (length y_true) 0); [exists 0; split; auto|].
    destruct (Nat.eqb_spec k 0) as [->|Hk0]; [exists 0; split; auto|].
    cbn [orb]. rewrite Hh. cbn [bind]. eexists. split; [reflexivity|].
    assert (Hpos : 0 < inject_Z (Z.of_nat k)).
    { replace 0 with (inject_Z 0) by reflexivity. rewrite <- Zlt_Qlt. lia. }
    split.
    - apply Qle_shift_div_l; [exact Hpos|]. lra.
    - apply Qle_shift_div_r; [exact Hpos|]. lra. }
  assert (Hr : exists r, metrics.recall_at_k y_true y_pred k = Ok r /\
                         unit_interval r).
  { unfold metrics.recall_at_k.
    destruct (Nat.eqb (length y_true) 0); [exists 0; split; auto|].
    destruct (Qeq_bool (py_sum y_true) 0) eqn:Hs; [exists 0; split; auto|].
    destruct (Nat.eqb k 0); [exists 0; split; auto|].
    cbn [orb]. rewrite Hh. cbn [bind]. eexists. split; [reflexivity|].
    assert (Hpos : 0 < py_sum y_true).
    { assert (Hge : 0 <= py_sum y_true).
      { apply py_sum_ge_0. eapply Forall_impl; [|exact Hunit].
        intros x Hx. apply Hx. }
      apply Qeq_bool_neq in Hs. lra. }
    split.
    - apply Qle_shift_div_l; [exact Hpos|]. lra.
    - apply Qle_shift_div_r; [exact Hpos|]. lra. }
  destruct Hp as (p & Hp & Hpu). destruct Hr as (r & Hr & Hru).
  exists p, r. repeat split; assumption || apply Hpu || apply Hru.
Qed.

Lemma X27_witness :
  exists p r,
    @metrics.precision_at_k numpy_stable [1; 0; 1; 0] [0.9; 0.8; 0.1; 0.3] 2
    = Ok p /\
    @metrics.recall_at_k numpy_stable [1; 0; 1; 0] [0.9; 0.8; 0.1; 0.3] 2
    = Ok r /\
    unit_interval p /\ unit_interval r.
Proof.
  apply X27_precision_and_recall_in_unit_interval.
  - repeat constructor; discriminate.
  - reflexivity.
Defined.







Lemma unique_length (l : list Value) :
  (length (metrics.unique l) <= length l)%nat.
Proof.
  induction l as [|x l IH]; simpl; [lia|].
  destruct (existsb _ l); simpl; lia.
Qed.

Lemma unique_nonempty (l : list Value) :
  l <> [] -> metrics.unique l <> [].
Proof.
  induction l as [|x l IH]; intros H; [congruence|]. simpl.
  destruct (existsb (metrics.value_eqb x) l) eqn:E; [|discriminate].
  apply IH. intros ->. discriminate E.
Qed.

Lemma present_countries_length (recs : list Row) :
  (length (metrics.present_countries recs) <= length recs)%nat.
Proof.
  induction recs as [|rec recs IH]; simpl; [lia|].
  rewrite length_app. destruct (row_lookup "country" rec); simpl; lia.
Qed.

Lemma present_countries_nil (recs : list Row) :
  Forall (fun rec => row_lookup "country" rec = None) recs ->
  metrics.present_countries recs = [].
Proof.
  induction 1 as [|rec recs Hrec _ IH]; simpl; [reflexivity|].
  rewrite Hrec, IH. reflexivity.
Qed.

Lemma present_countries_some (recs : list Row) :
  Exists (fun rec => row_lookup "country" rec <> None) recs ->
  metrics.present_countries recs <> [].
Proof.
  induction 1 as [rec recs Hrec|rec recs _ IH]; simpl.
  - destruct (row_lookup "country" rec); [discriminate|congruence].
  - intros H. apply app_eq_nil in H as [_ H]. contradiction.
Qed.

(** X29.  [diversity_score], the number of distinct countries among the
    recommendations that have the key [country], over the number of
    recommendations, lies in [0,1]; it is positive when some recommendation
    has a country, and 0 when none has (in particular for the empty list).
    It is positive for every list, not empty, of dictionaries as
    [_format_recommendations] builds them. *)
Theorem X29_diversity_score_range (recs : list Row) :
  unit_interval (metrics.diversity_score recs) /\
  (Exists (fun rec => row_lookup "country" rec <> None) recs ->
   0 < metrics.diversity_score recs) /\
  (Forall (fun rec => row_lookup "country" rec = None) recs ->
   metrics.diversity_score recs == 0) /\
  (forall formatted : list Rec.t,
      recs = map as_dict formatted -> formatted <> [] ->
      0 < metrics.diversity_score recs).
Proof.
  assert (Hpositive :
            Exists (fun rec => row_lookup "country" rec <> None) recs ->
            0 < metrics.diversity_score recs).
  { intros Hex. destruct recs as [|rec recs].
    { apply Exists_nil in Hex. contradiction. }
    unfold metrics.diversity_score. cbv zeta.
    set (l := rec :: recs) in *.
    assert (Hl : 0 < inject_Z (Z.of_nat (length l))).
    { replace 0 with (inject_Z 0) by reflexivity. rewrite <- Zlt_Qlt.
      unfold l. simpl. lia. }
    assert (Hu := unique_nonempty _ (present_countries_some l Hex)).
    apply Qlt_shift_div_l; [exact Hl|].
    rewrite Qmult_0_l. replace 0 with (inject_Z 0) by reflexivity.
    rewrite <- Zlt_Qlt.
    destruct (metrics.unique (metrics.present_countries l)); [congruence|].
    simpl. lia. }
  split; [|split; [exact Hpositive|split]].
  - destruct recs as [|rec recs]; [split; discriminate|].
    unfold metrics.diversity_score. cbv zeta.
    set (l := rec :: recs).
    assert (Hl : 0 < inject_Z (Z.of_nat (length l))).
    { replace 0 with (inject_Z 0) by reflexivity. rewrite <- Zlt_Qlt.
      unfold l. simpl. lia. }
    assert (H1 := unique_length (metrics.present_countries l)).
    assert (H2 := present_countries_length l).
    split.
    + apply Qle_shift_div_l; [exact Hl|].
      rewrite Qmult_0_l. replace 0 with (inject_Z 0) by reflexivity.
      rewrite <- Zle_Qle. lia.
    + apply Qle_shift_div_r; [exact Hl|].
      rewrite Qmult_1_l. rewrite <- Zle_Qle. lia.
  - intros Hnone. destruct recs as [|rec recs]; [reflexivity|].
    unfold metrics.diversity_score. cbv zeta.
    rewrite (present_countries_nil _ Hnone). reflexivity.
  - intros formatted -> Hne. apply Hpositive.
    destruct formatted as [|rec formatted]; [congruence|].
    simpl. apply Exists_cons_hd. discriminate.
Qed.

Lemma X29_witness :
  0 < metrics.diversity_score (map as_dict scenario_recs) /\
  metrics.diversity_score [ [ ("destination_id", VInt 1) ];
                            [ ("destination_id", VInt 2) ] ] == 0.
Proof.
  split.
  - apply (proj2 (proj2 (proj2 (X29_diversity_score_range
                                  (map as_dict scenario_recs))))
             scenario_recs eq_refl).
    discriminate.
  - apply (proj1 (proj2 (proj2 (X29_diversity_score_range
                                  [ [ ("destination_id", VInt 1) ];
                                    [ ("destination_id", VInt 2) ] ])))).
    repeat constructor.
Defined.

(* ================================================================== *)
(** * Further properties: re-ranking keeps dominating pairs in order *)
(* ================================================================== *)

Section Stability.
Variable A : Type.
Variable key : A -> Q.

Lemma before_insert (a b x : A) (l : list A) :
  before a b l -> before a b (insert_desc key x l).
Proof.
  induction 1 as [l Hb|y l Hab IH]; simpl.
  - destruct (Qle_bool (key a) (key x)).
    + apply before_skip, before_here, Hb.
    + apply before_here.
      apply (Permutation_in _ (Permutation_sym (insert_desc_perm _ key x l))).
      right. exact Hb.
  - destruct (Qle_bool (key y) (key x)).
    + apply before_skip, before_skip, Hab.
    + apply before_skip, IH.
Qed.

Lemma insert_before (x b : A) (l : list A) :
  In b l -> key b <= key x -> before x b (insert_desc key x l).
Proof.
  intros Hin Hle. induction l as [|y l IH]; [contradiction|]. simpl.
  destruct (Qle_bool (key y) (key x)) eqn:E.
  - apply before_here, Hin.
  - destruct Hin as [->|Hin].
    + apply Qle_bool_iff in Hle. congruence.
    + apply before_skip, IH, Hin.
Qed.

Lemma sorted_desc_before (a b : A) (l : list A) :
  before a b l -> key b <= key a -> before a b (sorted_desc key l).
Proof.
  intros H Hle. induction H as [l Hb|y l Hab IH]; simpl.
  - apply insert_before; [|exact Hle].
    apply (Permutation_in _ (Permutation_sym (sorted_desc_perm _ key l))).
    exact Hb.
  - apply before_insert, IH.
Qed.
End Stability.

Lemma before_map {A B : Type} (f : A -> B) (a b : A) (l : list A) :
  before a b l -> before (f a) (f b) (map f l).
Proof.
  induction 1 as [l Hb|y l Hab IH]; simpl.
  - apply before_here, in_map, Hb.
  - apply before_skip, IH.
Qed.

Lemma Forall2_in_left {A B : Type} (R : A -> B -> Prop) (l : list A)
      (l' : list B) (a : A) :
  Forall2 R l l' -> In a l -> exists b, In b l' /\ R a b.
Proof.
  induction 1 as [|x y l l' Hxy _ IH]; intros Hin; [contradiction|].
  destruct Hin as [<-|Hin].
  - exists y. split; [left; reflexivity|exact Hxy].
  - destruct (IH Hin) as (b & Hb & HR). exists b.
    split; [right; exact Hb|exact HR].
Qed.

Lemma before_Forall2 {A B : Type} (R : A -> B -> Prop) (l : list A)
      (l' : list B) (a b : A) :
  Forall2 R l l' -> before a b l ->
  exists a' b', before a' b' l' /\ R a a' /\ R b b'.
Proof.
  intros H Hab. revert l' H.
  induction Hab as [l Hb|y l Hab IH]; intros l' H;
    inversion H as [|x0 y0 l0 l0' Hxy Hrest]; subst.
  - destruct (Forall2_in_left R l l0' b Hrest Hb) as (b' & Hb' & HR).
    exists y0, b'. split; [apply before_here, Hb'|]. split; assumption.
  - destruct (IH l0' Hrest) as (a' & b' & Hab' & Ha & Hb).
    exists a', b'. split; [apply before_skip, Hab'|]. split; assumption.
Qed.

Lemma before_enumerate {A : Type} (a b : A) (l : list A) :
  before a b l ->
  forall k, exists i j,
    (i <= j)%nat /\ before (i, a) (j, b) (combine (seq k (length l)) l).
Proof.
  induction 1 as [l Hb|y l Hab IH]; intros k; simpl.
  - apply In_nth_error in Hb as (m & Hm).
    exists k, (S k + m)%nat. split; [lia|]. apply before_here.
    clear -Hm. revert k m Hm.
    induction l as [|x l IH]; intros k [|m] Hm; simpl in *; try discriminate.
    + injection Hm as ->. left. f_equal. lia.
    + right. replace (S (k + S m)) with (S (S k) + m)%nat by lia.
      apply IH, Hm.
  - destruct (IH (S k)) as (i & j & Hij & H). exists i, j.
    split; [exact Hij|]. apply before_skip, H.
Qed.

Lemma weigh_key (df : DataFrame.t) (weight : Q) (n_recs : nat)
      (p : nat * Rec.t) (w : Weighted.t) :
  SustainabilityScorer.weigh df weight n_recs p = Ok w ->
  Weighted.recommendation w = snd p /\
  Weighted.weighted_score w
  == (1 - weight) * scorer_base n_recs (fst p)
     + weight * (table_score df (snd p) / 10).
Proof.
  destruct p as [i rec]. cbn [fst snd].
  unfold SustainabilityScorer.weigh, table_score.
  destruct (SustainabilityScorer.get_sustainability_score _ _) as [v|e];
    [|discriminate].
  cbn [bind]. destruct (as_float v) as [q|e]; [|discriminate].
  cbn [bind]. intros H. injection H as <-.
  cbn [Weighted.weighted_score Weighted.recommendation].
  split; reflexivity.
Qed.

(** X30.  Re-ranking by [apply_sustainability_weighting] with a weight in
    [0,1] keeps dominating pairs in order: a recommendation that stands
    before another one and whose score in the destination table is not lower
    still stands before it in the result (the sort is stable, so also when
    the weighted scores tie). *)
Theorem X30_reranking_keeps_dominating_pairs
        (st : Storage) (scorer : SustainabilityScorer.t) (df : DataFrame.t)
        (recs out : list Rec.t) (weight : Q) (r1 r2 : Rec.t) :
  0 <= weight -> weight <= 1 ->
  SustainabilityScorer.loaded scorer = Ok df ->
  SustainabilityScorer.apply_sustainability_weighting scorer recs weight
  = Ok out ->
  before r1 r2 recs ->
  table_score df r2 <= table_score df r1 ->
  before r1 r2 out.
Proof.
  intros Hw0 Hw1 Hdf Hout Hbefore Hscore.
  unfold SustainabilityScorer.apply_sustainability_weighting in Hout.
  rewrite Hdf in Hout. cbn [bind] in Hout.
  destruct (mapM _ (enumerate recs)) as [wl|e] eqn:Hwl; [|discriminate].
  cbn [bind] in Hout. injection Hout as <-.
  assert (H2 := mapM_Forall2
                  (SustainabilityScorer.weigh df weight (length recs))
                  (fun p w =>
                     Weighted.recommendation w = snd p /\
                     Weighted.weighted_score w
                     == (1 - weight) * scorer_base (length recs) (fst p)
                        + weight * (table_score df (snd p) / 10))
                  (enumerate recs)
                  (fun p w _ H => weigh_key df weight (length recs) p w H)
                  wl Hwl).
  destruct (before_enumerate r1 r2 recs Hbefore 0) as (i & j & Hij & Hb).
  destruct (before_Forall2 _ _ _ _ _ H2 Hb)
    as (w1 & w2 & Hw & (Hr1 & Hk1) & (Hr2 & Hk2)).
  cbn [fst snd] in *.
  rewrite <- Hr1, <- Hr2. apply before_map.
  apply sorted_desc_before; [exact Hw|].
  rewrite Hk1, Hk2.
  assert (Hbase := scorer_base_antitone (length recs) i j Hij).
  set (b1 := scorer_base (length recs) i) in *.
  set (b2 := scorer_base (length recs) j) in *.
  set (s1 := table_score df r1) in *.
  set (s2 := table_score df r2) in *.
  assert (E1 : s1 / 10 == s1 * (1 # 10)) by field.
  assert (E2 : s2 / 10 == s2 * (1 # 10)) by field.
  rewrite E1, E2. nra.
Qed.

Lemma X30_witness :
  exists out,
    @SustainabilityScorer.apply_sustainability_weighting
      no_files {| SustainabilityScorer.destinations := Some scenario_table |}
      scenario_recs 0.5 = Ok out /\
    before (scenario_rec 1 9) (scenario_rec 4 8) out.
Proof.
  destruct (@SustainabilityScorer.apply_sustainability_weighting
              no_files
              {| SustainabilityScorer.destinations := Some scenario_table |}
              scenario_recs 0.5) as [out|e] eqn:E;
    [|vm_compute in E; discriminate E].
  exists out. split; [reflexivity|].
  apply (X30_reranking_keeps_dominating_pairs
           no_files
           {| SustainabilityScorer.destinations := Some scenario_table |}
           scenario_table scenario_recs out 0.5
           (scenario_rec 1 9) (scenario_rec 4 8)).
  - discriminate.
  - discriminate.
  - reflexivity.
  - exact E.
  - apply before_here. simpl. tauto.
  - vm_compute. discriminate.
Defined.
